(** * Navigation session of mapa-rora-bets: a shallow embedding of src/App.tsx

    src/App.tsx holds two variants of the application component.  The first
    (lines 2-469) has no cache and records a track point on every location
    update while navigating; it is embedded as [AppV1].  The second (lines
    471-1107) adds the module-level [searchCache], the displacement filter of
    [handleLocationUpdate] and the arrival time of [fetchStreetRoute]; it is
    embedded as [AppV2].

    React state is one record per variant; a handler is a function on that
    record that performs the handler's [setX] calls in source order.  An
    [await] splits a handler in two: the part before it, which leaves a
    continuation in [inflight], and the part after it, run by [settle] when
    the awaited reply arrives.  Replies can be settled in any order.

    Numbers are IEEE binary64 ([PrimFloat.float]), as in JavaScript.
    [speakStatus] (src/services/geminiService.ts) only plays audio: it
    writes no state cell and no handler waits for a result of it that it
    then uses, so its calls are left out. *)

From Stdlib Require Import ZArith List String Ascii Bool Lia.
From Stdlib Require Import Floats.PrimFloat Floats.FloatOps Floats.SpecFloat.
From Stdlib Require Import Uint63 DecimalString.
From Stdlib Require Floats.FloatAxioms DecimalFacts DecimalPos DecimalN.
From stdpp Require Import base option list strings gmap sorting.

#[local] Set Warnings "-inexact-float,-register-all".
#[local] Open Scope Z_scope.

(* ===================================================================== *)
(** ** The JavaScript platform: values, numbers, formatting             *)
(* ===================================================================== *)

Module JS.

(** A value as [JSON.parse] or a property read can produce it.  An object
    is the list of its own enumerable properties in insertion order. *)
Inductive JsValue : Type :=
| JUndefined
| JNull
| JBool (b : bool)
| JNum (x : float)
| JStr (s : string)
| JArr (items : list JsValue)
| JObj (fields : list (string * JsValue)).

Definition JsObject : Type := list (string * JsValue).

(** [o[k]] for an own property, [undefined] when there is none. *)
Fixpoint obj_get (k : string) (o : JsObject) : JsValue :=
  match o with
  | [] => JUndefined
  | (k', v) :: rest => if String.eqb k k' then v else obj_get k rest
  end.

(** [{ ...o, k: v }]: an existing key keeps its position and takes the
    new value, a new key goes last. *)
Fixpoint obj_set (k : string) (v : JsValue) (o : JsObject) : JsObject :=
  match o with
  | [] => [(k, v)]
  | (k', v') :: rest =>
      if String.eqb k k' then (k, v) :: rest else (k', v') :: obj_set k v rest
  end.

(** Completion of an evaluation: a value, or an exception on its way up. *)
Inductive Completion (A : Type) : Type :=
| Normal (a : A)
| Throw.
Arguments Normal {A} a.
Arguments Throw {A}.

(** [v.k]: a TypeError on [undefined] and [null]; on an object the own
    property; on the other primitives and arrays the names read here
    ([cityName], [bars], [lat], ...) are not defined. *)
Definition prop (k : string) (v : JsValue) : Completion JsValue :=
  match v with
  | JUndefined | JNull => Throw
  | JObj o => Normal (obj_get k o)
  | _ => Normal JUndefined
  end.

(** ToBoolean. *)
Definition truthy (v : JsValue) : bool :=
  match v with
  | JUndefined | JNull => false
  | JBool b => b
  | JNum x => negb (PrimFloat.is_zero x || PrimFloat.is_nan x)
  | JStr s => negb (String.eqb s "")
  | JArr _ | JObj _ => true
  end.

(** [a || b]. *)
Definition js_or (a b : JsValue) : JsValue := if truthy a then a else b.

Definition asNumber (v : JsValue) : option float :=
  match v with JNum x => Some x | _ => None end.

(** Decimal digits of a natural number. *)
Definition digits (n : N) : string := NilZero.string_of_uint (N.to_uint n).

Fixpoint zeros (k : nat) : string :=
  match k with O => "" | S k' => String "0" (zeros k') end.

(** The own enumerable properties copied by a spread [{ ...v }]: those of
    an object, the indexed elements of an array, the indexed characters of
    a string, nothing for the other primitives. *)
Fixpoint indexed (i : N) (items : list JsValue) : JsObject :=
  match items with
  | [] => []
  | v :: rest => (digits i, v) :: indexed (N.succ i) rest
  end.

Fixpoint chars (s : string) : list JsValue :=
  match s with
  | EmptyString => []
  | String c rest => JStr (String c EmptyString) :: chars rest
  end.

Definition spread (v : JsValue) : JsObject :=
  match v with
  | JObj o => o
  | JArr items => indexed 0%N items
  | JStr s => indexed 0%N (chars s)
  | _ => []
  end.

(** *** Number.prototype.toFixed

    For a finite [x] the result is the decimal expansion of the integer
    [n] for which [n / 10^f - |x|] is closest to zero (the larger [n] on a
    tie), with a point before the last [f] digits and a minus sign when
    [x < 0].  [x] is [m * 2^e] exactly, so [n] is computed in [Z].
    Beyond [10^21] JavaScript prints an exponent; such magnitudes do not
    occur for coordinates or kilometres and are printed in full here. *)
Definition scaled_round (m : positive) (e : Z) (f : nat) : N :=
  let p := Zpos m * 10 ^ Z.of_nat f in
  Z.to_N (if 0 <=? e then p * 2 ^ e
          else (2 * p + 2 ^ (- e)) / (2 * 2 ^ (- e))).

Definition fixed_digits (n : N) (f : nat) : string :=
  let d := digits n in
  let d := zeros (S f - String.length d) +:+ d in
  let k := (String.length d - f)%nat in
  match f with
  | O => d
  | _ => substring 0 k d +:+ "." +:+ substring k f d
  end.

Definition toFixed (f : nat) (x : float) : string :=
  match Prim2SF x with
  | S754_nan => "NaN"
  | S754_infinity false => "Infinity"
  | S754_infinity true => "-Infinity"
  | S754_zero _ => fixed_digits 0 f
  | S754_finite s m e =>
      (if s then "-" else "") +:+ fixed_digits (scaled_round m e f) f
  end.

(** *** Math.round followed by string concatenation

    [Math.round(x)] is the integer closest to [x], the larger one on a
    tie; [NaN] and the infinities are returned as they are.  Its result is
    only ever concatenated to a string, so it is kept as an exact integer
    ([-0] prints as [0]; beyond [10^21] JavaScript prints an exponent,
    here the digits are printed in full). *)
Inductive Rounded : Type :=
| RNaN
| RInfinity (negative : bool)
| RInt (n : Z).

Definition Math_round (x : float) : Rounded :=
  match Prim2SF x with
  | S754_nan => RNaN
  | S754_infinity s => RInfinity s
  | S754_zero _ => RInt 0
  | S754_finite s m e =>
      let v := if s then Zneg m else Zpos m in
      RInt (if 0 <=? e then v * 2 ^ e
            else (2 * v + 2 ^ (- e)) / (2 * 2 ^ (- e)))
  end.

Definition Rounded_toString (r : Rounded) : string :=
  match r with
  | RNaN => "NaN"
  | RInfinity false => "Infinity"
  | RInfinity true => "-Infinity"
  | RInt n => (if n <? 0 then "-" else "") +:+ digits (Z.abs_N n)
  end.

(** The Number for an integer time value ([Date.now()] is an integer
    number of milliseconds, far below [2^53]). *)
Definition Number_of_Z (z : Z) : float :=
  if z <? 0 then PrimFloat.opp (PrimFloat.of_uint63 (Uint63.of_Z (- z)))
  else PrimFloat.of_uint63 (Uint63.of_Z z).

(** What the host provides and the repository does not define. *)
Record Platform : Type := {
  (** [Math.atan2(y, x)] *)
  Math_atan2 : float -> float -> float;
  (** the value of the [n]-th evaluation of
      [Math.random().toString(36).substr(2, 9)] since the page loaded *)
  randomId : nat -> string;
  (** [new Date(t).toLocaleTimeString([], {hour:'2-digit', minute:'2-digit'})] *)
  toLocaleTimeString : float -> string;
  (** [String.prototype.trim] and [String.prototype.toLowerCase] *)
  String_trim : string -> string;
  String_toLowerCase : string -> string
}.

Definition Math_PI : float := 3.141592653589793%float.

End JS.

Import JS.

(* ===================================================================== *)
(** ** Data shared by the two variants (types.ts, replies of the services) *)
(* ===================================================================== *)

Record Location : Type := { lat : float; lng : float }.

(** [TrackingPath]: [timestamp] is a [Date.now()] reading in milliseconds. *)
Record TrackingPath : Type := { timestamp : Z; location : Location }.

(** The second argument of [handleStatusUpdate]. *)
Inductive Report : Type := success | failure.

Definition Report_str (r : Report) : string :=
  match r with success => "success" | failure => "failure" end.

(** What [await ai.models.generateContent(...)] followed by
    [JSON.parse(response.text || <default>)] comes to. *)
Inductive AiResponse : Type :=
| Rejected                (* the call rejects *)
| EmptyText               (* response.text is undefined or '': the default literal is parsed *)
| Malformed               (* JSON.parse throws a SyntaxError *)
| Parsed (v : JsValue).   (* JSON.parse(response.text) is v *)

(** [JSON.parse] of the literal ['{"bars":[], "districts": []}']. *)
Definition emptyCityData : JsValue :=
  JObj [("bars", JArr []); ("districts", JArr [])].

(** The value parsed inside [fetchCityData]'s [try], if that point is reached. *)
Definition cityPayload (r : AiResponse) : option JsValue :=
  match r with
  | Rejected | Malformed => None
  | EmptyText => Some emptyCityData
  | Parsed v => Some v
  end.

(** [b => ({ ...b, id: Math.random().toString(36).substr(2, 9), status: 'pending' })] *)
Definition asBusiness (b : JsValue) (id : string) : JsObject :=
  obj_set "status" (JStr "pending") (obj_set "id" (JStr id) (spread b)).

(** [d => ({ ...d, id: Math.random().toString(36).substr(2, 9), covered: false })] *)
Definition asDistrict (d : JsValue) (id : string) : JsObject :=
  obj_set "covered" (JBool false) (obj_set "id" (JStr id) (spread d)).

(** [items.map(f)] where [f] evaluates the random id expression once per
    element; [n] is the number of evaluations made before. *)
Fixpoint mint (P : Platform) (f : JsValue -> string -> JsObject)
    (items : list JsValue) (n : nat) : list JsObject :=
  match items with
  | [] => []
  | v :: rest => f v (randomId P n) :: mint P f rest (S n)
  end.

(** The ids [mint] hands out. *)
Definition drawn (P : Platform) (n k : nat) : list string :=
  map (randomId P) (seq n k).

Definition idOf (o : JsObject) : JsValue := obj_get "id" o.
Definition statusOf (o : JsObject) : JsValue := obj_get "status" o.
Definition coveredOf (o : JsObject) : JsValue := obj_get "covered" o.

(** The first route of an OSRM reply: [geometry.coordinates] as
    [[lng, lat]] pairs, [distance] in metres, [duration] in seconds. *)
Record OsrmRoute : Type := {
  coordinates : list (float * float);
  distance : float;
  duration : float
}.

(** What [await fetch(...)] followed by [await response.json()] comes to. *)
Inductive RouteResponse : Type :=
| RouteRejected                         (* either await rejects *)
| RouteData (routes : list OsrmRoute).  (* data.routes, [] when absent *)

(** The object [fetchStreetRoute] returns in the second variant. *)
Record StreetRoute : Type := {
  points : list (float * float);
  sr_distance : string;
  sr_time : string;
  sr_arrivalTime : string
}.

(** [b.id === id] *)
Definition hasId (id : string) (b : JsObject) : bool :=
  match idOf b with JStr s => String.eqb s id | _ => false end.

(** [prev => prev.map(b => b.id === id ? { ...b, status } : b)] *)
Definition markStatus (id : string) (status : Report)
    (prev : list JsObject) : list JsObject :=
  map (fun b => if hasId id b
                then obj_set "status" (JStr (Report_str status)) b
                else b) prev.

(** [threshold < |a - b|] on either axis, in the order the source subtracts. *)
Definition exceeds (threshold : float) (alat alng blat blng : float) : bool :=
  (threshold <? PrimFloat.abs (alat - blat))%float
  || (threshold <? PrimFloat.abs (alng - blng))%float.

(* ===================================================================== *)
(** ** Statements that may throw: state and exception                    *)
(* ===================================================================== *)

(** A statement transforms the state [S] and completes normally or throws.
    A [setX] call made before a throw stays made. *)
Definition Eff (S A : Type) : Type := S -> S * Completion A.

Definition ret {S A} (a : A) : Eff S A := fun w => (w, Normal a).

Definition bind {S A B} (m : Eff S A) (k : A -> Eff S B) : Eff S B :=
  fun w => match m w with
           | (w', Normal a) => k a w'
           | (w', Throw) => (w', Throw)
           end.

Definition liftC {S A} (c : Completion A) : Eff S A := fun w => (w, c).

Declare Scope eff_scope.
Delimit Scope eff_scope with eff.
Notation "x <- m ;; k" := (bind m (fun x => k))
  (at level 100, m at next level, right associativity) : eff_scope.
Notation "m ;; k" := (bind m (fun _ => k))
  (at level 100, right associativity) : eff_scope.

(** [try { m } catch (error) { console.error(error) }] *)
Definition try_catch {S} (m : Eff S unit) (w : S) : S := fst (m w).

(* ===================================================================== *)
(** ** The first variant (src/App.tsx, lines 2-469)                      *)
(* ===================================================================== *)

Module AppV1.

(** [ActiveNavigation] (lines 80-85). *)
Record ActiveNavigation : Type := {
  nav_target : JsObject;
  nav_distance : string;
  nav_time : string;
  nav_geometry : list (float * float)
}.

(** The [useState] cells (lines 88-104) read or written by
    [toggleNavigation], [fetchCityData], [handleLocationUpdate] and
    [handleStatusUpdate]. *)
Record Session : Type := {
  currentLocation : option Location;
  trackingPath : list TrackingPath;
  businesses : list JsObject;
  districts : list JsObject;
  cityPopulation : JsValue;
  cityName : JsValue;
  isLoading : bool;
  isNavigating : bool;
  activeNavigation : option ActiveNavigation;
  carRotation : float
}.

Definition setCurrentLocation v (s : Session) : Session :=
  {| currentLocation := v; trackingPath := trackingPath s;
     businesses := businesses s; districts := districts s;
     cityPopulation := cityPopulation s; cityName := cityName s;
     isLoading := isLoading s; isNavigating := isNavigating s;
     activeNavigation := activeNavigation s; carRotation := carRotation s |}.

Definition setTrackingPath (f : list TrackingPath -> list TrackingPath)
    (s : Session) : Session :=
  {| currentLocation := currentLocation s; trackingPath := f (trackingPath s);
     businesses := businesses s; districts := districts s;
     cityPopulation := cityPopulation s; cityName := cityName s;
     isLoading := isLoading s; isNavigating := isNavigating s;
     activeNavigation := activeNavigation s; carRotation := carRotation s |}.

Definition setBusinesses (f : list JsObject -> list JsObject)
    (s : Session) : Session :=
  {| currentLocation := currentLocation s; trackingPath := trackingPath s;
     businesses := f (businesses s); districts := districts s;
     cityPopulation := cityPopulation s; cityName := cityName s;
     isLoading := isLoading s; isNavigating := isNavigating s;
     activeNavigation := activeNavigation s; carRotation := carRotation s |}.

Definition setDistricts v (s : Session) : Session :=
  {| currentLocation := currentLocation s; trackingPath := trackingPath s;
     businesses := businesses s; districts := v;
     cityPopulation := cityPopulation s; cityName := cityName s;
     isLoading := isLoading s; isNavigating := isNavigating s;
     activeNavigation := activeNavigation s; carRotation := carRotation s |}.

Definition setCityPopulation v (s : Session) : Session :=
  {| currentLocation := currentLocation s; trackingPath := trackingPath s;
     businesses := businesses s; districts := districts s;
     cityPopulation := v; cityName := cityName s;
     isLoading := isLoading s; isNavigating := isNavigating s;
     activeNavigation := activeNavigation s; carRotation := carRotation s |}.

Definition setCityName v (s : Session) : Session :=
  {| currentLocation := currentLocation s; trackingPath := trackingPath s;
     businesses := businesses s; districts := districts s;
     cityPopulation := cityPopulation s; cityName := v;
     isLoading := isLoading s; isNavigating := isNavigating s;
     activeNavigation := activeNavigation s; carRotation := carRotation s |}.

Definition setIsLoading v (s : Session) : Session :=
  {| currentLocation := currentLocation s; trackingPath := trackingPath s;
     businesses := businesses s; districts := districts s;
     cityPopulation := cityPopulation s; cityName := cityName s;
     isLoading := v; isNavigating := isNavigating s;
     activeNavigation := activeNavigation s; carRotation := carRotation s |}.

Definition setIsNavigating v (s : Session) : Session :=
  {| currentLocation := currentLocation s; trackingPath := trackingPath s;
     businesses := businesses s; districts := districts s;
     cityPopulation := cityPopulation s; cityName := cityName s;
     isLoading := isLoading s; isNavigating := v;
     activeNavigation := activeNavigation s; carRotation := carRotation s |}.

Definition setActiveNavigation v (s : Session) : Session :=
  {| currentLocation := currentLocation s; trackingPath := trackingPath s;
     businesses := businesses s; districts := districts s;
     cityPopulation := cityPopulation s; cityName := cityName s;
     isLoading := isLoading s; isNavigating := isNavigating s;
     activeNavigation := v; carRotation := carRotation s |}.

Definition setCarRotation v (s : Session) : Session :=
  {| currentLocation := currentLocation s; trackingPath := trackingPath s;
     businesses := businesses s; districts := districts s;
     cityPopulation := cityPopulation s; cityName := cityName s;
     isLoading := isLoading s; isNavigating := isNavigating s;
     activeNavigation := activeNavigation s; carRotation := v |}.

(** The session and the number of random id expressions evaluated so far. *)
Record World : Type := { session : Session; randomCalls : nat }.

Definition onSession (f : Session -> Session) (w : World) : World :=
  {| session := f (session w); randomCalls := randomCalls w |}.

Definition set (f : Session -> Session) : Eff World unit :=
  fun w => (onSession f w, Normal tt).

Section WithPlatform.

Variable P : Platform.

Definition array_map (f : JsValue -> string -> JsObject) (arr : JsValue)
    : Eff World (list JsObject) :=
  fun w => match arr with
           | JArr items =>
               ({| session := session w;
                   randomCalls := (randomCalls w + length items)%nat |},
                Normal (mint P f items (randomCalls w)))
           | _ => (w, Throw)
           end.

(** The statements of [fetchCityData] that follow [JSON.parse]
    (lines 173-176). *)
Definition applyResult (result : JsValue) (placeName : string)
    : Eff World unit :=
  (name <- liftC (prop "cityName" result) ;;
   set (setCityName (js_or name (JStr placeName))) ;;
   population <- liftC (prop "cityPopulation" result) ;;
   set (setCityPopulation (js_or population (JStr "Não informado"))) ;;
   bars <- liftC (prop "bars" result) ;;
   bs <- array_map asBusiness bars ;;
   set (setBusinesses (fun _ => bs)) ;;
   ds <- liftC (prop "districts" result) ;;
   ds <- array_map asDistrict ds ;;
   set (setDistricts ds))%eff.

(** [fetchCityData] (lines 162-183) with the reply its [await] receives;
    [lat] and [lng] only enter the prompt. *)
Definition fetchCityData (placeName : string) (response : AiResponse)
    (w : World) : World :=
  let w := onSession (setIsLoading true) w in
  let w :=
    match cityPayload response with
    | None => w
    | Some result => try_catch (applyResult result placeName) w
    end in
  onSession (setIsLoading false) w.

(** [toggleNavigation] (lines 150-160). *)
Definition toggleNavigation (s : Session) : Session :=
  if isNavigating s then
    setActiveNavigation None (setTrackingPath (fun _ => []) (setIsNavigating false s))
  else
    setIsNavigating true s.

(** [handleLocationUpdate] (lines 185-196); [now] is the [Date.now()]
    read by the updater. *)
Definition handleLocationUpdate (loc : Location) (now : Z) (s : Session)
    : Session :=
  let tracking := isNavigating s in
  let s :=
    match currentLocation s with
    | Some cur =>
        let dy := (lat loc - lat cur)%float in
        let dx := (lng loc - lng cur)%float in
        let angle := (Math_atan2 P dx dy * (180 / Math_PI))%float in
        setCarRotation angle s
    | None => s
    end in
  let s := setCurrentLocation (Some loc) s in
  if tracking then
    setTrackingPath (fun prev => prev ++ [{| timestamp := now; location := loc |}]) s
  else s.

(** [handleStatusUpdate] (lines 198-201). *)
Definition handleStatusUpdate (id : string) (status : Report) (s : Session)
    : Session :=
  setBusinesses (markStatus id status) s.

End WithPlatform.

End AppV1.

(* ===================================================================== *)
(** ** The second variant (src/App.tsx, lines 471-1107)                  *)
(* ===================================================================== *)

Module AppV2.

(** [ActiveNavigation] (lines 556-562). *)
Record ActiveNavigation : Type := {
  nav_target : JsObject;
  nav_distance : string;
  nav_time : string;
  nav_arrivalTime : string;
  nav_geometry : list (float * float)
}.

(** The [useState] cells of [App] (lines 565-584) that the handlers below
    read or write.  [isDetecting], [citySuggestions], [activeTab],
    [isSidebarOpen] and [isDarkMode] only drive the presentation.
    Elements of [businesses] and [districts] are the objects built by
    [applyCityData]. *)
Record Session : Type := {
  currentLocation : option Location;
  mapCenter : JsValue;
  trackingPath : list TrackingPath;
  businesses : list JsObject;
  districts : list JsObject;
  cityPopulation : JsValue;
  cityName : JsValue;
  isLoading : bool;
  citySearchQuery : string;
  showSuggestions : bool;
  isNavigating : bool;
  activeNavigation : option ActiveNavigation;
  selectedPoint : JsValue;
  carRotation : float;
  followUser : bool
}.

Definition setCurrentLocation v (s : Session) : Session :=
  {| currentLocation := v; mapCenter := mapCenter s; trackingPath := trackingPath s;
     businesses := businesses s; districts := districts s;
     cityPopulation := cityPopulation s; cityName := cityName s;
     isLoading := isLoading s; citySearchQuery := citySearchQuery s;
     showSuggestions := showSuggestions s; isNavigating := isNavigating s;
     activeNavigation := activeNavigation s; selectedPoint := selectedPoint s;
     carRotation := carRotation s; followUser := followUser s |}.

Definition setMapCenter v (s : Session) : Session :=
  {| currentLocation := currentLocation s; mapCenter := v; trackingPath := trackingPath s;
     businesses := businesses s; districts := districts s;
     cityPopulation := cityPopulation s; cityName := cityName s;
     isLoading := isLoading s; citySearchQuery := citySearchQuery s;
     showSuggestions := showSuggestions s; isNavigating := isNavigating s;
     activeNavigation := activeNavigation s; selectedPoint := selectedPoint s;
     carRotation := carRotation s; followUser := followUser s |}.

(** [setTrackingPath] is called with a value and with an updater. *)
Definition setTrackingPath (f : list TrackingPath -> list TrackingPath)
    (s : Session) : Session :=
  {| currentLocation := currentLocation s; mapCenter := mapCenter s;
     trackingPath := f (trackingPath s);
     businesses := businesses s; districts := districts s;
     cityPopulation := cityPopulation s; cityName := cityName s;
     isLoading := isLoading s; citySearchQuery := citySearchQuery s;
     showSuggestions := showSuggestions s; isNavigating := isNavigating s;
     activeNavigation := activeNavigation s; selectedPoint := selectedPoint s;
     carRotation := carRotation s; followUser := followUser s |}.

Definition setBusinesses (f : list JsObject -> list JsObject)
    (s : Session) : Session :=
  {| currentLocation := currentLocation s; mapCenter := mapCenter s;
     trackingPath := trackingPath s;
     businesses := f (businesses s); districts := districts s;
     cityPopulation := cityPopulation s; cityName := cityName s;
     isLoading := isLoading s; citySearchQuery := citySearchQuery s;
     showSuggestions := showSuggestions s; isNavigating := isNavigating s;
     activeNavigation := activeNavigation s; selectedPoint := selectedPoint s;
     carRotation := carRotation s; followUser := followUser s |}.

Definition setDistricts v (s : Session) : Session :=
  {| currentLocation := currentLocation s; mapCenter := mapCenter s;
     trackingPath := trackingPath s;
     businesses := businesses s; districts := v;
     cityPopulation := cityPopulation s; cityName := cityName s;
     isLoading := isLoading s; citySearchQuery := citySearchQuery s;
     showSuggestions := showSuggestions s; isNavigating := isNavigating s;
     activeNavigation := activeNavigation s; selectedPoint := selectedPoint s;
     carRotation := carRotation s; followUser := followUser s |}.

Definition setCityPopulation v (s : Session) : Session :=
  {| currentLocation := currentLocation s; mapCenter := mapCenter s;
     trackingPath := trackingPath s;
     businesses := businesses s; districts := districts s;
     cityPopulation := v; cityName := cityName s;
     isLoading := isLoading s; citySearchQuery := citySearchQuery s;
     showSuggestions := showSuggestions s; isNavigating := isNavigating s;
     activeNavigation := activeNavigation s; selectedPoint := selectedPoint s;
     carRotation := carRotation s; followUser := followUser s |}.

Definition setCityName v (s : Session) : Session :=
  {| currentLocation := currentLocation s; mapCenter := mapCenter s;
     trackingPath := trackingPath s;
     businesses := businesses s; districts := districts s;
     cityPopulation := cityPopulation s; cityName := v;
     isLoading := isLoading s; citySearchQuery := citySearchQuery s;
     showSuggestions := showSuggestions s; isNavigating := isNavigating s;
     activeNavigation := activeNavigation s; selectedPoint := selectedPoint s;
     carRotation := carRotation s; followUser := followUser s |}.

Definition setIsLoading v (s : Session) : Session :=
  {| currentLocation := currentLocation s; mapCenter := mapCenter s;
     trackingPath := trackingPath s;
     businesses := businesses s; districts := districts s;
     cityPopulation := cityPopulation s; cityName := cityName s;
     isLoading := v; citySearchQuery := citySearchQuery s;
     showSuggestions := showSuggestions s; isNavigating := isNavigating s;
     activeNavigation := activeNavigation s; selectedPoint := selectedPoint s;
     carRotation := carRotation s; followUser := followUser s |}.

Definition setCitySearchQuery v (s : Session) : Session :=
  {| currentLocation := currentLocation s; mapCenter := mapCenter s;
     trackingPath := trackingPath s;
     businesses := businesses s; districts := districts s;
     cityPopulation := cityPopulation s; cityName := cityName s;
     isLoading := isLoading s; citySearchQuery := v;
     showSuggestions := showSuggestions s; isNavigating := isNavigating s;
     activeNavigation := activeNavigation s; selectedPoint := selectedPoint s;
     carRotation := carRotation s; followUser := followUser s |}.

Definition setShowSuggestions v (s : Session) : Session :=
  {| currentLocation := currentLocation s; mapCenter := mapCenter s;
     trackingPath := trackingPath s;
     businesses := businesses s; districts := districts s;
     cityPopulation := cityPopulation s; cityName := cityName s;
     isLoading := isLoading s; citySearchQuery := citySearchQuery s;
     showSuggestions := v; isNavigating := isNavigating s;
     activeNavigation := activeNavigation s; selectedPoint := selectedPoint s;
     carRotation := carRotation s; followUser := followUser s |}.

Definition setIsNavigating v (s : Session) : Session :=
  {| currentLocation := currentLocation s; mapCenter := mapCenter s;
     trackingPath := trackingPath s;
     businesses := businesses s; districts := districts s;
     cityPopulation := cityPopulation s; cityName := cityName s;
     isLoading := isLoading s; citySearchQuery := citySearchQuery s;
     showSuggestions := showSuggestions s; isNavigating := v;
     activeNavigation := activeNavigation s; selectedPoint := selectedPoint s;
     carRotation := carRotation s; followUser := followUser s |}.

Definition setActiveNavigation v (s : Session) : Session :=
  {| currentLocation := currentLocation s; mapCenter := mapCenter s;
     trackingPath := trackingPath s;
     businesses := businesses s; districts := districts s;
     cityPopulation := cityPopulation s; cityName := cityName s;
     isLoading := isLoading s; citySearchQuery := citySearchQuery s;
     showSuggestions := showSuggestions s; isNavigating := isNavigating s;
     activeNavigation := v; selectedPoint := selectedPoint s;
     carRotation := carRotation s; followUser := followUser s |}.

Definition setSelectedPoint v (s : Session) : Session :=
  {| currentLocation := currentLocation s; mapCenter := mapCenter s;
     trackingPath := trackingPath s;
     businesses := businesses s; districts := districts s;
     cityPopulation := cityPopulation s; cityName := cityName s;
     isLoading := isLoading s; citySearchQuery := citySearchQuery s;
     showSuggestions := showSuggestions s; isNavigating := isNavigating s;
     activeNavigation := activeNavigation s; selectedPoint := v;
     carRotation := carRotation s; followUser := followUser s |}.

Definition setCarRotation v (s : Session) : Session :=
  {| currentLocation := currentLocation s; mapCenter := mapCenter s;
     trackingPath := trackingPath s;
     businesses := businesses s; districts := districts s;
     cityPopulation := cityPopulation s; cityName := cityName s;
     isLoading := isLoading s; citySearchQuery := citySearchQuery s;
     showSuggestions := showSuggestions s; isNavigating := isNavigating s;
     activeNavigation := activeNavigation s; selectedPoint := selectedPoint s;
     carRotation := v; followUser := followUser s |}.

Definition setFollowUser v (s : Session) : Session :=
  {| currentLocation := currentLocation s; mapCenter := mapCenter s;
     trackingPath := trackingPath s;
     businesses := businesses s; districts := districts s;
     cityPopulation := cityPopulation s; cityName := cityName s;
     isLoading := isLoading s; citySearchQuery := citySearchQuery s;
     showSuggestions := showSuggestions s; isNavigating := isNavigating s;
     activeNavigation := activeNavigation s; selectedPoint := selectedPoint s;
     carRotation := carRotation s; followUser := v |}.

(** *** The world around the component

    [searchCache] is the module-level [Map] of line 505.  [inflight] holds
    the continuation of every handler suspended at an [await], under the
    ticket it was issued with; [issued] counts the external calls started
    (AI and routing requests) and is the next ticket.  [randomCalls]
    counts the evaluations of the random id expression. *)
Inductive Pending : Type :=
| AwaitGeocode (query cacheKey : string)                         (* line 721 *)
| AwaitCityData (lat lng : float) (placeName cacheKey : string)  (* line 654 *)
| AwaitRoute (item : JsObject).                                  (* line 768 *)

Record World : Type := {
  session : Session;
  searchCache : gmap string JsValue;
  inflight : gmap nat Pending;
  issued : nat;
  randomCalls : nat
}.

Definition onSession (f : Session -> Session) (w : World) : World :=
  {| session := f (session w); searchCache := searchCache w;
     inflight := inflight w; issued := issued w; randomCalls := randomCalls w |}.

(** [searchCache.set(k, v)] *)
Definition cacheSet (k : string) (v : JsValue) (w : World) : World :=
  {| session := session w; searchCache := <[k := v]> (searchCache w);
     inflight := inflight w; issued := issued w; randomCalls := randomCalls w |}.

(** Start an external call and park the rest of the handler. *)
Definition suspend (k : Pending) (w : World) : World :=
  {| session := session w; searchCache := searchCache w;
     inflight := <[issued w := k]> (inflight w);
     issued := S (issued w); randomCalls := randomCalls w |}.

Definition retire (ticket : nat) (w : World) : World :=
  {| session := session w; searchCache := searchCache w;
     inflight := delete ticket (inflight w);
     issued := issued w; randomCalls := randomCalls w |}.

Definition drew (k : nat) (w : World) : World :=
  {| session := session w; searchCache := searchCache w;
     inflight := inflight w; issued := issued w;
     randomCalls := (randomCalls w + k)%nat |}.

Definition set (f : Session -> Session) : Eff World unit :=
  fun w => (onSession f w, Normal tt).

Section WithPlatform.

Variable P : Platform.

(** [arr.map(f)] with [f] one of the two object literals: a TypeError
    unless [arr] is an array. *)
Definition array_map (f : JsValue -> string -> JsObject) (arr : JsValue)
    : Eff World (list JsObject) :=
  fun w => match arr with
           | JArr items =>
               (drew (length items) w, Normal (mint P f items (randomCalls w)))
           | _ => (w, Throw)
           end.

(** [applyCityData] (lines 670-677). *)
Definition applyCityData (result : JsValue) (lat lng : float)
    (placeName : string) : Eff World unit :=
  (name <- liftC (prop "cityName" result) ;;
   set (setCityName (js_or name (JStr placeName))) ;;
   population <- liftC (prop "cityPopulation" result) ;;
   set (setCityPopulation (js_or population (JStr "População sob consulta"))) ;;
   bars <- liftC (prop "bars" result) ;;
   bs <- array_map asBusiness bars ;;
   set (setBusinesses (fun _ => bs)) ;;
   ds <- liftC (prop "districts" result) ;;
   ds <- array_map asDistrict ds ;;
   set (setDistricts ds) ;;
   set (setSelectedPoint
          (JObj [("name", js_or name (JStr placeName)); ("lat", JNum lat);
                 ("lng", JNum lng); ("population", population);
                 ("type", JStr "city")])) ;;
   ret tt)%eff.

(** [`${lat.toFixed(4)},${lng.toFixed(4)}`] (line 643). *)
Definition cityCacheKey (lat lng : float) : string :=
  toFixed 4 lat +:+ "," +:+ toFixed 4 lng.

(** [fetchCityData] up to its [await] (lines 642-658).  On a cache hit
    [applyCityData] runs outside the [try]: a throw rejects the promise
    the call returns.  On a miss the handler is suspended. *)
Definition fetchCityData (lat lng : float) (placeName : string) : Eff World unit :=
  fun w =>
    let cacheKey := cityCacheKey lat lng in
    match searchCache w !! cacheKey with
    | Some cached => applyCityData cached lat lng placeName w
    | None =>
        (suspend (AwaitCityData lat lng placeName cacheKey)
           (onSession (setIsLoading true) w), Normal tt)
    end.

(** [fetchCityData] from its [await] on (lines 654-667). *)
Definition fetchCityData_resume (lat lng : float) (placeName cacheKey : string)
    (response : AiResponse) (w : World) : World :=
  let w :=
    match cityPayload response with
    | None => w
    | Some result =>
        try_catch (applyCityData result lat lng placeName)
                  (cacheSet cacheKey result w)
    end in
  onSession (setIsLoading false) w.

(** [fetchCityData(geo.lat, geo.lng, query)], not awaited.  Reading a
    property of [null] throws in the caller.  When an argument is not a
    number, [toFixed] is missing and the call rejects before any effect;
    nothing observes that rejection. *)
Definition callFetchCityData (geo : JsValue) (query : string) : Eff World unit :=
  (glat <- liftC (prop "lat" geo) ;;
   glng <- liftC (prop "lng" geo) ;;
   match asNumber glat, asNumber glng with
   | Some x, Some y => fun w => (fst (fetchCityData x y query w), Normal tt)
   | _, _ => ret tt
   end)%eff.

(** [performCitySearch] up to its [await] (lines 704-725). *)
Definition performCitySearch (forcedQuery : option string) : Eff World unit :=
  fun w =>
    let typed := citySearchQuery (session w) in
    let query :=
      String_trim P (match forcedQuery with
                     | Some q => if String.eqb q "" then typed else q
                     | None => typed
                     end) in
    if String.eqb query "" then (w, Normal tt) else
    let cacheKey := "geo:" +:+ String_toLowerCase P query in
    match searchCache w !! cacheKey with
    | Some geo =>
        (set (setMapCenter geo) ;;
         callFetchCityData geo query ;;
         set (setShowSuggestions false))%eff w
    | None =>
        (suspend (AwaitGeocode query cacheKey)
           (onSession (setShowSuggestions false)
              (onSession (setIsLoading true) w)), Normal tt)
    end.

(** The [try] block of [performCitySearch] after [JSON.parse]
    (lines 727-731). *)
Definition performCitySearch_found (query cacheKey : string)
    (geo : JsValue) : Eff World unit :=
  (glat <- liftC (prop "lat" geo) ;;
   if truthy glat then
     glng <- liftC (prop "lng" geo) ;;
     if truthy glng then
       (fun w => (cacheSet cacheKey geo w, Normal tt)) ;;
       set (setMapCenter geo) ;;
       callFetchCityData geo query
     else ret tt
   else ret tt)%eff.

(** [performCitySearch] from its [await] on (lines 721-736);
    [JSON.parse('{}')] is the empty object. *)
Definition performCitySearch_resume (query cacheKey : string)
    (response : AiResponse) (w : World) : World :=
  let w :=
    match response with
    | Rejected | Malformed => w
    | EmptyText => try_catch (performCitySearch_found query cacheKey (JObj [])) w
    | Parsed geo => try_catch (performCitySearch_found query cacheKey geo) w
    end in
  onSession (setIsLoading false) w.

(** *** Routing (lines 739-783) *)

(** [fetchStreetRoute] from the reply on (lines 743-757): [data] is what
    [await response.json()] gave, [now] the [Date.now()] read there.
    A rejected request and a reply without a first route give [null]. *)
Definition fetchStreetRoute (data : RouteResponse) (now : Z)
    : option StreetRoute :=
  match data with
  | RouteData (route :: _) =>
      let durationSeconds := duration route in
      let arrivalDate := (Number_of_Z now + durationSeconds * 1000)%float in
      let arrivalTimeStr := toLocaleTimeString P arrivalDate in
      Some {| points := map (fun coord => (snd coord, fst coord)) (coordinates route);
              sr_distance := toFixed 1 (distance route / 1000)%float +:+ " km";
              sr_time := Rounded_toString (Math_round (duration route / 60)%float) +:+ " min";
              sr_arrivalTime := arrivalTimeStr |}
  | _ => None
  end.

(** [{ lat: item.lat, lng: item.lng }] *)
Definition latLngOf (item : JsObject) : JsValue :=
  JObj [("lat", obj_get "lat" item); ("lng", obj_get "lng" item)].

(** [goToLocation] up to its [await] (lines 760-768). *)
Definition goToLocation (item : JsObject) (w : World) : World :=
  let w := onSession (setSelectedPoint JNull) w in
  match currentLocation (session w) with
  | None => onSession (setMapCenter (latLngOf item)) w
  | Some _ => suspend (AwaitRoute item) (onSession (setIsLoading true) w)
  end.

(** [goToLocation] from its [await] on (lines 768-783). *)
Definition goToLocation_resume (item : JsObject) (data : RouteResponse)
    (now : Z) (w : World) : World :=
  let w :=
    match fetchStreetRoute data now with
    | Some streetRoute =>
        onSession
          (fun s =>
             setFollowUser true
               (setIsNavigating true
                  (setMapCenter (latLngOf item)
                     (setActiveNavigation
                        (Some {| nav_target :=
                                   [("name", obj_get "name" item);
                                    ("id", obj_get "id" item);
                                    ("population", obj_get "population" item);
                                    ("type", obj_get "type" item);
                                    ("description", obj_get "description" item);
                                    ("lat", obj_get "lat" item);
                                    ("lng", obj_get "lng" item)];
                                 nav_distance := sr_distance streetRoute;
                                 nav_time := sr_time streetRoute;
                                 nav_arrivalTime := sr_arrivalTime streetRoute;
                                 nav_geometry := points streetRoute |}) s)))) w
    | None => w
    end in
  onSession (setIsLoading false) w.

(** *** Synchronous handlers *)

(** [toggleNavigation] (lines 629-640). *)
Definition toggleNavigation (s : Session) : Session :=
  if isNavigating s then
    setFollowUser false (setActiveNavigation None (setIsNavigating false s))
  else
    setTrackingPath (fun _ => []) (setIsNavigating true s).

(** The updater passed to [setTrackingPath] (lines 687-693). *)
Definition recordPoint (loc : Location) (now : Z)
    (prev : list TrackingPath) : list TrackingPath :=
  match last prev with
  | Some lastPoint =>
      if exceeds 0.00005 (lat (location lastPoint)) (lng (location lastPoint))
                 (lat loc) (lng loc)
      then prev ++ [{| timestamp := now; location := loc |}]
      else prev
  | None => prev ++ [{| timestamp := now; location := loc |}]
  end.

(** [handleLocationUpdate] (lines 679-697); [now] is the [Date.now()]
    read by the updater. *)
Definition handleLocationUpdate (loc : Location) (now : Z) (s : Session)
    : Session :=
  let s :=
    match currentLocation s with
    | Some cur =>
        let dy := (lat loc - lat cur)%float in
        let dx := (lng loc - lng cur)%float in
        if ((0.000005 <? PrimFloat.abs dy) || (0.000005 <? PrimFloat.abs dx))%float
        then
          let angle := (Math_atan2 P dx dy * (180 / Math_PI))%float in
          setTrackingPath (recordPoint loc now) (setCarRotation angle s)
        else s
    | None => s
    end in
  setCurrentLocation (Some loc) s.

(** [handleStatusUpdate] (lines 699-702). *)
Definition handleStatusUpdate (id : string) (status : Report) (s : Session)
    : Session :=
  setBusinesses (markStatus id status) s.

(** The success callback of [detectRealLocation] (lines 789-795). *)
Definition detectRealLocation (loc : Location) (w : World) : World :=
  let here := JObj [("lat", JNum (lat loc)); ("lng", JNum (lng loc))] in
  let w := onSession (fun s => setMapCenter here (setCurrentLocation (Some loc) s)) w in
  fst (fetchCityData (lat loc) (lng loc) "Local" w).

(** *** Events and runs *)

Inductive Event : Type :=
| Typed (text : string)                         (* line 818 *)
| Search (forcedQuery : option string)          (* lines 819, 824 *)
| Detected (loc : Location)                     (* line 838 *)
| GoTo (item : JsObject)                        (* lines 904, 920, 1017 *)
| ClearRoute                                    (* lines 1040, 1064 *)
| AiSettles (ticket : nat) (response : AiResponse)
| RouteSettles (ticket : nat) (data : RouteResponse) (now : Z)
| LocationFound (loc : Location) (now : Z)      (* line 943 *)
| Toggle                                        (* line 926 *)
| StatusUpdate (id : string) (status : Report). (* lines 902, 903 *)

Definition step (w : World) (e : Event) : World :=
  match e with
  | Typed text =>
      onSession (fun s => setShowSuggestions true (setCitySearchQuery text s)) w
  | Search forcedQuery =>
      (* the click handler of line 824 also calls setCitySearchQuery(s);
         performCitySearch reads the query of the render it was made in *)
      let w' := fst (performCitySearch forcedQuery w) in
      match forcedQuery with
      | Some q => onSession (setCitySearchQuery q) w'
      | None => w'
      end
  | Detected loc => detectRealLocation loc w
  | GoTo item => goToLocation item w
  | ClearRoute =>
      onSession (fun s => setFollowUser false (setActiveNavigation None s)) w
  | AiSettles ticket response =>
      match inflight w !! ticket with
      | Some (AwaitGeocode query cacheKey) =>
          performCitySearch_resume query cacheKey response (retire ticket w)
      | Some (AwaitCityData lat lng placeName cacheKey) =>
          fetchCityData_resume lat lng placeName cacheKey response (retire ticket w)
      | _ => w
      end
  | RouteSettles ticket data now =>
      match inflight w !! ticket with
      | Some (AwaitRoute item) => goToLocation_resume item data now (retire ticket w)
      | _ => w
      end
  | LocationFound loc now => onSession (handleLocationUpdate loc now) w
  | Toggle => onSession toggleNavigation w
  | StatusUpdate id status => onSession (handleStatusUpdate id status) w
  end.

Definition run (w : World) (es : list Event) : World := fold_left step es w.

(** [INITIAL_COORDS] (line 503). *)
Definition INITIAL_COORDS : Location :=
  {| lat := (-3.7317)%float; lng := (-41.0004)%float |}.

(** The state of the first render (lines 565-584) with an empty cache. *)
Definition initial : World :=
  {| session :=
       {| currentLocation := None;
          mapCenter := JObj [("lat", JNum (lat INITIAL_COORDS));
                             ("lng", JNum (lng INITIAL_COORDS))];
          trackingPath := []; businesses := []; districts := [];
          cityPopulation := JStr ""; cityName := JStr "";
          isLoading := false; citySearchQuery := ""; showSuggestions := false;
          isNavigating := false; activeNavigation := None;
          selectedPoint := JNull; carRotation := 0%float;
          followUser := false |};
     searchCache := ∅; inflight := ∅; issued := O; randomCalls := O |}.

(** The mount effect (line 589). *)
Definition mounted : World :=
  fst (fetchCityData (lat INITIAL_COORDS) (lng INITIAL_COORDS) "Tianguá, Ceará" initial).

End WithPlatform.

End AppV2.

(* ===================================================================== *)
(** ** Predicates used in the statements                                 *)
(* ===================================================================== *)

(** [b'] is [b] after a status report for [id]: a point with that id has
    the reported status and its other properties as before, any other point
    is the same object. *)
Definition overwritten (id : string) (status : Report) (b b' : JsObject) : Prop :=
  if hasId id b
  then statusOf b' = JStr (Report_str status)
       /\ forall k, k <> "status" -> obj_get k b' = obj_get k b
  else b' = b.

(** Displacement between two recorded points, as line 689 tests it. *)
Definition apart (a b : TrackingPath) : bool :=
  exceeds 0.00005 (lat (location a)) (lng (location a))
                  (lat (location b)) (lng (location b)).

(** Every recorded point is [apart] from the one recorded before it. *)
Fixpoint spaced (track : list TrackingPath) : Prop :=
  match track with
  | a :: (b :: _) as rest => apart a b = true /\ spaced rest
  | _ => True
  end.

Definition timestamps (track : list TrackingPath) : list Z := map timestamp track.

(** The gate of line 683: the new coordinate against the current one. *)
Definition moved (loc cur : Location) : bool :=
  exceeds 0.000005 (lat loc) (lng loc) (lat cur) (lng cur).

(** [Math.atan2(dx, dy) * (180 / Math.PI)] for a move from [cur] to [loc]. *)
Definition heading (P : Platform) (loc cur : Location) : float :=
  (Math_atan2 P (lng loc - lng cur) (lat loc - lat cur) * (180 / Math_PI))%float.

(** A sequence of location updates, each with the clock reading taken when
    it is handled. *)
Definition deliver1 (P : Platform) (us : list (Location * Z))
    (s : AppV1.Session) : AppV1.Session :=
  fold_left (fun s u => AppV1.handleLocationUpdate P (fst u) (snd u) s) us s.

Definition deliver2 (P : Platform) (us : list (Location * Z))
    (s : AppV2.Session) : AppV2.Session :=
  fold_left (fun s u => AppV2.handleLocationUpdate P (fst u) (snd u) s) us s.

Definition pointAt (u : Location * Z) : TrackingPath :=
  {| timestamp := snd u; location := fst u |}.


(* ===================================================================== *)
(** ** Sample inputs                                                     *)
(* ===================================================================== *)

Module Sample.

(** A host whose random ids are all different. *)
Definition platform : Platform :=
  {| Math_atan2 := fun _ _ => 0%float;
     randomId := fun n => "r" +:+ digits (N.of_nat n);
     toLocaleTimeString := fun t => toFixed 0 t;
     String_trim := fun s => s;
     String_toLowerCase := fun s => s |}.

(** A host whose random id expression yields the same string twice. *)
Definition repeating : Platform :=
  {| Math_atan2 := fun _ _ => 0%float;
     randomId := fun _ => "k3x9a1b2c";
     toLocaleTimeString := fun t => toFixed 0 t;
     String_trim := fun s => s;
     String_toLowerCase := fun s => s |}.

Definition bar (name : string) (la ln : float) : JsValue :=
  JObj [("name", JStr name); ("lat", JNum la); ("lng", JNum ln);
        ("address", JStr "Rua 1")].

Definition district (name : string) (la ln : float) : JsValue :=
  JObj [("name", JStr name); ("lat", JNum la); ("lng", JNum ln);
        ("description", JStr "sede"); ("population", JStr "1000 habitantes")].

Definition bars : list JsValue :=
  [bar "Bar A" 10.001 20.001; bar "Bar B" 10.002 20.002].

Definition districts : list JsValue := [district "Centro" 10.003 20.003].

(** A well-formed discovery payload: two bars, one district. *)
Definition cityFields (name : string) : JsObject :=
  [("cityName", JStr name); ("cityPopulation", JStr "80000 habitantes");
   ("bars", JArr bars); ("districts", JArr districts)].

Definition cityData (name : string) : JsValue := JObj (cityFields name).

(** A payload without the two arrays. *)
Definition noArrays : JsValue := JObj [("cityName", JStr "X")].

Definition here : Location := {| lat := 10%float; lng := 20%float |}.
Definition there : Location := {| lat := 10.001%float; lng := 20.001%float |}.

(** About a tenth of a metre north of [here]. *)
Definition nudged : Location := {| lat := 10.000001%float; lng := 20%float |}.

Definition point (t : Z) (l : Location) : TrackingPath :=
  {| timestamp := t; location := l |}.

(** A session of the first variant: tracking, one recorded point. *)
Definition session1 : AppV1.Session :=
  {| AppV1.currentLocation := Some here;
     AppV1.trackingPath := [point 1000 here];
     AppV1.businesses := [asBusiness (bar "Bar A" 10.001 20.001) "aaa"];
     AppV1.districts := [asDistrict (district "Centro" 10.003 20.003) "ddd"];
     AppV1.cityPopulation := JStr "80000 habitantes";
     AppV1.cityName := JStr "Sobral";
     AppV1.isLoading := false;
     AppV1.isNavigating := true;
     AppV1.activeNavigation := None;
     AppV1.carRotation := 90%float |}.

(** A session of the second variant: not tracking, one recorded point. *)
Definition session2 : AppV2.Session :=
  {| AppV2.currentLocation := Some here;
     AppV2.mapCenter := JObj [("lat", JNum 10); ("lng", JNum 20)];
     AppV2.trackingPath := [point 1000 here];
     AppV2.businesses := [asBusiness (bar "Bar A" 10.001 20.001) "aaa"];
     AppV2.districts := [asDistrict (district "Centro" 10.003 20.003) "ddd"];
     AppV2.cityPopulation := JStr "80000 habitantes";
     AppV2.cityName := JStr "Sobral";
     AppV2.isLoading := false;
     AppV2.citySearchQuery := "";
     AppV2.showSuggestions := false;
     AppV2.isNavigating := false;
     AppV2.activeNavigation := None;
     AppV2.selectedPoint := JNull;
     AppV2.carRotation := 90%float;
     AppV2.followUser := false |}.

(** The first render of each variant: no location, nothing recorded. *)
Definition fresh1 (tracking : bool) : AppV1.Session :=
  {| AppV1.currentLocation := None; AppV1.trackingPath := [];
     AppV1.businesses := []; AppV1.districts := [];
     AppV1.cityPopulation := JStr ""; AppV1.cityName := JStr "";
     AppV1.isLoading := false; AppV1.isNavigating := tracking;
     AppV1.activeNavigation := None; AppV1.carRotation := 0%float |}.

Definition fresh2 (tracking : bool) : AppV2.Session :=
  AppV2.setIsNavigating tracking (AppV2.session AppV2.initial).

(** Geocoder replies for two queries. *)
Definition geoSobral : JsObject :=
  [("lat", JNum (-3.69)%float); ("lng", JNum (-40.35)%float)].

Definition geoUbajara : JsObject :=
  [("lat", JNum (-3.85)%float); ("lng", JNum (-40.92)%float)].

(** The page is opened and its first discovery settles; then [sobral] is
    searched, then [ubajara]; both geocodes settle in that order; the
    discovery for [ubajara] (ticket 4) settles before the one for
    [sobral] (ticket 3). *)
Definition overtaken : list AppV2.Event :=
  [AppV2.AiSettles 0 (Parsed (cityData "Tiangua"));
   AppV2.Search (Some "sobral");
   AppV2.Search (Some "ubajara");
   AppV2.AiSettles 1 (Parsed (JObj geoSobral));
   AppV2.AiSettles 2 (Parsed (JObj geoUbajara));
   AppV2.AiSettles 4 (Parsed (cityData "Ubajara"));
   AppV2.AiSettles 3 (Parsed (cityData "Sobral"))].

(** An OSRM route of 1200 m and 300 s. *)
Definition route : OsrmRoute :=
  {| coordinates := [(20, 10); (20.001, 10.001)]%float;
     distance := 1200%float;
     duration := 300%float |}.

(** The page is opened, its first discovery settles with two bars and a
    district, and the device reports its position: a discovery for
    [10.0000,20.0000] is in flight under ticket 1. *)
Definition located : AppV2.World :=
  AppV2.run platform (AppV2.mounted platform)
    [AppV2.AiSettles 0 (Parsed (cityData "Tiangua")); AppV2.Detected here].

Definition world1 : AppV1.World :=
  {| AppV1.session := fresh1 false; AppV1.randomCalls := 0 |}.

End Sample.


(* ===================================================================== *)
(** ** MapController: the view the map is given                          *)
(* ===================================================================== *)

Module MapView.

(** A call [map.setView([lat, lng], zoom, ...)]. *)
Record SetView : Type := { view_lat : JsValue; view_lng : JsValue; view_zoom : Z }.

(** [v.k] for a [v] known not to be [null] or [undefined]. *)
Definition field (k : string) (v : JsValue) : JsValue :=
  match prop k v with Normal x => x | Throw => JUndefined end.

(** The effect of [MapController] in the second variant (lines 543-549):
    the call it makes, if any, for the props of the current render. *)
Definition MapController2 (center : JsValue) (followUser : bool)
    (userLoc : option Location) : option SetView :=
  match (if followUser then userLoc else None) with
  | Some u =>
      Some {| view_lat := JNum (lat u); view_lng := JNum (lng u); view_zoom := 17 |}
  | None =>
      if truthy center
      then Some {| view_lat := field "lat" center; view_lng := field "lng" center;
                   view_zoom := 16 |}
      else None
  end.

(** [<MapController center={mapCenter} followUser={followUser}
    userLoc={currentLocation} />] (line 944). *)
Definition viewOf (s : AppV2.Session) : option SetView :=
  MapController2 (AppV2.mapCenter s) (AppV2.followUser s) (AppV2.currentLocation s).

End MapView.

(** [geo.lat && geo.lng] of line 727 as a test on the parsed reply; reading
    a property of [null] throws and lands in the [catch]. *)
Definition hasCoordinates (geo : JsValue) : bool :=
  match prop "lat" geo, prop "lng" geo with
  | Normal glat, Normal glng => truthy glat && truthy glng
  | _, _ => false
  end.

(** A cached geocode the cache-hit branch of [performCitySearch] can use. *)
Definition usableGeo (v : JsValue) : Prop :=
  exists o, v = JObj o
            /\ truthy (obj_get "lat" o) = true
            /\ truthy (obj_get "lng" o) = true.

(** The two kinds of key of [searchCache] keep to their own entries: a key
    that starts with [geo:] holds a usable geocode, and every request in
    flight carries the key its handler computed. *)
Definition cacheSorted (w : AppV2.World) : Prop :=
  (forall k v, AppV2.searchCache w !! k = Some v ->
               String.prefix "geo:" k = true -> usableGeo v)
  /\ (forall t la ln place key,
        AppV2.inflight w !! t = Some (AppV2.AwaitCityData la ln place key) ->
        key = AppV2.cityCacheKey la ln)
  /\ (forall t query key,
        AppV2.inflight w !! t = Some (AppV2.AwaitGeocode query key) ->
        String.prefix "geo:" key = true).

(* ===================================================================== *)
(** ** City suggestions (lines 127-148 and 598-627)                      *)
(* ===================================================================== *)

Module Suggest.

(** [citySuggestions], the module-level [suggestionCache] of line 506, and
    the suggestion requests in flight, each with the normalised query its
    handler holds. *)
Record State : Type := {
  citySuggestions : JsValue;
  suggestionCache : gmap string JsValue;
  waiting : gmap nat string;
  started : nat
}.

Definition setCitySuggestions (v : JsValue) (st : State) : State :=
  {| citySuggestions := v; suggestionCache := suggestionCache st;
     waiting := waiting st; started := started st |}.

Definition cachePut (q : string) (v : JsValue) (st : State) : State :=
  {| citySuggestions := citySuggestions st;
     suggestionCache := <[q := v]> (suggestionCache st);
     waiting := waiting st; started := started st |}.

Definition request (q : string) (st : State) : State :=
  {| citySuggestions := citySuggestions st; suggestionCache := suggestionCache st;
     waiting := <[started st := q]> (waiting st); started := S (started st) |}.

Definition retire (ticket : nat) (st : State) : State :=
  {| citySuggestions := citySuggestions st; suggestionCache := suggestionCache st;
     waiting := delete ticket (waiting st); started := started st |}.

(** The timeout armed by the effect of lines 622-627.  Its callback closes
    over the [citySearchQuery] and the [showSuggestions] of the render
    whose effect armed it, whatever the cells hold when it fires. *)
Record Timer : Type := { seenQuery : string; seenShown : bool }.

Definition armed (s : AppV2.Session) : Timer :=
  {| seenQuery := AppV2.citySearchQuery s; seenShown := AppV2.showSuggestions s |}.

(** The effect after the render [after] that follows the render [before].
    Its dependency list is [[citySearchQuery]]: when the query differs
    from the previous render's, the cleanup clears the pending timeout and
    a new one is armed with this render's values; otherwise the effect
    does not run and the pending timeout, if any, stays as it is. *)
Definition rendered (before after : AppV2.Session) (pending : option Timer)
    : option Timer :=
  if String.eqb (AppV2.citySearchQuery before) (AppV2.citySearchQuery after)
  then pending
  else Some (armed after).

Section WithPlatform.

Variable P : Platform.

(** [String.prototype.length], in UTF-16 code units. *)
Variable String_length : string -> nat.

(** [fetchCitySuggestions] of the second variant up to its [await]
    (lines 598-612). *)
Definition fetchCitySuggestions (query : string) (st : State) : State :=
  let q := String_toLowerCase P (String_trim P query) in
  if (String_length q <? 2)%nat then st else
  match suggestionCache st !! q with
  | Some cached => setCitySuggestions cached st
  | None => request q st
  end.

(** From its [await] on (lines 613-619); the default literal
    ['{"s":[]}'] parses to an object whose [s] is the empty array. *)
Definition fetchCitySuggestions_resume (q : string) (response : AiResponse)
    (st : State) : State :=
  let store (s : JsValue) :=
    let suggestions := js_or s (JArr []) in
    setCitySuggestions suggestions (cachePut q suggestions st) in
  match response with
  | Rejected | Malformed => st
  | EmptyText => store (JArr [])
  | Parsed result =>
      match prop "s" result with
      | Normal s => store s
      | Throw => st
      end
  end.

Definition settle (ticket : nat) (response : AiResponse) (st : State) : State :=
  match waiting st !! ticket with
  | Some q => fetchCitySuggestions_resume q response (retire ticket st)
  | None => st
  end.

(** The callback of the timeout (line 624): it tests and passes on the
    values it closed over. *)
Definition onTimer (t : Timer) (st : State) : State :=
  if negb (String.eqb (seenQuery t) "") && seenShown t
  then fetchCitySuggestions (seenQuery t) st
  else st.

End WithPlatform.

End Suggest.

(** The value parsed inside [performCitySearch]'s [try], if that point is
    reached; [JSON.parse('{}')] is the empty object. *)
Definition geoPayload (r : AiResponse) : option JsValue :=
  match r with
  | Rejected | Malformed => None
  | EmptyText => Some (JObj [])
  | Parsed v => Some v
  end.

Module Sample2.

(** [sobral] is searched from a fresh page, its geocode and its discovery
    settle, and the first bar is reported a success. *)
Definition visited : AppV2.World :=
  AppV2.run Sample.platform AppV2.initial
    [AppV2.Search (Some "sobral");
     AppV2.AiSettles 0 (Parsed (JObj Sample.geoSobral));
     AppV2.AiSettles 1 (Parsed (Sample.cityData "Sobral"));
     AppV2.StatusUpdate "r0" success].

(** A page that knows its position and shows the sample city. *)
Definition placed : AppV2.World :=
  AppV2.run Sample.platform AppV2.initial
    [AppV2.Detected Sample.here;
     AppV2.AiSettles 0 (Parsed (Sample.cityData "Sobral"))].

(** The first bar of the sample city as the session holds it. *)
Definition barA : JsObject := asBusiness (Sample.bar "Bar A" 10.001 20.001) "r0".

End Sample2.

(** The two cells the location stream writes. *)
Definition motion (w : AppV2.World) : option Location * list TrackingPath :=
  (AppV2.currentLocation (AppV2.session w), AppV2.trackingPath (AppV2.session w)).

(** The events that can shorten the recorded track. *)
Definition isToggle (e : AppV2.Event) : bool :=
  match e with AppV2.Toggle => true | _ => false end.

Module Sample3.

(** Lengths of the ASCII queries used below. *)
Definition len (s : string) : nat := String.length s.

Definition idle : Suggest.State :=
  {| Suggest.citySuggestions := JArr []; Suggest.suggestionCache := ∅;
     Suggest.waiting := ∅; Suggest.started := 0 |}.

Definition names : JsValue := JArr [JStr "Sobral"; JStr "Sobradinho"].

End Sample3.

(* ===================================================================== *)
(** ** The first variant with its requests in flight                     *)
(* ===================================================================== *)

Module AppV1Page.

(** The cells of [AppV1.Session] together with [mapCenter],
    [citySearchQuery] and [showSuggestions] (lines 89, 97, 99). *)
Record Page : Type := {
  core : AppV1.Session;
  mapCenter : JsValue;
  citySearchQuery : string;
  showSuggestions : bool
}.

Definition onCore (f : AppV1.Session -> AppV1.Session) (p : Page) : Page :=
  {| core := f (core p); mapCenter := mapCenter p;
     citySearchQuery := citySearchQuery p; showSuggestions := showSuggestions p |}.

Definition setMapCenter (v : JsValue) (p : Page) : Page :=
  {| core := core p; mapCenter := v;
     citySearchQuery := citySearchQuery p; showSuggestions := showSuggestions p |}.

Definition setCitySearchQuery (v : string) (p : Page) : Page :=
  {| core := core p; mapCenter := mapCenter p;
     citySearchQuery := v; showSuggestions := showSuggestions p |}.

Definition setShowSuggestions (v : bool) (p : Page) : Page :=
  {| core := core p; mapCenter := mapCenter p;
     citySearchQuery := citySearchQuery p; showSuggestions := v |}.

(** A handler suspended at an [await].  [performCitySearch] awaits
    [fetchCityData]; what it does afterwards (its [finally], which clears
    the loading flag that [fetchCityData] has just cleared) adds nothing to
    the continuation of [fetchCityData]. *)
Inductive Pending : Type :=
| AwaitGeocode (query : string)        (* line 210 *)
| AwaitCityData (placeName : string)   (* line 167 *)
| AwaitRoute (item : JsObject).        (* line 251 *)

Record World : Type := {
  page : Page;
  inflight : gmap nat Pending;
  issued : nat;
  randomCalls : nat
}.

Definition onPage (f : Page -> Page) (w : World) : World :=
  {| page := f (page w); inflight := inflight w; issued := issued w;
     randomCalls := randomCalls w |}.

Definition suspend (k : Pending) (w : World) : World :=
  {| page := page w; inflight := <[issued w := k]> (inflight w);
     issued := S (issued w); randomCalls := randomCalls w |}.

Definition retire (ticket : nat) (w : World) : World :=
  {| page := page w; inflight := delete ticket (inflight w);
     issued := issued w; randomCalls := randomCalls w |}.

(** The object [fetchStreetRoute] returns in the first variant. *)
Record StreetRoute1 : Type := {
  points1 : list (float * float);
  distance1 : string;
  time1 : string
}.

Section WithPlatform.

Variable P : Platform.

(** [fetchCityData] up to its [await] (lines 162-167). *)
Definition fetchCityData (placeName : string) (w : World) : World :=
  suspend (AwaitCityData placeName) (onPage (onCore (AppV1.setIsLoading true)) w).

(** [fetchCityData] from its [await] on (lines 167-182): the statements of
    [AppV1.applyResult] inside the [try], then the [finally]. *)
Definition fetchCityData_resume (placeName : string) (response : AiResponse)
    (w : World) : World :=
  let w :=
    match cityPayload response with
    | None => w
    | Some result =>
        let r := try_catch (AppV1.applyResult P result placeName)
                   {| AppV1.session := core (page w);
                      AppV1.randomCalls := randomCalls w |} in
        {| page := onCore (fun _ => AppV1.session r) (page w);
           inflight := inflight w; issued := issued w;
           randomCalls := AppV1.randomCalls r |}
    end in
  onPage (onCore (AppV1.setIsLoading false)) w.

(** [performCitySearch] up to its [await] (lines 203-210). *)
Definition performCitySearch (forcedQuery : option string) (w : World) : World :=
  let typed := citySearchQuery (page w) in
  let query := match forcedQuery with
               | Some q => if String.eqb q "" then typed else q
               | None => typed
               end in
  if String.eqb query "" then w else
  suspend (AwaitGeocode query)
    (onPage (fun p => setShowSuggestions false (onCore (AppV1.setIsLoading true) p)) w).

(** [performCitySearch] from its [await] on (lines 210-225).  With
    coordinates it moves the map and awaits [fetchCityData]; its [finally]
    runs only when that has finished.  Otherwise the [finally] runs now. *)
Definition performCitySearch_resume (query : string) (response : AiResponse)
    (w : World) : World :=
  match geoPayload response with
  | Some (JObj o) =>
      if truthy (obj_get "lat" o) && truthy (obj_get "lng" o)
      then fetchCityData query
             (onPage (setMapCenter
                        (JObj [("lat", obj_get "lat" o); ("lng", obj_get "lng" o)])) w)
      else onPage (onCore (AppV1.setIsLoading false)) w
  | _ => onPage (onCore (AppV1.setIsLoading false)) w
  end.

(** [fetchStreetRoute] from the reply on (lines 232-241). *)
Definition fetchStreetRoute (data : RouteResponse) : option StreetRoute1 :=
  match data with
  | RouteData (route :: _) =>
      Some {| points1 := map (fun coord => (snd coord, fst coord)) (coordinates route);
              distance1 := toFixed 1 (distance route / 1000)%float +:+ " km";
              time1 := Rounded_toString (Math_round (duration route / 60)%float)
                       +:+ " min" |}
  | _ => None
  end.

Definition latLngOf (item : JsObject) : JsValue :=
  JObj [("lat", obj_get "lat" item); ("lng", obj_get "lng" item)].

(** [goToLocation] up to its [await] (lines 244-251). *)
Definition goToLocation (item : JsObject) (w : World) : World :=
  match AppV1.currentLocation (core (page w)) with
  | None => onPage (setMapCenter (latLngOf item)) w
  | Some _ => suspend (AwaitRoute item) (onPage (onCore (AppV1.setIsLoading true)) w)
  end.

(** [goToLocation] from its [await] on (lines 251-257). *)
Definition goToLocation_resume (item : JsObject) (data : RouteResponse)
    (w : World) : World :=
  let w :=
    match fetchStreetRoute data with
    | Some streetRoute =>
        onPage (fun p =>
                  setMapCenter (latLngOf item)
                    (onCore (AppV1.setActiveNavigation
                               (Some {| AppV1.nav_target := item;
                                        AppV1.nav_distance := distance1 streetRoute;
                                        AppV1.nav_time := time1 streetRoute;
                                        AppV1.nav_geometry := points1 streetRoute |}))
                       p)) w
    | None => w
    end in
  onPage (onCore (AppV1.setIsLoading false)) w.

(** The success callback of [detectRealLocation] (lines 264-270). *)
Definition detectRealLocation (loc : Location) (w : World) : World :=
  let here := JObj [("lat", JNum (lat loc)); ("lng", JNum (lng loc))] in
  fetchCityData "Local Atual"
    (onPage (fun p => setMapCenter here
                        (onCore (AppV1.setCurrentLocation (Some loc)) p)) w).

Inductive Event : Type :=
| Typed (text : string)                         (* line 321 *)
| Search (forcedQuery : option string)          (* lines 322, 324, 330 *)
| Detected (loc : Location)                     (* lines 287, 311 *)
| GoTo (item : JsObject)                        (* lines 357, 369 *)
| ClearRoute                                    (* line 441 *)
| AiSettles (ticket : nat) (response : AiResponse)
| RouteSettles (ticket : nat) (data : RouteResponse)
| LocationFound (loc : Location) (now : Z)      (* line 394 *)
| Toggle                                        (* line 376 *)
| StatusUpdate (id : string) (status : Report). (* lines 355, 356 *)

Definition step (w : World) (e : Event) : World :=
  match e with
  | Typed text =>
      onPage (fun p => setShowSuggestions true (setCitySearchQuery text p)) w
  | Search forcedQuery =>
      let w' := performCitySearch forcedQuery w in
      match forcedQuery with
      | Some q => onPage (setCitySearchQuery q) w'
      | None => w'
      end
  | Detected loc => detectRealLocation loc w
  | GoTo item => goToLocation item w
  | ClearRoute => onPage (onCore (AppV1.setActiveNavigation None)) w
  | AiSettles ticket response =>
      match inflight w !! ticket with
      | Some (AwaitGeocode query) =>
          performCitySearch_resume query response (retire ticket w)
      | Some (AwaitCityData placeName) =>
          fetchCityData_resume placeName response (retire ticket w)
      | _ => w
      end
  | RouteSettles ticket data =>
      match inflight w !! ticket with
      | Some (AwaitRoute item) => goToLocation_resume item data (retire ticket w)
      | _ => w
      end
  | LocationFound loc now => onPage (onCore (AppV1.handleLocationUpdate P loc now)) w
  | Toggle => onPage (onCore AppV1.toggleNavigation) w
  | StatusUpdate id status => onPage (onCore (AppV1.handleStatusUpdate id status)) w
  end.

Definition run (w : World) (es : list Event) : World := fold_left step es w.

(** The state of the first render (lines 88-104). *)
Definition initial : World :=
  {| page := {| core := {| AppV1.currentLocation := None; AppV1.trackingPath := [];
                           AppV1.businesses := []; AppV1.districts := [];
                           AppV1.cityPopulation := JStr ""; AppV1.cityName := JStr "";
                           AppV1.isLoading := false; AppV1.isNavigating := false;
                           AppV1.activeNavigation := None;
                           AppV1.carRotation := 0%float |};
                mapCenter := JUndefined; citySearchQuery := "";
                showSuggestions := false |};
     inflight := ∅; issued := O; randomCalls := O |}.

End WithPlatform.

End AppV1Page.

(** In the first variant the track holds points only during a journey. *)
Definition trackOnlyWhileNavigating (s : AppV1.Session) : Prop :=
  AppV1.isNavigating s = false -> AppV1.trackingPath s = [].

Module Sample4.

(** A page of the first variant that knows its position, is not tracking,
    and has a route request for [Sample2.barA] in flight under ticket 0. *)
Definition routing : AppV1Page.World :=
  AppV1Page.goToLocation Sample2.barA
    (AppV1Page.onPage
       (AppV1Page.onCore (AppV1.setCurrentLocation (Some Sample.here)))
       AppV1Page.initial).

(** A page of the first variant with a geocode for [sobral] in flight. *)
Definition searching : AppV1Page.World :=
  AppV1Page.performCitySearch (Some "sobral") AppV1Page.initial.

End Sample4.

Module Sample5.

(** A payload with the points of interest of a new city but no districts. *)
Definition barsOnly : JsObject :=
  [("cityName", JStr "Ubajara"); ("bars", JArr [Sample.bar "Bar C" 10.004 20.004])].

End Sample5.
(* ===================================================================== *)
(** ** Predicates on the cache, on numbers and on routes                 *)
(* ===================================================================== *)





Module Sample6.



End Sample6.





(* ===================================================================== *)
(** ** Number formatting on sample values                                *)
(* ===================================================================== *)

Example toFixed_examples :
  toFixed 4 (-3.7317)%float = "-3.7317" /\
  toFixed 4 (-41.0004)%float = "-41.0004" /\
  toFixed 4 10.00004%float = "10.0000" /\
  toFixed 4 (-0.00001)%float = "-0.0000" /\
  toFixed 1 1.25%float = "1.3" /\
  toFixed 1 1.45%float = "1.4" /\
  toFixed 1 (1200 / 1000)%float = "1.2" /\
  toFixed 1 0.04%float = "0.0".
Proof. vm_compute. repeat split. Qed.

Example Math_round_examples :
  Rounded_toString (Math_round (300 / 60)%float) = "5" /\
  Rounded_toString (Math_round 2.5%float) = "3" /\
  Rounded_toString (Math_round (-2.5)%float) = "-2" /\
  Rounded_toString (Math_round (-0.2)%float) = "0" /\
  Rounded_toString (Math_round (89 / 60)%float) = "1".
Proof. vm_compute. repeat split. Qed.

(* ===================================================================== *)
(** ** Objects: reading after writing                                    *)
(* ===================================================================== *)

Lemma obj_get_set_eq (k : string) (v : JsValue) (o : JsObject) :
  obj_get k (obj_set k v o) = v.
Proof.
  induction o as [|[k' v'] rest IH]; simpl.
  - by rewrite String.eqb_refl.
  - destruct (String.eqb k k') eqn:E; simpl.
    + by rewrite String.eqb_refl.
    + by rewrite E.
Qed.

Lemma obj_get_set_ne (k k' : string) (v : JsValue) (o : JsObject) :
  k <> k' -> obj_get k (obj_set k' v o) = obj_get k o.
Proof.
  intros Hne. induction o as [|[k2 v2] rest IH]; simpl.
  - apply String.eqb_neq in Hne. by rewrite Hne.
  - destruct (String.eqb k' k2) eqn:E; simpl.
    + apply String.eqb_eq in E. subst k2.
      apply String.eqb_neq in Hne. by rewrite Hne.
    + destruct (String.eqb k k2); [done | apply IH].
Qed.

Lemma obj_set_set (k : string) (v1 v2 : JsValue) (o : JsObject) :
  obj_set k v2 (obj_set k v1 o) = obj_set k v2 o.
Proof.
  induction o as [|[k' v'] rest IH]; simpl.
  - by rewrite String.eqb_refl.
  - destruct (String.eqb k k') eqn:E; simpl.
    + by rewrite String.eqb_refl.
    + by rewrite E, IH.
Qed.

Lemma idOf_asBusiness (b : JsValue) (id : string) : idOf (asBusiness b id) = JStr id.
Proof.
  unfold idOf, asBusiness.
  rewrite obj_get_set_ne by discriminate. apply obj_get_set_eq.
Qed.

Lemma statusOf_asBusiness (b : JsValue) (id : string) :
  statusOf (asBusiness b id) = JStr "pending".
Proof. apply obj_get_set_eq. Qed.

Lemma idOf_asDistrict (d : JsValue) (id : string) : idOf (asDistrict d id) = JStr id.
Proof.
  unfold idOf, asDistrict.
  rewrite obj_get_set_ne by discriminate. apply obj_get_set_eq.
Qed.

Lemma coveredOf_asDistrict (d : JsValue) (id : string) :
  coveredOf (asDistrict d id) = JBool false.
Proof. apply obj_get_set_eq. Qed.

(** Marking a status keeps the id. *)
Lemma hasId_marked (id : string) (v : JsValue) (b : JsObject) :
  hasId id (obj_set "status" v b) = hasId id b.
Proof. unfold hasId, idOf. by rewrite obj_get_set_ne by discriminate. Qed.

(* ===================================================================== *)
(** ** handleStatusUpdate                                                *)
(* ===================================================================== *)

Section StatusUpdate.

Variables (id : string).

Lemma markStatus_length status prev :
  length (markStatus id status prev) = length prev.
Proof. apply length_map. Qed.

(** Position by position: a point with the id takes the status and keeps
    every other property, any other point is left as it is. *)
Lemma markStatus_pointwise status prev :
  Forall2 (fun b b' =>
             if hasId id b
             then statusOf b' = JStr (Report_str status)
                  /\ forall k, k <> "status" -> obj_get k b' = obj_get k b
             else b' = b)
          prev (markStatus id status prev).
Proof.
  induction prev as [|b rest IH]; simpl; constructor; [|exact IH].
  destruct (hasId id b); [|done]. split.
  - apply obj_get_set_eq.
  - intros k Hk. by apply obj_get_set_ne.
Qed.

Lemma markStatus_overwrite st1 st2 prev :
  markStatus id st2 (markStatus id st1 prev) = markStatus id st2 prev.
Proof.
  unfold markStatus. rewrite map_map. apply map_ext. intros b.
  destruct (hasId id b) eqn:E.
  - rewrite hasId_marked, E. apply obj_set_set.
  - by rewrite E.
Qed.

Lemma markStatus_unknown status prev :
  Forall (fun b => hasId id b = false) prev -> markStatus id status prev = prev.
Proof.
  induction 1 as [|b rest Hb _ IH]; simpl; [done|].
  by rewrite Hb, IH.
Qed.

End StatusUpdate.

Lemma markStatus_overwritten id status prev :
  Forall2 (overwritten id status) prev (markStatus id status prev).
Proof. apply markStatus_pointwise. Qed.

(** C5: in both variants [handleStatusUpdate id status] is a total function
    of the session that overwrites the status of every point of interest
    with that id and leaves the other points as they are; a report of
    [success] followed by one of [failure] leaves the same session as the
    report of [failure] alone; when no point has the id the session is
    unchanged; the active route, the tracking flag, the recorded track and
    the districts are never touched. *)
Theorem C5_handleStatusUpdate_last_write_wins
    (id : string) (status : Report) (s1 : AppV1.Session) (s2 : AppV2.Session) :
  (Forall2 (overwritten id status) (AppV2.businesses s2)
     (AppV2.businesses (AppV2.handleStatusUpdate id status s2))
   /\ AppV2.handleStatusUpdate id failure (AppV2.handleStatusUpdate id success s2)
      = AppV2.handleStatusUpdate id failure s2
   /\ (Forall (fun b => hasId id b = false) (AppV2.businesses s2) ->
       AppV2.handleStatusUpdate id status s2 = s2)
   /\ AppV2.activeNavigation (AppV2.handleStatusUpdate id status s2)
      = AppV2.activeNavigation s2
   /\ AppV2.isNavigating (AppV2.handleStatusUpdate id status s2)
      = AppV2.isNavigating s2
   /\ AppV2.trackingPath (AppV2.handleStatusUpdate id status s2)
      = AppV2.trackingPath s2
   /\ AppV2.districts (AppV2.handleStatusUpdate id status s2)
      = AppV2.districts s2)
  /\
  (Forall2 (overwritten id status) (AppV1.businesses s1)
     (AppV1.businesses (AppV1.handleStatusUpdate id status s1))
   /\ AppV1.handleStatusUpdate id failure (AppV1.handleStatusUpdate id success s1)
      = AppV1.handleStatusUpdate id failure s1
   /\ (Forall (fun b => hasId id b = false) (AppV1.businesses s1) ->
       AppV1.handleStatusUpdate id status s1 = s1)
   /\ AppV1.activeNavigation (AppV1.handleStatusUpdate id status s1)
      = AppV1.activeNavigation s1
   /\ AppV1.isNavigating (AppV1.handleStatusUpdate id status s1)
      = AppV1.isNavigating s1
   /\ AppV1.trackingPath (AppV1.handleStatusUpdate id status s1)
      = AppV1.trackingPath s1
   /\ AppV1.districts (AppV1.handleStatusUpdate id status s1)
      = AppV1.districts s1).
Proof.
  split.
  - unfold AppV2.handleStatusUpdate.
    split; [apply markStatus_overwritten|].
    split; [destruct s2; unfold AppV2.setBusinesses; cbn -[markStatus];
            f_equal; apply markStatus_overwrite|].
    split; [|done].
    intros Hnone. destruct s2; unfold AppV2.setBusinesses; cbn -[markStatus] in *.
    f_equal. by apply markStatus_unknown.
  - unfold AppV1.handleStatusUpdate.
    split; [apply markStatus_overwritten|].
    split; [destruct s1; unfold AppV1.setBusinesses; cbn -[markStatus];
            f_equal; apply markStatus_overwrite|].
    split; [|done].
    intros Hnone. destruct s1; unfold AppV1.setBusinesses; cbn -[markStatus] in *.
    f_equal. by apply markStatus_unknown.
Qed.

(** The point of [Sample.session2] has id [aaa]: a report for [aaa] marks
    it, a report for [zzz] finds no point and changes nothing. *)
Lemma C5_witness :
  statusOf <$> AppV2.businesses
     (AppV2.handleStatusUpdate "aaa" failure
        (AppV2.handleStatusUpdate "aaa" success Sample.session2))
  = [JStr "failure"]
  /\ AppV2.handleStatusUpdate "zzz" success Sample.session2 = Sample.session2
  /\ AppV1.handleStatusUpdate "zzz" success Sample.session1 = Sample.session1.
Proof.
  split; [reflexivity|].
  pose proof (C5_handleStatusUpdate_last_write_wins "zzz" success
                Sample.session1 Sample.session2) as [H2 H1].
  split.
  - apply H2. repeat constructor.
  - apply H1. repeat constructor.
Defined.

(* ===================================================================== *)
(** ** toggleNavigation                                                  *)
(* ===================================================================== *)

(** C6, as amended: in the second variant starting clears the recorded
    track and stopping keeps it; in the first variant stopping clears the
    track and starting keeps it.  In both a stop followed by a start leaves
    an empty track, and neither operation changes the points of interest or
    the districts. *)
Theorem C6_toggleNavigation_track (s1 : AppV1.Session) (s2 : AppV2.Session) :
  ((AppV2.isNavigating s2 = false ->
      AppV2.isNavigating (AppV2.toggleNavigation s2) = true
      /\ AppV2.trackingPath (AppV2.toggleNavigation s2) = [])
   /\ (AppV2.isNavigating s2 = true ->
      AppV2.isNavigating (AppV2.toggleNavigation s2) = false
      /\ AppV2.trackingPath (AppV2.toggleNavigation s2) = AppV2.trackingPath s2
      /\ AppV2.trackingPath (AppV2.toggleNavigation (AppV2.toggleNavigation s2)) = [])
   /\ AppV2.businesses (AppV2.toggleNavigation s2) = AppV2.businesses s2
   /\ AppV2.districts (AppV2.toggleNavigation s2) = AppV2.districts s2)
  /\
  ((AppV1.isNavigating s1 = false ->
      AppV1.isNavigating (AppV1.toggleNavigation s1) = true
      /\ AppV1.trackingPath (AppV1.toggleNavigation s1) = AppV1.trackingPath s1)
   /\ (AppV1.isNavigating s1 = true ->
      AppV1.isNavigating (AppV1.toggleNavigation s1) = false
      /\ AppV1.trackingPath (AppV1.toggleNavigation s1) = []
      /\ AppV1.trackingPath (AppV1.toggleNavigation (AppV1.toggleNavigation s1)) = [])
   /\ AppV1.businesses (AppV1.toggleNavigation s1) = AppV1.businesses s1
   /\ AppV1.districts (AppV1.toggleNavigation s1) = AppV1.districts s1).
Proof.
  split.
  - unfold AppV2.toggleNavigation.
    destruct (AppV2.isNavigating s2) eqn:E; repeat split; try discriminate; done.
  - unfold AppV1.toggleNavigation.
    destruct (AppV1.isNavigating s1) eqn:E; repeat split; try discriminate; done.
Qed.

(** Stopping [Sample.session1] (first variant, tracking, one recorded
    point) and starting [Sample.session2] (second variant, not tracking). *)
Lemma C6_witness :
  AppV1.trackingPath (AppV1.toggleNavigation Sample.session1) = []
  /\ AppV2.trackingPath (AppV2.toggleNavigation Sample.session2) = [].
Proof.
  pose proof (C6_toggleNavigation_track Sample.session1 Sample.session2)
    as [(Hstart2 & _) (_ & Hstop1 & _)].
  split.
  - apply Hstop1. reflexivity.
  - apply Hstart2. reflexivity.
Defined.

(** In the first variant stopping does not preserve the recorded track. *)
Lemma C6_counterexample :
  AppV1.isNavigating Sample.session1 = true
  /\ AppV1.trackingPath Sample.session1 = [Sample.point 1000 Sample.here]
  /\ AppV1.trackingPath (AppV1.toggleNavigation Sample.session1) = [].
Proof. repeat split. Qed.

(* ===================================================================== *)
(** ** handleLocationUpdate, one update                                  *)
(* ===================================================================== *)

Section LocationUpdate.

Variable P : Platform.

Lemma V2_hlu_trackingPath loc now s :
  AppV2.trackingPath (AppV2.handleLocationUpdate P loc now s) =
  match AppV2.currentLocation s with
  | Some cur => if moved loc cur
                then AppV2.recordPoint loc now (AppV2.trackingPath s)
                else AppV2.trackingPath s
  | None => AppV2.trackingPath s
  end.
Proof.
  unfold AppV2.handleLocationUpdate, moved, exceeds.
  destruct (AppV2.currentLocation s) as [cur|]; [|done].
  by destruct (_ || _).
Qed.

Lemma V2_hlu_carRotation loc now s :
  AppV2.carRotation (AppV2.handleLocationUpdate P loc now s) =
  match AppV2.currentLocation s with
  | Some cur => if moved loc cur then heading P loc cur else AppV2.carRotation s
  | None => AppV2.carRotation s
  end.
Proof.
  unfold AppV2.handleLocationUpdate, moved, exceeds, heading.
  destruct (AppV2.currentLocation s) as [cur|]; [|done].
  by destruct (_ || _).
Qed.

Lemma V2_hlu_currentLocation loc now s :
  AppV2.currentLocation (AppV2.handleLocationUpdate P loc now s) = Some loc.
Proof. done. Qed.


Lemma recordPoint_cases loc now prev :
  (AppV2.recordPoint loc now prev = prev
   /\ exists a, last prev = Some a /\ apart a (pointAt (loc, now)) = false)
  \/ (AppV2.recordPoint loc now prev = prev ++ [pointAt (loc, now)]
      /\ forall a, last prev = Some a -> apart a (pointAt (loc, now)) = true).
Proof.
  unfold AppV2.recordPoint, apart, pointAt; simpl.
  destruct (last prev) as [a|] eqn:El.
  - destruct (exceeds _ _ _ _ _) eqn:E.
    + right. split; [done|]. intros a' [= <-]. exact E.
    + left. split; [done|]. by exists a.
  - right. split; [done|]. discriminate.
Qed.

(** One update leaves the track as it is or adds the new point at the
    end, and adds it only when it is [apart] from the last recorded one. *)
Lemma V2_hlu_track_step loc now s :
  AppV2.trackingPath (AppV2.handleLocationUpdate P loc now s) = AppV2.trackingPath s
  \/ (AppV2.trackingPath (AppV2.handleLocationUpdate P loc now s)
      = AppV2.trackingPath s ++ [pointAt (loc, now)]
      /\ forall a, last (AppV2.trackingPath s) = Some a ->
                   apart a (pointAt (loc, now)) = true).
Proof.
  rewrite V2_hlu_trackingPath.
  destruct (AppV2.currentLocation s) as [cur|]; [|by left].
  destruct (moved loc cur); [|by left].
  destruct (recordPoint_cases loc now (AppV2.trackingPath s)) as [[-> _]|[-> H]];
    [by left | by right].
Qed.

Lemma V1_hlu_trackingPath loc now s :
  AppV1.trackingPath (AppV1.handleLocationUpdate P loc now s) =
  if AppV1.isNavigating s
  then AppV1.trackingPath s ++ [pointAt (loc, now)]
  else AppV1.trackingPath s.
Proof.
  unfold AppV1.handleLocationUpdate.
  destruct (AppV1.isNavigating s); by destruct (AppV1.currentLocation s).
Qed.

Lemma V1_hlu_carRotation loc now s :
  AppV1.carRotation (AppV1.handleLocationUpdate P loc now s) =
  match AppV1.currentLocation s with
  | Some cur => heading P loc cur
  | None => AppV1.carRotation s
  end.
Proof.
  unfold AppV1.handleLocationUpdate, heading.
  destruct (AppV1.isNavigating s); by destruct (AppV1.currentLocation s).
Qed.

Lemma V1_hlu_currentLocation loc now s :
  AppV1.currentLocation (AppV1.handleLocationUpdate P loc now s) = Some loc.
Proof.
  unfold AppV1.handleLocationUpdate.
  destruct (AppV1.isNavigating s); by destruct (AppV1.currentLocation s).
Qed.

Lemma V1_hlu_frame loc now s :
  let s' := AppV1.handleLocationUpdate P loc now s in
  AppV1.isNavigating s' = AppV1.isNavigating s
  /\ AppV1.activeNavigation s' = AppV1.activeNavigation s
  /\ AppV1.businesses s' = AppV1.businesses s
  /\ AppV1.districts s' = AppV1.districts s.
Proof.
  unfold AppV1.handleLocationUpdate.
  destruct (AppV1.isNavigating s) eqn:E;
    destruct (AppV1.currentLocation s); simpl; rewrite ?E; done.
Qed.

End LocationUpdate.

(** C7, as amended: in both variants [handleLocationUpdate] is a total
    function of the session that always sets [currentLocation] to the new
    coordinate.  The heading is recomputed only when a previous location is
    known and, in the second variant, the new coordinate is more than
    0.000005 away from it on some axis; otherwise it keeps its value.  In
    the first variant a track point is appended exactly when tracking is
    enabled.  In the second variant the track does not depend on the
    tracking flag; one update appends at most the new point. *)
Theorem C7_handleLocationUpdate_effects (P : Platform) (loc : Location) (now : Z)
    (s1 : AppV1.Session) (s2 : AppV2.Session) :
  (AppV2.currentLocation (AppV2.handleLocationUpdate P loc now s2) = Some loc
   /\ AppV2.carRotation (AppV2.handleLocationUpdate P loc now s2) =
      match AppV2.currentLocation s2 with
      | Some cur => if moved loc cur then heading P loc cur else AppV2.carRotation s2
      | None => AppV2.carRotation s2
      end
   /\ (forall tracking,
         AppV2.trackingPath
           (AppV2.handleLocationUpdate P loc now (AppV2.setIsNavigating tracking s2))
         = AppV2.trackingPath (AppV2.handleLocationUpdate P loc now s2))
   /\ (AppV2.trackingPath (AppV2.handleLocationUpdate P loc now s2)
       = AppV2.trackingPath s2
       \/ AppV2.trackingPath (AppV2.handleLocationUpdate P loc now s2)
          = AppV2.trackingPath s2 ++ [pointAt (loc, now)]))
  /\
  (AppV1.currentLocation (AppV1.handleLocationUpdate P loc now s1) = Some loc
   /\ AppV1.carRotation (AppV1.handleLocationUpdate P loc now s1) =
      match AppV1.currentLocation s1 with
      | Some cur => heading P loc cur
      | None => AppV1.carRotation s1
      end
   /\ AppV1.trackingPath (AppV1.handleLocationUpdate P loc now s1) =
      if AppV1.isNavigating s1
      then AppV1.trackingPath s1 ++ [pointAt (loc, now)]
      else AppV1.trackingPath s1).
Proof.
  split; [split; [|split; [|split]] | split; [|split]].
  - apply V2_hlu_currentLocation.
  - apply V2_hlu_carRotation.
  - intros tracking. by rewrite !V2_hlu_trackingPath.
  - destruct (V2_hlu_track_step P loc now s2) as [H|[H _]]; [by left | by right].
  - apply V1_hlu_currentLocation.
  - apply V1_hlu_carRotation.
  - apply V1_hlu_trackingPath.
Qed.

(** In the second variant a point is recorded while tracking is disabled,
    and a move below the gate leaves the heading at its old value whatever
    [Math.atan2] would return. *)
Lemma C7_counterexample :
  AppV2.isNavigating Sample.session2 = false
  /\ AppV2.trackingPath
       (AppV2.handleLocationUpdate Sample.platform Sample.there 2000 Sample.session2)
     = [Sample.point 1000 Sample.here; Sample.point 2000 Sample.there]
  /\ forall P : Platform,
       AppV2.carRotation
         (AppV2.handleLocationUpdate P Sample.nudged 2000 Sample.session2)
       = AppV2.carRotation Sample.session2.
Proof.
  split; [reflexivity|]. split; [vm_compute; reflexivity|].
  intros P. rewrite V2_hlu_carRotation. vm_compute. reflexivity.
Qed.

(** C10, as amended: on the first location update of a session
    ([currentLocation] is null) the second variant only sets
    [currentLocation]: the track and the heading are as before, whatever
    the tracking flag.  The first variant also leaves the heading, but it
    appends the first sample to the track when tracking is enabled. *)
Theorem C10_first_location_update (P : Platform) (loc : Location) (now : Z)
    (s1 : AppV1.Session) (s2 : AppV2.Session) :
  AppV1.currentLocation s1 = None ->
  AppV2.currentLocation s2 = None ->
  (AppV2.handleLocationUpdate P loc now s2 = AppV2.setCurrentLocation (Some loc) s2
   /\ AppV2.trackingPath (AppV2.handleLocationUpdate P loc now s2)
      = AppV2.trackingPath s2
   /\ AppV2.carRotation (AppV2.handleLocationUpdate P loc now s2)
      = AppV2.carRotation s2)
  /\
  (AppV1.currentLocation (AppV1.handleLocationUpdate P loc now s1) = Some loc
   /\ AppV1.carRotation (AppV1.handleLocationUpdate P loc now s1)
      = AppV1.carRotation s1
   /\ AppV1.trackingPath (AppV1.handleLocationUpdate P loc now s1) =
      if AppV1.isNavigating s1
      then AppV1.trackingPath s1 ++ [pointAt (loc, now)]
      else AppV1.trackingPath s1).
Proof.
  intros H1 H2. split.
  - unfold AppV2.handleLocationUpdate. rewrite H2. done.
  - split; [apply V1_hlu_currentLocation|]. split.
    + by rewrite V1_hlu_carRotation, H1.
    + apply V1_hlu_trackingPath.
Qed.

Lemma C10_witness :
  AppV2.trackingPath
    (AppV2.handleLocationUpdate Sample.platform Sample.here 1000 (Sample.fresh2 true))
  = []
  /\ AppV1.carRotation
       (AppV1.handleLocationUpdate Sample.platform Sample.here 1000 (Sample.fresh1 true))
     = 0%float.
Proof.
  pose proof (C10_first_location_update Sample.platform Sample.here 1000
                (Sample.fresh1 true) (Sample.fresh2 true) eq_refl eq_refl)
    as [(_ & H2 & _) (_ & H1 & _)].
  split; [exact H2 | exact H1].
Defined.

(** In the first variant the first update of a session is recorded when
    tracking is enabled. *)
Lemma C10_counterexample :
  AppV1.currentLocation (Sample.fresh1 true) = None
  /\ AppV1.isNavigating (Sample.fresh1 true) = true
  /\ AppV1.trackingPath (Sample.fresh1 true) = []
  /\ AppV1.trackingPath
       (AppV1.handleLocationUpdate Sample.platform Sample.here 1000 (Sample.fresh1 true))
     = [Sample.point 1000 Sample.here].
Proof. repeat split. Qed.

(* ===================================================================== *)
(** ** handleLocationUpdate, sequences of updates                        *)
(* ===================================================================== *)

Lemma spaced_snoc (l : list TrackingPath) (b : TrackingPath) :
  spaced l ->
  (forall a, last l = Some a -> apart a b = true) ->
  spaced (l ++ [b]).
Proof.
  induction l as [|x [|y rest] IH]; intros Hs Hl.
  - exact I.
  - simpl. split; [by apply Hl | exact I].
  - destruct Hs as [Hxy Hrest]. split; [exact Hxy|].
    apply IH; [exact Hrest|]. intros a Ha. apply Hl.
    by rewrite last_cons_cons.
Qed.

(** Dropping an element from a sorted list of clock readings. *)
Lemma StronglySorted_drop_middle (l1 l2 : list Z) (x : Z) :
  StronglySorted Z.le (l1 ++ x :: l2) -> StronglySorted Z.le (l1 ++ l2).
Proof.
  rewrite !StronglySorted_app, StronglySorted_cons.
  intros (Hcross & H1 & Hx & H2). split; [|done].
  intros a b Ha Hb. apply Hcross; [done|]. rewrite elem_of_cons. by right.
Qed.

Section LocationSequences.

Variable P : Platform.

Lemma deliver2_cons u us s :
  deliver2 P (u :: us) s
  = deliver2 P us (AppV2.handleLocationUpdate P (fst u) (snd u) s).
Proof. reflexivity. Qed.

Lemma deliver1_cons u us s :
  deliver1 P (u :: us) s
  = deliver1 P us (AppV1.handleLocationUpdate P (fst u) (snd u) s).
Proof. reflexivity. Qed.

(** The track only grows at its end. *)
Lemma deliver2_append_only us : forall s,
  exists added,
    AppV2.trackingPath (deliver2 P us s) = AppV2.trackingPath s ++ added.
Proof.
  induction us as [|[loc now] us IH]; intros s.
  - exists []. by rewrite app_nil_r.
  - rewrite deliver2_cons. simpl fst; simpl snd.
    destruct (IH (AppV2.handleLocationUpdate P loc now s)) as [added ->].
    destruct (V2_hlu_track_step P loc now s) as [-> | [-> _]].
    + by exists added.
    + exists (pointAt (loc, now) :: added). by rewrite <- app_assoc.
Qed.

Lemma deliver2_sorted us : forall s,
  StronglySorted Z.le (timestamps (AppV2.trackingPath s) ++ map snd us) ->
  StronglySorted Z.le (timestamps (AppV2.trackingPath (deliver2 P us s))).
Proof.
  induction us as [|[loc now] us IH]; intros s Hs.
  - simpl in Hs. by rewrite app_nil_r in Hs.
  - rewrite deliver2_cons. simpl fst; simpl snd. apply IH.
    simpl map in Hs.
    destruct (V2_hlu_track_step P loc now s) as [-> | [-> _]].
    + by apply StronglySorted_drop_middle in Hs.
    + unfold timestamps in *. rewrite map_app. simpl.
      by rewrite <- app_assoc.
Qed.

Lemma deliver2_spaced us : forall s,
  spaced (AppV2.trackingPath s) ->
  spaced (AppV2.trackingPath (deliver2 P us s)).
Proof.
  induction us as [|[loc now] us IH]; intros s Hs; [done|].
  rewrite deliver2_cons. simpl fst; simpl snd. apply IH.
  destruct (V2_hlu_track_step P loc now s) as [-> | [-> Hl]]; [done|].
  by apply spaced_snoc.
Qed.

(** Two updates that are not [apart] add at most one point. *)
Lemma deliver2_close_pair a ta b tb s :
  apart (pointAt (a, ta)) (pointAt (b, tb)) = false ->
  (length (AppV2.trackingPath (deliver2 P [(a, ta); (b, tb)] s))
   <= S (length (AppV2.trackingPath s)))%nat.
Proof.
  intros Hclose.
  change (deliver2 P [(a, ta); (b, tb)] s)
    with (AppV2.handleLocationUpdate P b tb (AppV2.handleLocationUpdate P a ta s)).
  destruct (V2_hlu_track_step P b tb (AppV2.handleLocationUpdate P a ta s))
    as [-> | [-> Hl]].
  - destruct (V2_hlu_track_step P a ta s) as [-> | [-> _]];
      rewrite ?length_app; simpl; lia.
  - destruct (V2_hlu_track_step P a ta s) as [Ha | [Ha _]].
    + rewrite Ha, length_app. simpl. lia.
    + rewrite Ha in Hl. specialize (Hl (pointAt (a, ta)) (last_snoc _ _)).
      congruence.
Qed.

Lemma deliver1_isNavigating us : forall s,
  AppV1.isNavigating (deliver1 P us s) = AppV1.isNavigating s.
Proof.
  induction us as [|[loc now] us IH]; intros s; [done|].
  rewrite deliver1_cons, IH. apply V1_hlu_frame.
Qed.

Lemma deliver1_track us : forall s,
  AppV1.trackingPath (deliver1 P us s) =
  if AppV1.isNavigating s
  then AppV1.trackingPath s ++ map pointAt us
  else AppV1.trackingPath s.
Proof.
  induction us as [|[loc now] us IH]; intros s.
  - simpl. destruct (AppV1.isNavigating s); [by rewrite app_nil_r | done].
  - rewrite deliver1_cons, IH. simpl fst; simpl snd.
    rewrite V1_hlu_trackingPath.
    pose proof (V1_hlu_frame P loc now s) as [-> _].
    destruct (AppV1.isNavigating s); [|done].
    by rewrite <- app_assoc.
Qed.

Lemma deliver1_sorted us s :
  StronglySorted Z.le (timestamps (AppV1.trackingPath s) ++ map snd us) ->
  StronglySorted Z.le (timestamps (AppV1.trackingPath (deliver1 P us s))).
Proof.
  rewrite deliver1_track. destruct (AppV1.isNavigating s).
  - unfold timestamps. rewrite map_app, map_map. done.
  - apply StronglySorted_app_1_l.
Qed.

End LocationSequences.

(** C3, as amended: for every sequence of location updates the recorded
    track only grows at its end and, when the clock readings continue the
    recorded timestamps without decreasing, its timestamps are
    non-decreasing.  In the second variant, whatever the tracking flag,
    every recorded point is more than 0.00005 away on some axis from the
    one recorded before it, and two updates not that far apart add at most
    one point.  The first variant has no displacement threshold: while
    tracking is enabled it records every update. *)
Theorem C3_recorded_track (P : Platform) (us : list (Location * Z))
    (s1 : AppV1.Session) (s2 : AppV2.Session) :
  ((exists added,
      AppV2.trackingPath (deliver2 P us s2) = AppV2.trackingPath s2 ++ added)
   /\ (StronglySorted Z.le (timestamps (AppV2.trackingPath s2) ++ map snd us) ->
       StronglySorted Z.le (timestamps (AppV2.trackingPath (deliver2 P us s2))))
   /\ (spaced (AppV2.trackingPath s2) ->
       spaced (AppV2.trackingPath (deliver2 P us s2)))
   /\ (forall a ta b tb,
         apart (pointAt (a, ta)) (pointAt (b, tb)) = false ->
         (length (AppV2.trackingPath (deliver2 P [(a, ta); (b, tb)] s2))
          <= S (length (AppV2.trackingPath s2)))%nat))
  /\
  ((exists added,
      AppV1.trackingPath (deliver1 P us s1) = AppV1.trackingPath s1 ++ added)
   /\ (StronglySorted Z.le (timestamps (AppV1.trackingPath s1) ++ map snd us) ->
       StronglySorted Z.le (timestamps (AppV1.trackingPath (deliver1 P us s1))))
   /\ (AppV1.isNavigating s1 = true ->
       AppV1.trackingPath (deliver1 P us s1)
       = AppV1.trackingPath s1 ++ map pointAt us)).
Proof.
  split; [split; [|split; [|split]] | split; [|split]].
  - apply deliver2_append_only.
  - apply deliver2_sorted.
  - apply deliver2_spaced.
  - intros a ta b tb. apply deliver2_close_pair.
  - rewrite deliver1_track. destruct (AppV1.isNavigating s1).
    + by eexists.
    + exists []. by rewrite app_nil_r.
  - apply deliver1_sorted.
  - intros H. by rewrite deliver1_track, H.
Qed.

(** A stationary sample, a move of about 150 m and the same coordinate
    again, delivered to a tracking session of the second variant that knows
    its location and has one recorded point: only the move is recorded. *)
Lemma C3_witness :
  AppV2.trackingPath
    (deliver2 Sample.platform
       [(Sample.here, 2000); (Sample.there, 3000); (Sample.there, 4000)]
       (AppV2.setIsNavigating true Sample.session2))
  = [Sample.point 1000 Sample.here; Sample.point 3000 Sample.there]
  /\ StronglySorted Z.le
       (timestamps
          (AppV2.trackingPath
             (deliver2 Sample.platform
                [(Sample.here, 2000); (Sample.there, 3000); (Sample.there, 4000)]
                (AppV2.setIsNavigating true Sample.session2))))
  /\ spaced
       (AppV2.trackingPath
          (deliver2 Sample.platform
             [(Sample.here, 2000); (Sample.there, 3000); (Sample.there, 4000)]
             (AppV2.setIsNavigating true Sample.session2))).
Proof.
  split; [vm_compute; reflexivity|].
  pose proof (C3_recorded_track Sample.platform
                [(Sample.here, 2000); (Sample.there, 3000); (Sample.there, 4000)]
                Sample.session1 (AppV2.setIsNavigating true Sample.session2))
    as [(_ & Hsorted & Hspaced & _) _].
  split.
  - apply Hsorted. simpl. repeat constructor; lia.
  - apply Hspaced. exact I.
Defined.

(** Two updates at the same coordinates, delivered to a fresh tracking
    session: the second variant records none of them, the first variant
    records both. *)
Lemma C3_counterexample :
  AppV2.isNavigating (Sample.fresh2 true) = true
  /\ AppV2.trackingPath
       (deliver2 Sample.platform [(Sample.here, 1000); (Sample.here, 2000)]
          (Sample.fresh2 true))
     = []
  /\ AppV1.isNavigating (Sample.fresh1 true) = true
  /\ AppV1.trackingPath
       (deliver1 Sample.platform [(Sample.here, 1000); (Sample.here, 2000)]
          (Sample.fresh1 true))
     = [Sample.point 1000 Sample.here; Sample.point 2000 Sample.here].
Proof. repeat split; vm_compute; reflexivity. Qed.

(* ===================================================================== *)
(** ** Applying a discovery response                                     *)
(* ===================================================================== *)

Section Minting.

Variable P : Platform.

Lemma mint_length f items n : length (mint P f items n) = length items.
Proof. revert n. induction items as [|v rest IH]; intros n; simpl; [done|]. by rewrite IH. Qed.

Lemma mint_Forall (Q : JsObject -> Prop) f items n :
  (forall v id, Q (f v id)) -> Forall Q (mint P f items n).
Proof.
  intros HQ. revert n.
  induction items as [|v rest IH]; intros n; simpl; constructor; auto.
Qed.

(** The ids handed out are the draws, in order. *)
Lemma mint_ids f items n :
  (forall v id, idOf (f v id) = JStr id) ->
  map idOf (mint P f items n) = map JStr (drawn P n (length items)).
Proof.
  intros Hid. revert n. unfold drawn.
  induction items as [|v rest IH]; intros n; simpl; [done|].
  by rewrite Hid, IH.
Qed.

Lemma drawn_app n k1 k2 :
  drawn P n (k1 + k2) = drawn P n k1 ++ drawn P (n + k1) k2.
Proof. unfold drawn. by rewrite seq_app, map_app. Qed.

Lemma NoDup_map_JStr (l : list string) : NoDup l -> NoDup (map JStr l).
Proof.
  induction 1 as [|x l Hx Hl IH]; simpl; constructor; [|done].
  rewrite list_elem_of_In, in_map_iff. intros (y & [= ->] & Hy).
  apply Hx. by apply list_elem_of_In.
Qed.

(** [applyCityData] on an object whose [bars] and [districts] are arrays. *)
Lemma V2_applyCityData_arrays o bars ds lat lng placeName w :
  obj_get "bars" o = JArr bars ->
  obj_get "districts" o = JArr ds ->
  let r := AppV2.applyCityData P (JObj o) lat lng placeName w in
  snd r = Normal tt
  /\ AppV2.businesses (AppV2.session (fst r))
     = mint P asBusiness bars (AppV2.randomCalls w)
  /\ AppV2.districts (AppV2.session (fst r))
     = mint P asDistrict ds (AppV2.randomCalls w + length bars)
  /\ AppV2.cityName (AppV2.session (fst r))
     = js_or (obj_get "cityName" o) (JStr placeName)
  /\ AppV2.searchCache (fst r) = AppV2.searchCache w
  /\ AppV2.inflight (fst r) = AppV2.inflight w
  /\ AppV2.issued (fst r) = AppV2.issued w.
Proof.
  intros Hb Hd.
  unfold AppV2.applyCityData, bind, liftC, ret, AppV2.set, AppV2.array_map, prop.
  cbn -[mint obj_get js_or]. rewrite Hb. cbn -[mint obj_get js_or].
  rewrite Hd. cbn -[mint obj_get js_or]. done.
Qed.

Lemma V1_applyResult_arrays o bars ds placeName w :
  obj_get "bars" o = JArr bars ->
  obj_get "districts" o = JArr ds ->
  let r := AppV1.applyResult P (JObj o) placeName w in
  snd r = Normal tt
  /\ AppV1.businesses (AppV1.session (fst r))
     = mint P asBusiness bars (AppV1.randomCalls w)
  /\ AppV1.districts (AppV1.session (fst r))
     = mint P asDistrict ds (AppV1.randomCalls w + length bars).
Proof.
  intros Hb Hd.
  unfold AppV1.applyResult, bind, liftC, ret, AppV1.set, AppV1.array_map, prop.
  cbn -[mint obj_get js_or]. rewrite Hb. cbn -[mint obj_get js_or].
  rewrite Hd. cbn -[mint obj_get js_or]. done.
Qed.

(** What the two [map] calls produce from [n] draws on. *)
Lemma minted_entries bars ds n :
  let bs := mint P asBusiness bars n in
  let dd := mint P asDistrict ds (n + length bars) in
  length bs = length bars
  /\ Forall (fun b => statusOf b = JStr "pending") bs
  /\ length dd = length ds
  /\ Forall (fun d => coveredOf d = JBool false) dd
  /\ map idOf (bs ++ dd) = map JStr (drawn P n (length bars + length ds))
  /\ (NoDup (drawn P n (length bars + length ds)) -> NoDup (map idOf (bs ++ dd))).
Proof.
  intros bs dd.
  assert (Hids : map idOf (bs ++ dd)
                 = map JStr (drawn P n (length bars + length ds))).
  { rewrite map_app, drawn_app, map_app. unfold bs, dd.
    rewrite (mint_ids asBusiness) by apply idOf_asBusiness.
    by rewrite (mint_ids asDistrict) by apply idOf_asDistrict. }
  split; [apply mint_length|].
  split; [apply mint_Forall; intros; apply statusOf_asBusiness|].
  split; [apply mint_length|].
  split; [apply mint_Forall; intros; apply coveredOf_asDistrict|].
  split; [exact Hids|].
  intros Hnd. rewrite Hids. by apply NoDup_map_JStr.
Qed.

End Minting.

(** C4, as amended: applying a discovery response whose [bars] array has N
    elements and whose [districts] array has M completes normally and
    replaces the collections by exactly N points of interest, each with
    status [pending], and exactly M districts, each with [covered] false.
    The ids are the next N + M values of the random id expression, in
    order; they are pairwise different whenever those values are (the code
    makes no check of its own).  This holds for [applyCityData] of the
    second variant and for the same statements of [fetchCityData] in the
    first. *)
Theorem C4_discovery_entries (P : Platform) (o : JsObject)
    (bars ds : list JsValue) (lat lng : float) (placeName : string)
    (w1 : AppV1.World) (w2 : AppV2.World) :
  obj_get "bars" o = JArr bars ->
  obj_get "districts" o = JArr ds ->
  (let r := AppV2.applyCityData P (JObj o) lat lng placeName w2 in
   let bs := AppV2.businesses (AppV2.session (fst r)) in
   let dd := AppV2.districts (AppV2.session (fst r)) in
   let ids := drawn P (AppV2.randomCalls w2) (length bars + length ds) in
   snd r = Normal tt
   /\ length bs = length bars
   /\ Forall (fun b => statusOf b = JStr "pending") bs
   /\ length dd = length ds
   /\ Forall (fun d => coveredOf d = JBool false) dd
   /\ map idOf (bs ++ dd) = map JStr ids
   /\ (NoDup ids -> NoDup (map idOf (bs ++ dd))))
  /\
  (let r := AppV1.applyResult P (JObj o) placeName w1 in
   let bs := AppV1.businesses (AppV1.session (fst r)) in
   let dd := AppV1.districts (AppV1.session (fst r)) in
   let ids := drawn P (AppV1.randomCalls w1) (length bars + length ds) in
   snd r = Normal tt
   /\ length bs = length bars
   /\ Forall (fun b => statusOf b = JStr "pending") bs
   /\ length dd = length ds
   /\ Forall (fun d => coveredOf d = JBool false) dd
   /\ map idOf (bs ++ dd) = map JStr ids
   /\ (NoDup ids -> NoDup (map idOf (bs ++ dd)))).
Proof.
  intros Hb Hd. split.
  - destruct (V2_applyCityData_arrays P o bars ds lat lng placeName w2 Hb Hd)
      as (Hr & Hbs & Hdd & _).
    cbv zeta. rewrite Hbs, Hdd. split; [exact Hr|]. apply minted_entries.
  - destruct (V1_applyResult_arrays P o bars ds placeName w1 Hb Hd)
      as (Hr & Hbs & Hdd).
    cbv zeta. rewrite Hbs, Hdd. split; [exact Hr|]. apply minted_entries.
Qed.

(** The sample payload (two bars, one district) applied on a host whose
    draws differ: three entries with three different ids. *)
Lemma C4_witness :
  let r := AppV2.applyCityData Sample.platform (Sample.cityData "Sobral")
             10 20 "Sobral" AppV2.initial in
  let bs := AppV2.businesses (AppV2.session (fst r)) in
  let dd := AppV2.districts (AppV2.session (fst r)) in
  length bs = 2%nat /\ length dd = 1%nat
  /\ map idOf (bs ++ dd) = [JStr "r0"; JStr "r1"; JStr "r2"]
  /\ NoDup (map idOf (bs ++ dd)).
Proof.
  pose proof (C4_discovery_entries Sample.platform (Sample.cityFields "Sobral")
                Sample.bars Sample.districts 10 20 "Sobral"
                Sample.world1 AppV2.initial eq_refl eq_refl)
    as [(_ & Hn & _ & Hm & _ & Hids & Hnodup) _].
  cbv zeta in *. split; [exact Hn|]. split; [exact Hm|]. split; [exact Hids|].
  apply Hnodup. apply (bool_decide_unpack _). vm_compute. reflexivity.
Defined.

(** On a host whose random id expression yields the same string twice, the
    two bars of the sample payload get the same id. *)
Lemma C4_counterexample :
  let r := AppV2.applyCityData Sample.repeating (Sample.cityData "Sobral")
             10 20 "Sobral" AppV2.initial in
  let bs := AppV2.businesses (AppV2.session (fst r)) in
  snd r = Normal tt
  /\ map idOf bs = [JStr "k3x9a1b2c"; JStr "k3x9a1b2c"]
  /\ ~ NoDup (map idOf bs).
Proof.
  cbv zeta. split; [reflexivity|]. split; [reflexivity|].
  intros H. apply NoDup_cons in H as [Hin _]. apply Hin. left.
Qed.

(* ===================================================================== *)
(** ** The search cache                                                  *)
(* ===================================================================== *)

Section Cache.

Variable P : Platform.

(** [applyCityData] only writes session cells and draws ids, whether it
    completes or throws. *)
Lemma V2_applyCityData_frame result lat lng placeName w :
  let w' := fst (AppV2.applyCityData P result lat lng placeName w) in
  AppV2.searchCache w' = AppV2.searchCache w
  /\ AppV2.inflight w' = AppV2.inflight w
  /\ AppV2.issued w' = AppV2.issued w.
Proof.
  unfold AppV2.applyCityData, bind, liftC, ret, AppV2.set, AppV2.array_map, prop.
  destruct result as [| | | | | |o]; cbn -[mint obj_get js_or]; try done.
  destruct (obj_get "bars" o); cbn -[mint obj_get js_or]; try done.
  destruct (obj_get "districts" o); cbn -[mint obj_get js_or]; done.
Qed.
















End Cache.

(* ===================================================================== *)
(** ** Searches whose replies settle out of order                        *)
(* ===================================================================== *)

Section Settling.

Variable P : Platform.

Lemma V2_applyCityData_mapCenter result lat lng placeName w :
  AppV2.mapCenter (AppV2.session (fst (AppV2.applyCityData P result lat lng placeName w)))
  = AppV2.mapCenter (AppV2.session w).
Proof.
  unfold AppV2.applyCityData, bind, liftC, ret, AppV2.set, AppV2.array_map, prop.
  destruct result as [| | | | | |o]; cbn -[mint obj_get js_or]; try done.
  destruct (obj_get "bars" o); cbn -[mint obj_get js_or]; try done.
  destruct (obj_get "districts" o); cbn -[mint obj_get js_or]; done.
Qed.

Lemma V2_callFetchCityData_mapCenter geo query w :
  AppV2.mapCenter (AppV2.session (fst (AppV2.callFetchCityData P geo query w)))
  = AppV2.mapCenter (AppV2.session w).
Proof.
  unfold AppV2.callFetchCityData, bind, liftC, ret, prop.
  destruct geo as [| | | | | |o]; simpl; try done.
  destruct (asNumber (obj_get "lat" o)); [|done].
  destruct (asNumber (obj_get "lng" o)); [|done].
  simpl. unfold AppV2.fetchCityData.
  destruct (AppV2.searchCache w !! _); [|done].
  apply V2_applyCityData_mapCenter.
Qed.

(** A settling discovery is applied whatever its ticket. *)
Lemma V2_city_settles w ticket lat lng place key o bars ds :
  AppV2.inflight w !! ticket = Some (AppV2.AwaitCityData lat lng place key) ->
  obj_get "bars" o = JArr bars ->
  obj_get "districts" o = JArr ds ->
  let w' := AppV2.step P w (AppV2.AiSettles ticket (Parsed (JObj o))) in
  AppV2.businesses (AppV2.session w') = mint P asBusiness bars (AppV2.randomCalls w)
  /\ AppV2.districts (AppV2.session w')
     = mint P asDistrict ds (AppV2.randomCalls w + length bars)
  /\ AppV2.cityName (AppV2.session w') = js_or (obj_get "cityName" o) (JStr place)
  /\ AppV2.searchCache w' !! key = Some (JObj o)
  /\ AppV2.inflight w' !! ticket = None.
Proof.
  intros Hin Hb Hd. simpl. rewrite Hin.
  unfold AppV2.fetchCityData_resume, try_catch. cbn [cityPayload].
  destruct (V2_applyCityData_arrays P o bars ds lat lng place
              (AppV2.cacheSet key (JObj o) (AppV2.retire ticket w)) Hb Hd)
    as (_ & Hbs & Hdd & Hname & Hcache & Hfl & _).
  cbn [AppV2.onSession AppV2.session AppV2.searchCache AppV2.inflight
       AppV2.setIsLoading AppV2.businesses AppV2.districts AppV2.cityName].
  rewrite Hbs, Hdd, Hname, Hcache, Hfl. simpl.
  rewrite lookup_insert_eq, lookup_delete_eq. done.
Qed.

(** A settling geocode with truthy coordinates moves the map. *)
Lemma V2_geocode_settles w ticket query key geo :
  AppV2.inflight w !! ticket = Some (AppV2.AwaitGeocode query key) ->
  truthy (obj_get "lat" geo) = true ->
  truthy (obj_get "lng" geo) = true ->
  AppV2.mapCenter
    (AppV2.session (AppV2.step P w (AppV2.AiSettles ticket (Parsed (JObj geo)))))
  = JObj geo.
Proof.
  intros Hin Hlat Hlng. simpl. rewrite Hin.
  unfold AppV2.performCitySearch_resume, try_catch,
    AppV2.performCitySearch_found, bind, liftC, ret, AppV2.set, prop.
  rewrite Hlat, Hlng.
  match goal with
  | |- context [AppV2.callFetchCityData P ?g ?q ?w0] =>
      pose proof (V2_callFetchCityData_mapCenter g q w0) as Hc;
      destruct (AppV2.callFetchCityData P g q w0) as [w' [[]|]]
  end; simpl in *; exact Hc.
Qed.

End Settling.

(** C2, as amended: replies are applied in the order in which they settle;
    no request-sequence guard exists.  Whenever a pending discovery request
    settles with a payload whose [bars] and [districts] are arrays, the
    session's businesses, districts and city name become those of that
    payload and the payload is cached, whichever searches were issued or
    applied in the meantime; whenever a pending geocode settles with truthy
    [lat] and [lng], the map focus becomes that reply. *)
Theorem C2_last_settled_wins (P : Platform) (w : AppV2.World) (ticket : nat)
    (lat lng : float) (place key : string) (o : JsObject)
    (bars ds : list JsValue) :
  AppV2.inflight w !! ticket = Some (AppV2.AwaitCityData lat lng place key) ->
  obj_get "bars" o = JArr bars ->
  obj_get "districts" o = JArr ds ->
  (let w' := AppV2.step P w (AppV2.AiSettles ticket (Parsed (JObj o))) in
   AppV2.businesses (AppV2.session w') = mint P asBusiness bars (AppV2.randomCalls w)
   /\ AppV2.districts (AppV2.session w')
      = mint P asDistrict ds (AppV2.randomCalls w + length bars)
   /\ AppV2.cityName (AppV2.session w') = js_or (obj_get "cityName" o) (JStr place)
   /\ AppV2.searchCache w' !! key = Some (JObj o)
   /\ AppV2.inflight w' !! ticket = None)
  /\ (forall v ticket' query key' geo,
        AppV2.inflight v !! ticket' = Some (AppV2.AwaitGeocode query key') ->
        truthy (obj_get "lat" geo) = true ->
        truthy (obj_get "lng" geo) = true ->
        AppV2.mapCenter
          (AppV2.session (AppV2.step P v (AppV2.AiSettles ticket' (Parsed (JObj geo)))))
        = JObj geo).
Proof.
  intros Hin Hb Hd. split.
  - exact (V2_city_settles P w ticket lat lng place key o bars ds Hin Hb Hd).
  - intros v ticket' query key' geo. apply V2_geocode_settles.
Qed.

(** In the run [Sample.overtaken] the discovery for [sobral] is still
    pending when the one for [ubajara], issued later, has been applied;
    when it settles it is applied all the same. *)
Lemma C2_witness :
  let v := AppV2.run Sample.platform (AppV2.mounted Sample.platform)
             (firstn 6 Sample.overtaken) in
  let w' := AppV2.step Sample.platform v
              (AppV2.AiSettles 3 (Parsed (Sample.cityData "Sobral"))) in
  AppV2.cityName (AppV2.session v) = JStr "Ubajara"
  /\ AppV2.cityName (AppV2.session w') = JStr "Sobral"
  /\ AppV2.inflight w' !! 3%nat = None.
Proof.
  cbv zeta. split; [vm_compute; reflexivity|].
  assert (Hin : AppV2.inflight
                  (AppV2.run Sample.platform (AppV2.mounted Sample.platform)
                     (firstn 6 Sample.overtaken)) !! 3%nat
                = Some (AppV2.AwaitCityData (-3.69) (-40.35) "sobral"
                          "-3.6900,-40.3500"))
    by (vm_compute; reflexivity).
  pose proof (C2_last_settled_wins Sample.platform _ 3%nat _ _ _ _
                (Sample.cityFields "Sobral") Sample.bars Sample.districts
                Hin eq_refl eq_refl) as [(_ & _ & Hname & _ & Hgone) _].
  split; [exact Hname | exact Hgone].
Defined.

(** After the run [Sample.overtaken] the search box and the map show
    [ubajara], the search issued last, while the city, its points of
    interest and its districts are those of [sobral], whose reply settled
    last. *)
Lemma C2_counterexample :
  let w := AppV2.run Sample.platform (AppV2.mounted Sample.platform)
             Sample.overtaken in
  AppV2.citySearchQuery (AppV2.session w) = "ubajara"
  /\ AppV2.mapCenter (AppV2.session w) = JObj Sample.geoUbajara
  /\ AppV2.cityName (AppV2.session w) = JStr "Sobral"
  /\ prop "name" (AppV2.selectedPoint (AppV2.session w)) = Normal (JStr "Sobral").
Proof. cbv zeta. repeat split; vm_compute; reflexivity. Qed.

(* ===================================================================== *)
(** ** Rounding in toFixed and Math.round                                *)
(* ===================================================================== *)


(** [Math.round] of a finite number with a fractional part: the nearest
    integer to [v * 2^e], the larger one on a tie. *)
Lemma Math_round_nearest (x : float) (s : bool) (m : positive) (e : Z) :
  Prim2SF x = S754_finite s m e ->
  e < 0 ->
  exists n, Math_round x = RInt n
            /\ let v := if s then Zneg m else Zpos m in
               let d := 2 ^ (- e) in
               2 * (n * d) - d <= 2 * v < 2 * (n * d) + d.
Proof.
  intros Hx He. unfold Math_round. rewrite Hx.
  destruct (0 <=? e) eqn:E; [apply Z.leb_le in E; lia|].
  eexists. split; [reflexivity|]. cbv zeta.
  set (v := if s then Z.neg m else Z.pos m).
  set (d := 2 ^ (- e)).
  assert (Hd : 0 < d) by (apply Z.pow_pos_nonneg; lia).
  pose proof (Z.div_mod (2 * v + d) (2 * d) ltac:(lia)) as Hdm.
  pose proof (Z.mod_pos_bound (2 * v + d) (2 * d) ltac:(lia)) as Hmod.
  nia.
Qed.

(* ===================================================================== *)
(** ** Payloads without the arrays                                       *)
(* ===================================================================== *)

(** When [result.bars] is not an array, [applyCityData] throws after it
    has set the city name and population, and the collections keep the
    entries they had. *)
Lemma V2_applyCityData_no_bars (P : Platform) (o : JsObject)
    (lat lng : float) (placeName : string) (w : AppV2.World) :
  (forall items, obj_get "bars" o <> JArr items) ->
  let r := AppV2.applyCityData P (JObj o) lat lng placeName w in
  snd r = Throw
  /\ AppV2.businesses (AppV2.session (fst r)) = AppV2.businesses (AppV2.session w)
  /\ AppV2.districts (AppV2.session (fst r)) = AppV2.districts (AppV2.session w)
  /\ AppV2.cityName (AppV2.session (fst r))
     = js_or (obj_get "cityName" o) (JStr placeName).
Proof.
  intros Hbars.
  unfold AppV2.applyCityData, bind, liftC, ret, AppV2.set, AppV2.array_map, prop.
  cbn -[mint obj_get js_or].
  destruct (obj_get "bars" o) as [| | | | |items|]; cbn -[mint obj_get js_or];
    try done.
  by destruct (Hbars items).
Qed.

(** C9, a payload without the arrays: the discovery in flight in
    [Sample.located] settles with the payload [{"cityName":"X"}].  The payload is cached, the
    city name becomes [X], and the two points of interest and the district
    of the previous city stay in the session instead of being emptied.  A
    second discovery for the same key takes the cached payload and throws
    outside any [try]: the promise it returns is rejected. *)
Lemma C9_payload_without_arrays :
  let w := AppV2.step Sample.platform Sample.located
             (AppV2.AiSettles 1 (Parsed Sample.noArrays)) in
  AppV2.searchCache w !! "10.0000,20.0000" = Some Sample.noArrays
  /\ AppV2.cityName (AppV2.session w) = JStr "X"
  /\ AppV2.businesses (AppV2.session w)
     = AppV2.businesses (AppV2.session Sample.located)
  /\ length (AppV2.businesses (AppV2.session w)) = 2%nat
  /\ length (AppV2.districts (AppV2.session w)) = 1%nat
  /\ snd (AppV2.fetchCityData Sample.platform 10 20 "Local" w) = Throw.
Proof. cbv zeta. repeat split; vm_compute; reflexivity. Qed.

(* ===================================================================== *)
(** ** The two kinds of cache key                                        *)
(* ===================================================================== *)

Lemma digits_head (n : N) :
  exists c rest, digits n = String c rest /\ c <> "g"%char.
Proof.
  unfold digits. destruct (N.to_uint n); simpl;
    eexists _, _; (split; [reflexivity | discriminate]).
Qed.

Lemma string_length_append (a b : string) :
  String.length (a +:+ b) = (String.length a + String.length b)%nat.
Proof. induction a as [|c a IH]; simpl; [done | by rewrite IH]. Qed.

Lemma zeros_length (k : nat) : String.length (zeros k) = k.
Proof. induction k as [|k IH]; simpl; [done | by rewrite IH]. Qed.

Lemma zeros_app_head (k : nat) (s : string) :
  (exists c rest, s = String c rest /\ c <> "g"%char) ->
  exists c rest, zeros k +:+ s = String c rest /\ c <> "g"%char.
Proof.
  intros Hs. destruct k as [|k]; [exact Hs|].
  simpl. eexists _, _. split; [reflexivity | discriminate].
Qed.

Lemma fixed_digits_head (n : N) (f : nat) :
  exists c rest, fixed_digits n (S f) = String c rest /\ c <> "g"%char.
Proof.
  unfold fixed_digits.
  set (d := zeros (S (S f) - String.length (digits n)) +:+ digits n).
  assert (Hlen : (S (S f) <= String.length d)%nat).
  { unfold d. rewrite string_length_append, zeros_length. lia. }
  destruct (zeros_app_head (S (S f) - String.length (digits n)) (digits n)
              (digits_head n)) as (c & rest & Hd & Hc).
  fold d in Hd. rewrite Hd in *. simpl in Hlen.
  destruct (String.length rest - f)%nat as [|k] eqn:Hk; [lia|].
  replace (String.length (String c rest) - S f)%nat with (S k) by (simpl; lia).
  simpl. eexists _, _. split; [reflexivity | exact Hc].
Qed.

(** [x.toFixed(f)] with at least one decimal never starts with [g]. *)
Lemma toFixed_head (f : nat) (x : float) :
  exists c rest, toFixed (S f) x = String c rest /\ c <> "g"%char.
Proof.
  unfold toFixed. destruct (Prim2SF x) as [s|[]| |[] m e].
  - apply fixed_digits_head.
  - eexists _, _. split; [reflexivity | discriminate].
  - eexists _, _. split; [reflexivity | discriminate].
  - eexists _, _. split; [reflexivity | discriminate].
  - eexists _, _. split; [reflexivity | discriminate].
  - destruct (fixed_digits_head (scaled_round m e (S f)) f) as (c & rest & -> & Hc).
    eexists _, _. split; [reflexivity | exact Hc].
Qed.

(** A discovery key is never a geocode key. *)
Lemma cityCacheKey_not_geo (la ln : float) :
  String.prefix "geo:" (AppV2.cityCacheKey la ln) = false.
Proof.
  unfold AppV2.cityCacheKey.
  destruct (toFixed_head 3 la) as (c & rest & -> & Hc).
  destruct (String.prefix _ _) eqn:E; [|done].
  apply String.prefix_correct in E. simpl in E.
  injection E as -> _. by destruct Hc.
Qed.

Lemma geo_key_prefix (q : string) : String.prefix "geo:" ("geo:" +:+ q) = true.
Proof. apply String.prefix_correct. simpl. by destruct q. Qed.

Section CacheKinds.

Variable P : Platform.

Lemma cacheSorted_same (w w' : AppV2.World) :
  AppV2.searchCache w' = AppV2.searchCache w ->
  AppV2.inflight w' = AppV2.inflight w ->
  cacheSorted w -> cacheSorted w'.
Proof. unfold cacheSorted. intros -> ->. done. Qed.

Lemma cacheSorted_retire t w : cacheSorted w -> cacheSorted (AppV2.retire t w).
Proof.
  intros (H1 & H2 & H3). split; [exact H1|]. simpl. split.
  - intros t' la ln place key Ht'. apply lookup_delete_Some in Ht' as [_ Ht'].
    by eapply H2.
  - intros t' query key Ht'. apply lookup_delete_Some in Ht' as [_ Ht'].
    by eapply H3.
Qed.

Lemma cacheSorted_suspend k w :
  match k with
  | AppV2.AwaitGeocode _ key => String.prefix "geo:" key = true
  | AppV2.AwaitCityData la ln _ key => key = AppV2.cityCacheKey la ln
  | AppV2.AwaitRoute _ => True
  end ->
  cacheSorted w -> cacheSorted (AppV2.suspend k w).
Proof.
  intros Hk (H1 & H2 & H3). split; [exact H1|]. simpl. split.
  - intros t la ln place key Ht. apply lookup_insert_Some in Ht as [[_ ->]|[_ Ht]];
      [exact Hk | by eapply H2].
  - intros t query key Ht. apply lookup_insert_Some in Ht as [[_ ->]|[_ Ht]];
      [exact Hk | by eapply H3].
Qed.

Lemma cacheSorted_cacheSet k v w :
  (String.prefix "geo:" k = true -> usableGeo v) ->
  cacheSorted w -> cacheSorted (AppV2.cacheSet k v w).
Proof.
  intros Hv (H1 & H2 & H3). split; [|by split]. simpl.
  intros k' v' Hk'. apply lookup_insert_Some in Hk' as [[<- <-]|[_ Hk']];
    [exact Hv | by apply H1].
Qed.

Lemma cacheSorted_applyCityData result la ln place w :
  cacheSorted w -> cacheSorted (fst (AppV2.applyCityData P result la ln place w)).
Proof.
  apply cacheSorted_same; apply V2_applyCityData_frame.
Qed.

Lemma cacheSorted_fetchCityData la ln place w :
  cacheSorted w -> cacheSorted (fst (AppV2.fetchCityData P la ln place w)).
Proof.
  intros Hw. unfold AppV2.fetchCityData.
  destruct (AppV2.searchCache w !! _).
  - by apply cacheSorted_applyCityData.
  - simpl. apply cacheSorted_suspend; [done|].
    by apply (cacheSorted_same w).
Qed.

Lemma cacheSorted_callFetchCityData geo query w :
  cacheSorted w -> cacheSorted (fst (AppV2.callFetchCityData P geo query w)).
Proof.
  intros Hw. unfold AppV2.callFetchCityData, bind, liftC, ret, prop.
  destruct geo as [| | | | | |o]; simpl; try done.
  destruct (asNumber (obj_get "lat" o)); [|done].
  destruct (asNumber (obj_get "lng" o)); [|done].
  simpl. by apply cacheSorted_fetchCityData.
Qed.

Lemma cacheSorted_performCitySearch forcedQuery w :
  cacheSorted w -> cacheSorted (fst (AppV2.performCitySearch P forcedQuery w)).
Proof.
  intros Hw. unfold AppV2.performCitySearch.
  destruct (String.eqb _ ""); [done|].
  destruct (AppV2.searchCache w !! _) as [geo|].
  - unfold bind, AppV2.set.
    match goal with
    | |- context [AppV2.callFetchCityData P ?g ?q ?w0] =>
        pose proof (cacheSorted_callFetchCityData g q w0) as Hc;
        destruct (AppV2.callFetchCityData P g q w0) as [w' [[]|]]
    end; simpl in *.
    + apply (cacheSorted_same w'); [done..|]. apply Hc.
      by apply (cacheSorted_same w).
    + apply Hc. by apply (cacheSorted_same w).
  - simpl. apply cacheSorted_suspend; [apply geo_key_prefix|].
    by apply (cacheSorted_same w).
Qed.

Lemma cacheSorted_found query key geo w :
  String.prefix "geo:" key = true ->
  cacheSorted w ->
  cacheSorted (fst (AppV2.performCitySearch_found P query key geo w)).
Proof.
  intros Hkey Hw.
  unfold AppV2.performCitySearch_found, bind, liftC, ret, AppV2.set, prop.
  destruct geo as [| | | | | |o]; simpl; try done.
  destruct (truthy (obj_get "lat" o)) eqn:Elat; [|done].
  destruct (truthy (obj_get "lng" o)) eqn:Elng; [|done].
  match goal with
  | |- context [AppV2.callFetchCityData P ?g ?q ?w0] =>
      pose proof (cacheSorted_callFetchCityData g q w0) as Hc;
      destruct (AppV2.callFetchCityData P g q w0) as [w' [[]|]]
  end; simpl in *; apply Hc;
    (eapply cacheSorted_same; [| |apply (cacheSorted_cacheSet key (JObj o) w)]);
    try done; intros _; by exists o.
Qed.

Lemma cacheSorted_step e w : cacheSorted w -> cacheSorted (AppV2.step P w e).
Proof.
  intros Hw. destruct e; simpl.
  - by apply (cacheSorted_same w).
  - destruct forcedQuery; simpl;
      [eapply cacheSorted_same; [| |by apply cacheSorted_performCitySearch]; done
      | by apply cacheSorted_performCitySearch].
  - unfold AppV2.detectRealLocation. apply cacheSorted_fetchCityData.
    by apply (cacheSorted_same w).
  - unfold AppV2.goToLocation. simpl. destruct (AppV2.currentLocation _).
    + apply cacheSorted_suspend; [done|]. by apply (cacheSorted_same w).
    + by apply (cacheSorted_same w).
  - by apply (cacheSorted_same w).
  - destruct (AppV2.inflight w !! ticket) as [[query key|la ln place key|item]|] eqn:Et;
      try done.
    + unfold AppV2.performCitySearch_resume, try_catch.
      assert (Hkey : String.prefix "geo:" key = true)
        by (destruct Hw as (_ & _ & H3); by eapply H3).
      assert (Hr := cacheSorted_retire ticket w Hw).
      destruct response as [| | |geo];
        (eapply cacheSorted_same; [| |]); try done;
        by apply cacheSorted_found.
    + unfold AppV2.fetchCityData_resume, try_catch.
      assert (Hkey : key = AppV2.cityCacheKey la ln)
        by (destruct Hw as (_ & H2 & _); by eapply H2).
      assert (Hr := cacheSorted_retire ticket w Hw).
      destruct (cityPayload response) as [result|];
        (eapply cacheSorted_same; [| |]); try done.
      apply cacheSorted_applyCityData. apply cacheSorted_cacheSet; [|done].
      subst key. by rewrite cityCacheKey_not_geo.
  - destruct (AppV2.inflight w !! ticket) as [[query key|la ln place key|item]|];
      try done.
    unfold AppV2.goToLocation_resume.
    destruct (AppV2.fetchStreetRoute P data now);
      (eapply cacheSorted_same; [| |by apply cacheSorted_retire]); done.
  - by apply (cacheSorted_same w).
  - by apply (cacheSorted_same w).
  - by apply (cacheSorted_same w).
Qed.

Lemma cacheSorted_run es : forall w, cacheSorted w -> cacheSorted (AppV2.run P w es).
Proof.
  induction es as [|e es IH]; intros w Hw; [done|].
  simpl. by apply IH, cacheSorted_step.
Qed.

Lemma cacheSorted_initial : cacheSorted AppV2.initial.
Proof.
  split; [|split]; simpl.
  - intros k v Hk. by rewrite lookup_empty in Hk.
  - intros t la ln place key Ht. by rewrite lookup_empty in Ht.
  - intros t query key Ht. by rewrite lookup_empty in Ht.
Qed.

Lemma cacheSorted_mounted : cacheSorted (AppV2.mounted P).
Proof. apply cacheSorted_fetchCityData, cacheSorted_initial. Qed.

Lemma callFetchCityData_object o query w :
  snd (AppV2.callFetchCityData P (JObj o) query w) = Normal tt.
Proof.
  unfold AppV2.callFetchCityData, bind, liftC, ret, prop. simpl.
  destruct (asNumber (obj_get "lat" o)); [|done].
  by destruct (asNumber (obj_get "lng" o)).
Qed.

(** With only usable geocodes under the [geo:] keys the cache-hit branch
    of [performCitySearch] completes. *)
Lemma performCitySearch_completes forcedQuery w :
  cacheSorted w -> snd (AppV2.performCitySearch P forcedQuery w) = Normal tt.
Proof.
  intros (H1 & _). unfold AppV2.performCitySearch.
  destruct (String.eqb _ ""); [done|].
  destruct (AppV2.searchCache w !! _) as [geo|] eqn:Eg; [|done].
  destruct (H1 _ _ Eg (geo_key_prefix _)) as (o & -> & _ & _).
  unfold bind, AppV2.set.
  match goal with
  | |- context [AppV2.callFetchCityData P ?g ?q ?w0] =>
      pose proof (callFetchCityData_object o q w0) as Hc;
      destruct (AppV2.callFetchCityData P g q w0) as [w' [[]|]]
  end; [done | discriminate Hc].
Qed.

End CacheKinds.

(** X1: geocodes and discovery payloads share [searchCache] without ever
    meeting.  After any sequence of events from the first render, every
    entry under a key that starts with [geo:] is an object with truthy
    [lat] and [lng], every discovery in flight writes under its own
    [toFixed(4)] key, which never starts with [geo:], and so a search
    served from the cached geocode never throws. *)
Theorem X1_cache_kinds_never_mix (P : Platform) (es : list AppV2.Event)
    (forcedQuery : option string) :
  let w := AppV2.run P (AppV2.mounted P) es in
  cacheSorted w
  /\ (forall la ln, String.prefix "geo:" (AppV2.cityCacheKey la ln) = false)
  /\ snd (AppV2.performCitySearch P forcedQuery w) = Normal tt.
Proof.
  cbv zeta.
  assert (Hw : cacheSorted (AppV2.run P (AppV2.mounted P) es))
    by apply cacheSorted_run, cacheSorted_mounted.
  split; [exact Hw|]. split; [apply cityCacheKey_not_geo|].
  by apply performCitySearch_completes.
Qed.

(* ===================================================================== *)
(** ** Replies that fail, are empty or lack coordinates                  *)
(* ===================================================================== *)

Section Replies.

Variable P : Platform.

(** The session cells [applyCityData] never writes, whether it completes
    or throws. *)
Lemma V2_applyCityData_untouched result la ln place w :
  let s' := AppV2.session (fst (AppV2.applyCityData P result la ln place w)) in
  let s := AppV2.session w in
  AppV2.currentLocation s' = AppV2.currentLocation s
  /\ AppV2.trackingPath s' = AppV2.trackingPath s
  /\ AppV2.isLoading s' = AppV2.isLoading s
  /\ AppV2.isNavigating s' = AppV2.isNavigating s
  /\ AppV2.activeNavigation s' = AppV2.activeNavigation s
  /\ AppV2.followUser s' = AppV2.followUser s
  /\ AppV2.carRotation s' = AppV2.carRotation s
  /\ AppV2.citySearchQuery s' = AppV2.citySearchQuery s
  /\ AppV2.showSuggestions s' = AppV2.showSuggestions s.
Proof.
  unfold AppV2.applyCityData, bind, liftC, ret, AppV2.set, AppV2.array_map, prop.
  destruct result as [| | | | | |o]; cbn -[mint obj_get js_or]; try done.
  destruct (obj_get "bars" o); cbn -[mint obj_get js_or]; try done.
  destruct (obj_get "districts" o); cbn -[mint obj_get js_or]; done.
Qed.

Lemma V2_applyCityData_empty la ln place w :
  let r := AppV2.applyCityData P emptyCityData la ln place w in
  snd r = Normal tt
  /\ AppV2.businesses (AppV2.session (fst r)) = []
  /\ AppV2.districts (AppV2.session (fst r)) = []
  /\ AppV2.cityName (AppV2.session (fst r)) = JStr place
  /\ AppV2.issued (fst r) = AppV2.issued w
  /\ AppV2.inflight (fst r) = AppV2.inflight w
  /\ AppV2.searchCache (fst r) = AppV2.searchCache w.
Proof. repeat split; destruct w; reflexivity. Qed.

Lemma geocode_without_coordinates query key geo w :
  hasCoordinates geo = false ->
  fst (AppV2.performCitySearch_found P query key geo w) = w.
Proof.
  unfold hasCoordinates, AppV2.performCitySearch_found, bind, liftC, ret, prop.
  destruct geo as [| | | | | |o]; simpl; try done.
  destruct (truthy (obj_get "lat" o)); [|done].
  by destruct (truthy (obj_get "lng" o)).
Qed.

End Replies.

(** X2: a discovery whose request rejects or whose reply does not parse
    changes nothing but the loading flag, which it clears: the session
    keeps the city it showed and nothing is cached, so the next call for
    the same place starts a new request. *)
Theorem X2_failed_discovery_is_retried (P : Platform) (w : AppV2.World)
    (ticket : nat) (la ln : float) (place key : string) (response : AiResponse) :
  AppV2.inflight w !! ticket = Some (AppV2.AwaitCityData la ln place key) ->
  cityPayload response = None ->
  AppV2.searchCache w !! AppV2.cityCacheKey la ln = None ->
  let w' := AppV2.step P w (AppV2.AiSettles ticket response) in
  AppV2.session w' = AppV2.setIsLoading false (AppV2.session w)
  /\ AppV2.searchCache w' = AppV2.searchCache w
  /\ AppV2.inflight w' = delete ticket (AppV2.inflight w)
  /\ AppV2.issued (fst (AppV2.fetchCityData P la ln place w')) = S (AppV2.issued w').
Proof.
  intros Hin Hfail Hmiss. cbv zeta. simpl. rewrite Hin.
  unfold AppV2.fetchCityData_resume. rewrite Hfail.
  repeat split. unfold AppV2.fetchCityData. simpl. by rewrite Hmiss.
Qed.

Lemma X2_witness :
  let w := fst (AppV2.fetchCityData Sample.platform 10 20 "Sobral" AppV2.initial) in
  let w' := AppV2.step Sample.platform w (AppV2.AiSettles 0 Malformed) in
  AppV2.searchCache w' = AppV2.searchCache w
  /\ AppV2.issued (fst (AppV2.fetchCityData Sample.platform 10 20 "Sobral" w')) = 2%nat.
Proof.
  pose proof (X2_failed_discovery_is_retried Sample.platform
                (fst (AppV2.fetchCityData Sample.platform 10 20 "Sobral" AppV2.initial))
                0%nat 10 20 "Sobral" "10.0000,20.0000" Malformed
                eq_refl eq_refl eq_refl) as (_ & Hc & _ & Hi).
  split; [exact Hc | exact Hi].
Defined.

(** X3: a discovery reply with no text is treated as a city without
    points of interest: the collections become empty, the city takes the
    name of the place asked for, and the empty city is cached under the
    key, so a call for that key made once the reply has settled shows the
    empty city again without starting a request. *)
Theorem X3_empty_reply_is_cached (P : Platform) (w : AppV2.World)
    (ticket : nat) (la ln : float) (place place' : string) :
  AppV2.inflight w !! ticket
    = Some (AppV2.AwaitCityData la ln place (AppV2.cityCacheKey la ln)) ->
  let w' := AppV2.step P w (AppV2.AiSettles ticket EmptyText) in
  let r := AppV2.fetchCityData P la ln place' w' in
  (AppV2.businesses (AppV2.session w') = []
   /\ AppV2.districts (AppV2.session w') = []
   /\ AppV2.cityName (AppV2.session w') = JStr place
   /\ AppV2.isLoading (AppV2.session w') = false
   /\ AppV2.searchCache w' !! AppV2.cityCacheKey la ln = Some emptyCityData)
  /\ (snd r = Normal tt
      /\ AppV2.businesses (AppV2.session (fst r)) = []
      /\ AppV2.districts (AppV2.session (fst r)) = []
      /\ AppV2.issued (fst r) = AppV2.issued w'
      /\ AppV2.inflight (fst r) = AppV2.inflight w').
Proof.
  intros Hin. cbv zeta.
  assert (Hcache : AppV2.searchCache (AppV2.step P w (AppV2.AiSettles ticket EmptyText))
                   !! AppV2.cityCacheKey la ln = Some emptyCityData).
  { simpl. rewrite Hin. unfold AppV2.fetchCityData_resume, try_catch. simpl.
    apply lookup_insert_eq. }
  split.
  - split; [|split; [|split; [|split]]]; try exact Hcache;
      simpl; rewrite Hin; reflexivity.
  - unfold AppV2.fetchCityData at 1 2 3 4 5. rewrite Hcache.
    destruct (V2_applyCityData_empty P la ln place'
                (AppV2.step P w (AppV2.AiSettles ticket EmptyText)))
      as (H1 & H2 & H3 & _ & H5 & H6 & _).
    done.
Qed.

Lemma X3_witness :
  AppV2.businesses (AppV2.session Sample.located) <> []
  /\ AppV2.businesses
       (AppV2.session (AppV2.step Sample.platform Sample.located
                         (AppV2.AiSettles 1 EmptyText))) = [].
Proof.
  split; [vm_compute; discriminate|].
  assert (Hin : AppV2.inflight Sample.located !! 1%nat
                = Some (AppV2.AwaitCityData 10 20 "Local" (AppV2.cityCacheKey 10 20)))
    by (vm_compute; reflexivity).
  exact (proj1 (proj1 (X3_empty_reply_is_cached Sample.platform Sample.located
                         1%nat 10 20 "Local" "Local" Hin))).
Defined.

(** X4: a geocode reply is used only when it parses to a value whose
    [lat] and [lng] are both truthy.  A rejected request, a reply that
    does not parse, [null], an object without the fields, and also a
    coordinate of 0 (a place on the equator or on the Greenwich meridian)
    leave the cache, the map focus and the rest of the session as they
    were and start no discovery; only the loading flag is cleared. *)
Theorem X4_geocode_without_coordinates (P : Platform) (w : AppV2.World)
    (ticket : nat) (query key : string) (response : AiResponse) :
  AppV2.inflight w !! ticket = Some (AppV2.AwaitGeocode query key) ->
  match geoPayload response with
  | Some geo => hasCoordinates geo = false
  | None => True
  end ->
  AppV2.step P w (AppV2.AiSettles ticket response)
  = AppV2.onSession (AppV2.setIsLoading false) (AppV2.retire ticket w).
Proof.
  intros Hin Hgeo. simpl. rewrite Hin.
  unfold AppV2.performCitySearch_resume, try_catch.
  destruct response as [| | |geo]; simpl in Hgeo; try done;
    by rewrite geocode_without_coordinates.
Qed.

(** A geocoder answer on the equator. *)
Lemma X4_witness :
  let w := fst (AppV2.performCitySearch Sample.platform (Some "macapa") AppV2.initial) in
  let onEquator := JObj [("lat", JNum 0); ("lng", JNum (-51.07)%float)] in
  AppV2.step Sample.platform w (AppV2.AiSettles 0 (Parsed onEquator))
  = AppV2.onSession (AppV2.setIsLoading false) (AppV2.retire 0 w).
Proof.
  cbv zeta.
  apply (X4_geocode_without_coordinates Sample.platform _ 0%nat "macapa" "geo:macapa").
  - vm_compute. reflexivity.
  - vm_compute. reflexivity.
Defined.

(** X5: when a geocode settles with numeric, truthy coordinates whose
    discovery is not cached, the reply is cached under the search key, the
    map moves to it and a discovery request is started; the loading flag
    is nevertheless off at the end of the handler, because the discovery
    is not awaited and the [finally] clears the flag the discovery has
    just set. *)
Theorem X5_geocode_starts_discovery (P : Platform) (w : AppV2.World)
    (ticket : nat) (query key : string) (o : JsObject) (x y : float) :
  AppV2.inflight w !! ticket = Some (AppV2.AwaitGeocode query key) ->
  String.prefix "geo:" key = true ->
  obj_get "lat" o = JNum x -> truthy (JNum x) = true ->
  obj_get "lng" o = JNum y -> truthy (JNum y) = true ->
  AppV2.searchCache w !! AppV2.cityCacheKey x y = None ->
  let w' := AppV2.step P w (AppV2.AiSettles ticket (Parsed (JObj o))) in
  AppV2.searchCache w' !! key = Some (JObj o)
  /\ AppV2.mapCenter (AppV2.session w') = JObj o
  /\ AppV2.inflight w' !! AppV2.issued w
     = Some (AppV2.AwaitCityData x y query (AppV2.cityCacheKey x y))
  /\ AppV2.issued w' = S (AppV2.issued w)
  /\ AppV2.isLoading (AppV2.session w') = false.
Proof.
  intros Hin Hkey Hlat Tlat Hlng Tlng Hmiss. cbv zeta. simpl. rewrite Hin.
  assert (Hne : key <> AppV2.cityCacheKey x y).
  { intros ->. by rewrite cityCacheKey_not_geo in Hkey. }
  unfold AppV2.performCitySearch_resume, try_catch,
    AppV2.performCitySearch_found, AppV2.callFetchCityData,
    bind, liftC, ret, AppV2.set, prop.
  rewrite Hlat, Hlng, Tlat, Tlng. simpl.
  unfold AppV2.fetchCityData. simpl.
  rewrite lookup_insert_ne by done. rewrite Hmiss. simpl.
  rewrite !lookup_insert_eq. done.
Qed.

Lemma X5_witness :
  let w := fst (AppV2.performCitySearch Sample.platform (Some "sobral") AppV2.initial) in
  let w' := AppV2.step Sample.platform w
              (AppV2.AiSettles 0 (Parsed (JObj Sample.geoSobral))) in
  AppV2.isLoading (AppV2.session w') = false
  /\ AppV2.inflight w' !! 1%nat
     = Some (AppV2.AwaitCityData (-3.69) (-40.35) "sobral" "-3.6900,-40.3500").
Proof.
  pose proof (X5_geocode_starts_discovery Sample.platform
                (fst (AppV2.performCitySearch Sample.platform (Some "sobral")
                        AppV2.initial))
                0%nat "sobral" "geo:sobral" Sample.geoSobral (-3.69) (-40.35)
                eq_refl eq_refl eq_refl eq_refl eq_refl eq_refl eq_refl)
    as (_ & _ & Hin & _ & Hload).
  split; [exact Hload | exact Hin].
Defined.

(** X6: a search made by clicking a suggestion whose geocode and whose
    discovery are both cached starts no request at all.  It moves the map
    to the cached geocode and applies the cached payload again, which
    builds the points of interest anew: every one is [pending] again,
    whatever had been reported for the points shown before. *)
Theorem X6_cached_search_resets_statuses (P : Platform) (w : AppV2.World)
    (forced : string) (geo o : JsObject) (x y : float)
    (bars ds : list JsValue) :
  String.eqb forced "" = false ->
  String.eqb (String_trim P forced) "" = false ->
  AppV2.searchCache w !! ("geo:" +:+ String_toLowerCase P (String_trim P forced))
    = Some (JObj geo) ->
  obj_get "lat" geo = JNum x ->
  obj_get "lng" geo = JNum y ->
  AppV2.searchCache w !! AppV2.cityCacheKey x y = Some (JObj o) ->
  obj_get "bars" o = JArr bars ->
  obj_get "districts" o = JArr ds ->
  let w' := AppV2.step P w (AppV2.Search (Some forced)) in
  AppV2.issued w' = AppV2.issued w
  /\ AppV2.inflight w' = AppV2.inflight w
  /\ AppV2.mapCenter (AppV2.session w') = JObj geo
  /\ AppV2.businesses (AppV2.session w') = mint P asBusiness bars (AppV2.randomCalls w)
  /\ Forall (fun b => statusOf b = JStr "pending") (AppV2.businesses (AppV2.session w'))
  /\ AppV2.showSuggestions (AppV2.session w') = false.
Proof.
  intros Hforced Hq Hgeo Hlat Hlng Hcity Hb Hd. cbv zeta.
  assert (E : AppV2.performCitySearch P (Some forced) w
              = (AppV2.onSession (AppV2.setShowSuggestions false)
                   (fst (AppV2.applyCityData P (JObj o) x y (String_trim P forced)
                           (AppV2.onSession (AppV2.setMapCenter (JObj geo)) w))),
                 Normal tt)).
  { unfold AppV2.performCitySearch. rewrite Hforced, Hq, Hgeo.
    unfold AppV2.callFetchCityData, bind, AppV2.set, liftC, ret, prop.
    rewrite Hlat, Hlng. simpl. unfold AppV2.fetchCityData.
    simpl. rewrite Hcity. done. }
  simpl. rewrite E. simpl.
  destruct (V2_applyCityData_arrays P o bars ds x y (String_trim P forced)
              (AppV2.onSession (AppV2.setMapCenter (JObj geo)) w) Hb Hd)
    as (_ & Hbs & _ & _ & _ & Hfl & Hiss).
  rewrite Hbs, Hfl, Hiss, V2_applyCityData_mapCenter. simpl.
  repeat split. apply mint_Forall. intros. apply statusOf_asBusiness.
Qed.

(** In [Sample2.visited] the first bar of [sobral] is a success; searching
    [sobral] again shows it pending. *)
Lemma X6_witness :
  statusOf <$> AppV2.businesses (AppV2.session Sample2.visited)
  = [JStr "success"; JStr "pending"]
  /\ Forall (fun b => statusOf b = JStr "pending")
       (AppV2.businesses
          (AppV2.session (AppV2.step Sample.platform Sample2.visited
                            (AppV2.Search (Some "sobral")))))
  /\ AppV2.issued (AppV2.step Sample.platform Sample2.visited
                     (AppV2.Search (Some "sobral")))
     = AppV2.issued Sample2.visited.
Proof.
  split; [vm_compute; reflexivity|].
  assert (Hg : AppV2.searchCache Sample2.visited !! "geo:sobral"
               = Some (JObj Sample.geoSobral)) by (vm_compute; reflexivity).
  assert (Hc : AppV2.searchCache Sample2.visited !! AppV2.cityCacheKey (-3.69) (-40.35)
               = Some (JObj (Sample.cityFields "Sobral"))) by (vm_compute; reflexivity).
  pose proof (X6_cached_search_resets_statuses Sample.platform Sample2.visited
                "sobral" Sample.geoSobral (Sample.cityFields "Sobral")
                (-3.69) (-40.35) Sample.bars Sample.districts
                eq_refl eq_refl Hg eq_refl eq_refl Hc eq_refl eq_refl)
    as (Hi & _ & _ & _ & Hall & _).
  split; [exact Hall | exact Hi].
Defined.
(* ===================================================================== *)
(** ** One discovery per key                                             *)
(* ===================================================================== *)

Section CacheOnce.

Variable P : Platform.
Variable key : string.
Variable payload : JsValue.
Hypothesis Hkey : String.prefix "geo:" key = false.













End CacheOnce.






(* ===================================================================== *)
(** ** Routes: what a click on a target leads to                         *)
(* ===================================================================== *)

(** X7: a click on a target without a known position only moves the map
    to the target and starts no request.  With a known position it starts
    exactly one route request and raises the loading flag; when that
    request rejects or the reply holds no route, the session is as before
    the click except that the selected point is cleared and the loading
    flag is off: the active route, the tracking flag, the follow mode, the
    map focus and the track are kept, and the click can be repeated. *)
Theorem X7_route_failure_keeps_state (P : Platform) (w : AppV2.World)
    (item : JsObject) (data : RouteResponse) (now : Z) :
  data = RouteRejected \/ data = RouteData [] ->
  (AppV2.currentLocation (AppV2.session w) = None ->
   AppV2.step P w (AppV2.GoTo item)
   = AppV2.onSession
       (fun s => AppV2.setMapCenter (AppV2.latLngOf item)
                   (AppV2.setSelectedPoint JNull s)) w)
  /\ (is_Some (AppV2.currentLocation (AppV2.session w)) ->
      let w1 := AppV2.step P w (AppV2.GoTo item) in
      let w2 := AppV2.step P w1 (AppV2.RouteSettles (AppV2.issued w) data now) in
      AppV2.issued w1 = S (AppV2.issued w)
      /\ AppV2.isLoading (AppV2.session w1) = true
      /\ AppV2.session w2
         = AppV2.setIsLoading false (AppV2.setSelectedPoint JNull (AppV2.session w))
      /\ AppV2.issued w2 = S (AppV2.issued w)
      /\ AppV2.searchCache w2 = AppV2.searchCache w).
Proof.
  intros Hdata. split.
  - intros Hnone. simpl. unfold AppV2.goToLocation. simpl. by rewrite Hnone.
  - intros [cur Hcur]. cbv zeta. simpl. unfold AppV2.goToLocation. simpl.
    rewrite Hcur. simpl. rewrite lookup_insert_eq.
    unfold AppV2.goToLocation_resume.
    destruct Hdata as [-> | ->]; simpl; by destruct w as [[] ? ? ? ?].
Qed.

Lemma X7_witness :
  let w1 := AppV2.step Sample.platform Sample2.placed (AppV2.GoTo Sample2.barA) in
  let w2 := AppV2.step Sample.platform w1
              (AppV2.RouteSettles (AppV2.issued Sample2.placed) (RouteData []) 5000) in
  AppV2.session w2
  = AppV2.setIsLoading false
      (AppV2.setSelectedPoint JNull (AppV2.session Sample2.placed)).
Proof.
  pose proof (X7_route_failure_keeps_state Sample.platform Sample2.placed
                Sample2.barA (RouteData []) 5000 (or_intror eq_refl)) as [_ H].
  assert (Hloc : is_Some (AppV2.currentLocation (AppV2.session Sample2.placed)))
    by (vm_compute; eauto).
  exact (proj1 (proj2 (proj2 (H Hloc)))).
Defined.

(** X8: when a route request settles with a route, the route becomes the
    active one, tracking and follow mode are switched on and the recorded
    track is kept.  The map is then centred on the user's position at zoom
    17, not on the target, although the handler also sets the map focus to
    the target.  Leaving the route clears the route and the follow mode
    but leaves tracking on, and the map goes to the target at zoom 16. *)
Theorem X8_route_success_follows_user (P : Platform) (w : AppV2.World)
    (ticket : nat) (item : JsObject) (route : OsrmRoute)
    (others : list OsrmRoute) (now : Z) (cur : Location) :
  AppV2.inflight w !! ticket = Some (AppV2.AwaitRoute item) ->
  AppV2.currentLocation (AppV2.session w) = Some cur ->
  let w1 := AppV2.step P w
              (AppV2.RouteSettles ticket (RouteData (route :: others)) now) in
  let w2 := AppV2.step P w1 AppV2.ClearRoute in
  (is_Some (AppV2.activeNavigation (AppV2.session w1))
   /\ AppV2.isNavigating (AppV2.session w1) = true
   /\ AppV2.followUser (AppV2.session w1) = true
   /\ AppV2.trackingPath (AppV2.session w1) = AppV2.trackingPath (AppV2.session w)
   /\ AppV2.mapCenter (AppV2.session w1) = AppV2.latLngOf item
   /\ MapView.viewOf (AppV2.session w1)
      = Some {| MapView.view_lat := JNum (lat cur);
                MapView.view_lng := JNum (lng cur);
                MapView.view_zoom := 17 |})
  /\ (AppV2.activeNavigation (AppV2.session w2) = None
      /\ AppV2.followUser (AppV2.session w2) = false
      /\ AppV2.isNavigating (AppV2.session w2) = true
      /\ MapView.viewOf (AppV2.session w2)
         = Some {| MapView.view_lat := obj_get "lat" item;
                   MapView.view_lng := obj_get "lng" item;
                   MapView.view_zoom := 16 |}).
Proof.
  intros Hin Hcur. cbv zeta. simpl. rewrite Hin.
  unfold AppV2.goToLocation_resume, MapView.viewOf, MapView.MapController2.
  simpl. rewrite Hcur. repeat split. by eexists.
Qed.

Lemma X8_witness :
  let w := AppV2.step Sample.platform Sample2.placed (AppV2.GoTo Sample2.barA) in
  let w1 := AppV2.step Sample.platform w
              (AppV2.RouteSettles 1 (RouteData [Sample.route]) 5000) in
  AppV2.isNavigating (AppV2.session w) = false
  /\ AppV2.isNavigating (AppV2.session w1) = true
  /\ MapView.viewOf (AppV2.session w1)
     = Some {| MapView.view_lat := JNum 10; MapView.view_lng := JNum 20;
               MapView.view_zoom := 17 |}.
Proof.
  split; [vm_compute; reflexivity|].
  assert (Hin : AppV2.inflight
                  (AppV2.step Sample.platform Sample2.placed (AppV2.GoTo Sample2.barA))
                  !! 1%nat = Some (AppV2.AwaitRoute Sample2.barA))
    by (vm_compute; reflexivity).
  assert (Hcur : AppV2.currentLocation
                   (AppV2.session
                      (AppV2.step Sample.platform Sample2.placed
                         (AppV2.GoTo Sample2.barA))) = Some Sample.here)
    by (vm_compute; reflexivity).
  pose proof (X8_route_success_follows_user Sample.platform _ 1%nat Sample2.barA
                Sample.route [] 5000 Sample.here Hin Hcur)
    as [(_ & Hnav & _ & _ & _ & Hview) _].
  split; [exact Hnav | exact Hview].
Defined.

(* ===================================================================== *)
(** ** Status reports for different points                               *)
(* ===================================================================== *)

Lemma hasId_exclusive (id1 id2 : string) (b : JsObject) :
  id1 <> id2 -> hasId id1 b = true -> hasId id2 b = false.
Proof.
  unfold hasId. intros Hne. destruct (idOf b); try discriminate.
  intros H1%String.eqb_eq. subst. by apply String.eqb_neq.
Qed.

Lemma markStatus_commute (id1 id2 : string) (st1 st2 : Report)
    (prev : list JsObject) :
  id1 <> id2 ->
  markStatus id1 st1 (markStatus id2 st2 prev)
  = markStatus id2 st2 (markStatus id1 st1 prev).
Proof.
  intros Hne. unfold markStatus. rewrite !map_map. apply map_ext. intros b.
  destruct (hasId id1 b) eqn:E1, (hasId id2 b) eqn:E2;
    rewrite ?hasId_marked, ?E1, ?E2; try done.
  by rewrite (hasId_exclusive id1 id2 b Hne E1) in E2.
Qed.

Lemma markStatus_ids (id : string) (status : Report) (prev : list JsObject) :
  map idOf (markStatus id status prev) = map idOf prev.
Proof.
  unfold markStatus. rewrite map_map. apply map_ext. intros b.
  destruct (hasId id b); [|done].
  unfold idOf. by rewrite obj_get_set_ne by discriminate.
Qed.

(** X9: status reports never change an id, so the ids of the points of
    interest are stable between two discoveries; and reports for two
    different ids can be made in either order with the same result, in
    both variants. *)
Theorem X9_status_reports_commute (id1 id2 : string) (st1 st2 : Report)
    (s1 : AppV1.Session) (s2 : AppV2.Session) :
  id1 <> id2 ->
  (AppV2.handleStatusUpdate id1 st1 (AppV2.handleStatusUpdate id2 st2 s2)
   = AppV2.handleStatusUpdate id2 st2 (AppV2.handleStatusUpdate id1 st1 s2)
   /\ map idOf (AppV2.businesses (AppV2.handleStatusUpdate id1 st1 s2))
      = map idOf (AppV2.businesses s2))
  /\ (AppV1.handleStatusUpdate id1 st1 (AppV1.handleStatusUpdate id2 st2 s1)
      = AppV1.handleStatusUpdate id2 st2 (AppV1.handleStatusUpdate id1 st1 s1)
      /\ map idOf (AppV1.businesses (AppV1.handleStatusUpdate id1 st1 s1))
         = map idOf (AppV1.businesses s1)).
Proof.
  intros Hne. split; split.
  - destruct s2. unfold AppV2.handleStatusUpdate, AppV2.setBusinesses.
    cbn -[markStatus]. f_equal. by apply markStatus_commute.
  - apply markStatus_ids.
  - destruct s1. unfold AppV1.handleStatusUpdate, AppV1.setBusinesses.
    cbn -[markStatus]. f_equal. by apply markStatus_commute.
  - apply markStatus_ids.
Qed.

Lemma X9_witness :
  statusOf <$> AppV2.businesses
     (AppV2.handleStatusUpdate "r0" success
        (AppV2.handleStatusUpdate "r1" failure (AppV2.session Sample2.placed)))
  = [JStr "success"; JStr "failure"]
  /\ AppV2.handleStatusUpdate "r0" success
       (AppV2.handleStatusUpdate "r1" failure (AppV2.session Sample2.placed))
     = AppV2.handleStatusUpdate "r1" failure
         (AppV2.handleStatusUpdate "r0" success (AppV2.session Sample2.placed)).
Proof.
  split; [vm_compute; reflexivity|].
  apply (X9_status_reports_commute "r0" "r1" success failure
           Sample.session1 (AppV2.session Sample2.placed)).
  discriminate.
Defined.
(* ===================================================================== *)
(** ** Decimal digits                                                    *)
(* ===================================================================== *)












(* ===================================================================== *)
(** ** Whole numbers in binary64                                         *)
(* ===================================================================== *)

Section Binary64.
















End Binary64.
(* ===================================================================== *)
(** ** The texts of a route                                              *)
(* ===================================================================== *)







Section Route.

Variable P : Platform.







End Route.




(* ===================================================================== *)
(** ** What can touch the position and the track                         *)
(* ===================================================================== *)

Section Motion.

Variable P : Platform.

Lemma motion_applyCityData result la ln place w :
  motion (fst (AppV2.applyCityData P result la ln place w)) = motion w.
Proof.
  unfold motion.
  destruct (V2_applyCityData_untouched P result la ln place w) as (-> & -> & _).
  done.
Qed.

Lemma motion_fetchCityData la ln place w :
  motion (fst (AppV2.fetchCityData P la ln place w)) = motion w.
Proof.
  unfold AppV2.fetchCityData. destruct (AppV2.searchCache w !! _); [|done].
  apply motion_applyCityData.
Qed.

Lemma motion_callFetchCityData geo query w :
  motion (fst (AppV2.callFetchCityData P geo query w)) = motion w.
Proof.
  unfold AppV2.callFetchCityData, bind, liftC, ret, prop.
  destruct geo as [| | | | | |o]; simpl; try done.
  destruct (asNumber (obj_get "lat" o)); [|done].
  destruct (asNumber (obj_get "lng" o)); [|done].
  simpl. apply motion_fetchCityData.
Qed.

Lemma motion_performCitySearch forcedQuery w :
  motion (fst (AppV2.performCitySearch P forcedQuery w)) = motion w.
Proof.
  unfold AppV2.performCitySearch.
  destruct (String.eqb _ ""); [done|].
  destruct (AppV2.searchCache w !! _) as [geo|]; [|done].
  unfold bind, AppV2.set.
  match goal with
  | |- context [AppV2.callFetchCityData P ?g ?q ?w0] =>
      pose proof (motion_callFetchCityData g q w0) as Hc;
      destruct (AppV2.callFetchCityData P g q w0) as [w' [[]|]]
  end; exact Hc.
Qed.

Lemma motion_found query key geo w :
  motion (fst (AppV2.performCitySearch_found P query key geo w)) = motion w.
Proof.
  unfold AppV2.performCitySearch_found, bind, liftC, ret, AppV2.set, prop.
  destruct geo as [| | | | | |o]; simpl; try done.
  destruct (truthy (obj_get "lat" o)); [|done].
  destruct (truthy (obj_get "lng" o)); [|done].
  match goal with
  | |- context [AppV2.callFetchCityData P ?g ?q ?w0] =>
      pose proof (motion_callFetchCityData g q w0) as Hc;
      destruct (AppV2.callFetchCityData P g q w0) as [w' [[]|]]
  end; exact Hc.
Qed.

(** Every event but a location event, a position fix and the tracking
    button leaves the position and the track as they are. *)
Lemma motion_step w e :
  match e with
  | AppV2.LocationFound _ _ | AppV2.Detected _ | AppV2.Toggle => True
  | _ => motion (AppV2.step P w e) = motion w
  end.
Proof.
  destruct e; simpl; try done.
  - destruct forcedQuery; simpl; apply motion_performCitySearch.
  - unfold AppV2.goToLocation. simpl. by destruct (AppV2.currentLocation _).
  - destruct (AppV2.inflight w !! ticket) as [[query key|la ln place key|item]|];
      try done.
    + unfold AppV2.performCitySearch_resume, try_catch.
      destruct response; try done;
        change (motion (AppV2.onSession (AppV2.setIsLoading false) ?x))
          with (motion x); by rewrite motion_found.
    + unfold AppV2.fetchCityData_resume, try_catch.
      destruct (cityPayload response); [|done].
      change (motion (AppV2.onSession (AppV2.setIsLoading false) ?x))
        with (motion x).
      by rewrite motion_applyCityData.
  - destruct (AppV2.inflight w !! ticket) as [[query key|la ln place key|item]|];
      try done.
    unfold AppV2.goToLocation_resume.
    by destruct (AppV2.fetchStreetRoute P data now).
Qed.

Lemma motion_eq w w' :
  motion w' = motion w ->
  AppV2.currentLocation (AppV2.session w') = AppV2.currentLocation (AppV2.session w)
  /\ AppV2.trackingPath (AppV2.session w') = AppV2.trackingPath (AppV2.session w).
Proof. unfold motion. intros [= -> ->]. done. Qed.

(** One step never forgets the position, and shortens the track only when
    it is the tracking button pressed while tracking is off. *)
Lemma step_position_and_track w e :
  (is_Some (AppV2.currentLocation (AppV2.session w)) ->
   is_Some (AppV2.currentLocation (AppV2.session (AppV2.step P w e))))
  /\ (isToggle e = false \/ AppV2.isNavigating (AppV2.session w) = true ->
      exists added,
        AppV2.trackingPath (AppV2.session (AppV2.step P w e))
        = AppV2.trackingPath (AppV2.session w) ++ added).
Proof.
  pose proof (motion_step w e) as Hm.
  destruct e;
    try (destruct (motion_eq _ _ Hm) as [Hc Ht]; rewrite Hc, Ht;
         split; [done | intros _; exists []; by rewrite app_nil_r]).
  - (* Detected *)
    unfold AppV2.step, AppV2.detectRealLocation.
    match goal with
    | |- context [AppV2.fetchCityData P ?a ?b ?c ?w0] =>
        pose proof (motion_fetchCityData a b c w0) as Hf
    end.
    destruct (motion_eq _ _ Hf) as [Hc Ht]. rewrite Hc, Ht. simpl.
    split; [by eexists | intros _; exists []; by rewrite app_nil_r].
  - (* LocationFound *)
    change (AppV2.session (AppV2.step P w (AppV2.LocationFound loc now)))
      with (AppV2.handleLocationUpdate P loc now (AppV2.session w)).
    split; [by eexists|]. intros _.
    destruct (V2_hlu_track_step P loc now (AppV2.session w)) as [-> | [-> _]].
    + exists []. by rewrite app_nil_r.
    + by eexists.
  - (* Toggle *)
    simpl. unfold AppV2.toggleNavigation.
    destruct (AppV2.isNavigating (AppV2.session w)) eqn:E; simpl.
    + split; [done | intros _; exists []; by rewrite app_nil_r].
    + split; [done|]. intros [|]; discriminate.
Qed.

Lemma run_position es : forall w,
  is_Some (AppV2.currentLocation (AppV2.session w)) ->
  is_Some (AppV2.currentLocation (AppV2.session (AppV2.run P w es))).
Proof.
  induction es as [|e es IH]; intros w Hw; [done|].
  simpl. apply IH. by apply step_position_and_track.
Qed.

Lemma run_track_grows es : forall w,
  forallb (fun e => negb (isToggle e)) es = true ->
  exists added,
    AppV2.trackingPath (AppV2.session (AppV2.run P w es))
    = AppV2.trackingPath (AppV2.session w) ++ added.
Proof.
  induction es as [|e es IH]; intros w Hes.
  - exists []. by rewrite app_nil_r.
  - simpl in Hes. apply andb_prop in Hes as [He Hes].
    apply negb_true_iff in He.
    destruct (proj2 (step_position_and_track w e) (or_introl He)) as [a1 H1].
    destruct (IH (AppV2.step P w e) Hes) as [a2 H2].
    exists (a1 ++ a2). simpl. by rewrite H2, H1, app_assoc.
Qed.

End Motion.

(** X10: over every sequence of events of the second variant, once a
    position is known it stays known, so from then on a click on a target
    always starts a route request; and the recorded track is only ever
    extended at its end unless the tracking button is pressed: searches,
    discoveries, routes, status reports and their replies, in any order,
    never remove or change a recorded point. *)
Theorem X10_position_and_track_persist (P : Platform) (w : AppV2.World)
    (es : list AppV2.Event) (item : JsObject) :
  (is_Some (AppV2.currentLocation (AppV2.session w)) ->
   is_Some (AppV2.currentLocation (AppV2.session (AppV2.run P w es)))
   /\ AppV2.issued (AppV2.step P (AppV2.run P w es) (AppV2.GoTo item))
      = S (AppV2.issued (AppV2.run P w es)))
  /\ (forallb (fun e => negb (isToggle e)) es = true ->
      exists added,
        AppV2.trackingPath (AppV2.session (AppV2.run P w es))
        = AppV2.trackingPath (AppV2.session w) ++ added).
Proof.
  split.
  - intros Hw. pose proof (run_position P es w Hw) as [cur Hcur].
    split; [by eexists|]. simpl. unfold AppV2.goToLocation. simpl.
    by rewrite Hcur.
  - apply run_track_grows.
Qed.

(** The events of [Sample.overtaken] delivered after a position fix and
    one recorded sample: position and track come through them. *)
Lemma X10_witness :
  let w := AppV2.run Sample.platform (AppV2.mounted Sample.platform)
             [AppV2.Detected Sample.here; AppV2.LocationFound Sample.there 1000] in
  AppV2.trackingPath (AppV2.session w) = [Sample.point 1000 Sample.there]
  /\ is_Some (AppV2.currentLocation
                (AppV2.session (AppV2.run Sample.platform w Sample.overtaken)))
  /\ exists added,
       AppV2.trackingPath
         (AppV2.session (AppV2.run Sample.platform w Sample.overtaken))
       = AppV2.trackingPath (AppV2.session w) ++ added.
Proof.
  cbv zeta. split; [vm_compute; reflexivity|].
  pose proof (X10_position_and_track_persist Sample.platform
                (AppV2.run Sample.platform (AppV2.mounted Sample.platform)
                   [AppV2.Detected Sample.here; AppV2.LocationFound Sample.there 1000])
                Sample.overtaken Sample2.barA) as [Hpos Htrack].
  split.
  - apply Hpos. vm_compute. eauto.
  - apply Htrack. reflexivity.
Defined.

(* ===================================================================== *)
(** ** City suggestions                                                  *)
(* ===================================================================== *)


(** X11: suggestions make a round trip through [suggestionCache].  A
    query of at least two characters after trimming and lower-casing that
    is not cached starts one request; when the reply parses to an object,
    its [s] (or the empty array when [s] is missing or falsy) is shown and
    stored under the normalised query; any later query with the same
    normalised form shows the stored value and starts no request. *)
Theorem X11_suggestions_round_trip (P : Platform) (String_length : string -> nat)
    (st : Suggest.State) (query query' : string) (o : JsObject) :
  let q := String_toLowerCase P (String_trim P query) in
  (String_length q <? 2)%nat = false ->
  Suggest.suggestionCache st !! q = None ->
  String_toLowerCase P (String_trim P query') = q ->
  let st1 := Suggest.fetchCitySuggestions P String_length query st in
  let st2 := Suggest.settle (Suggest.started st) (Parsed (JObj o)) st1 in
  let st3 := Suggest.fetchCitySuggestions P String_length query' st2 in
  Suggest.started st1 = S (Suggest.started st)
  /\ Suggest.citySuggestions st1 = Suggest.citySuggestions st
  /\ Suggest.citySuggestions st2 = js_or (obj_get "s" o) (JArr [])
  /\ Suggest.suggestionCache st2 !! q = Some (js_or (obj_get "s" o) (JArr []))
  /\ (truthy (obj_get "s" o) = false -> Suggest.citySuggestions st2 = JArr [])
  /\ st3 = st2.
Proof.
  intros q Hlen Hmiss Hq' st1 st2 st3.
  assert (E1 : st1 = Suggest.request q st).
  { unfold st1, Suggest.fetchCitySuggestions. fold q. by rewrite Hlen, Hmiss. }
  assert (E2 : st2 = Suggest.setCitySuggestions (js_or (obj_get "s" o) (JArr []))
                       (Suggest.cachePut q (js_or (obj_get "s" o) (JArr []))
                          (Suggest.retire (Suggest.started st) st1))).
  { unfold st2, Suggest.settle. rewrite E1. simpl. by rewrite lookup_insert_eq. }
  assert (Hc2 : Suggest.suggestionCache st2 !! q
                = Some (js_or (obj_get "s" o) (JArr []))).
  { rewrite E2. simpl. apply lookup_insert_eq. }
  split; [by rewrite E1|]. split; [by rewrite E1|].
  split; [by rewrite E2|]. split; [exact Hc2|]. split.
  - intros Hs. rewrite E2. simpl. unfold js_or. by rewrite Hs.
  - unfold st3, Suggest.fetchCitySuggestions. rewrite Hq', Hlen, Hc2.
    rewrite E2 at 1 2. by destruct st1.
Qed.

Lemma X11_witness :
  let st1 := Suggest.fetchCitySuggestions Sample.platform Sample3.len "sob"
               Sample3.idle in
  let st2 := Suggest.settle 0 (Parsed (JObj [("s", Sample3.names)])) st1 in
  Suggest.citySuggestions st2 = Sample3.names
  /\ Suggest.fetchCitySuggestions Sample.platform Sample3.len "sob" st2 = st2.
Proof.
  pose proof (X11_suggestions_round_trip Sample.platform Sample3.len Sample3.idle
                "sob" "sob" [("s", Sample3.names)] eq_refl eq_refl eq_refl)
    as (_ & _ & H2 & _ & _ & H3).
  split; [exact H2 | exact H3].
Defined.

Section Timer.

Variable P : Platform.

Lemma V2_fetchCityData_box la ln place w :
  let s' := AppV2.session (fst (AppV2.fetchCityData P la ln place w)) in
  AppV2.citySearchQuery s' = AppV2.citySearchQuery (AppV2.session w)
  /\ AppV2.showSuggestions s' = AppV2.showSuggestions (AppV2.session w).
Proof.
  unfold AppV2.fetchCityData. destruct (AppV2.searchCache w !! _); [|done].
  split; apply V2_applyCityData_untouched.
Qed.

Lemma V2_callFetchCityData_box geo query w :
  let s' := AppV2.session (fst (AppV2.callFetchCityData P geo query w)) in
  AppV2.citySearchQuery s' = AppV2.citySearchQuery (AppV2.session w)
  /\ AppV2.showSuggestions s' = AppV2.showSuggestions (AppV2.session w).
Proof.
  unfold AppV2.callFetchCityData, bind, liftC, ret, prop.
  destruct geo as [| | | | | |o]; simpl; try done.
  destruct (asNumber (obj_get "lat" o)); [|done].
  destruct (asNumber (obj_get "lng" o)); [|done].
  simpl. apply V2_fetchCityData_box.
Qed.

(** [performCitySearch] never writes the search box. *)
Lemma V2_performCitySearch_query forcedQuery w :
  AppV2.citySearchQuery (AppV2.session (fst (AppV2.performCitySearch P forcedQuery w)))
  = AppV2.citySearchQuery (AppV2.session w).
Proof.
  unfold AppV2.performCitySearch.
  destruct (String.eqb _ ""); [done|].
  destruct (AppV2.searchCache w !! _) as [geo|]; [|done].
  unfold bind, AppV2.set.
  match goal with
  | |- context [AppV2.callFetchCityData P ?g ?q ?w0] =>
      pose proof (V2_callFetchCityData_box g q w0) as [Hc _];
      destruct (AppV2.callFetchCityData P g q w0) as [w' [[]|]]
  end; simpl in *; by rewrite Hc.
Qed.

(** A search that gets past its first line and completes hides the
    suggestions. *)
Lemma V2_performCitySearch_hides forcedQuery w :
  let typed := AppV2.citySearchQuery (AppV2.session w) in
  String.eqb
    (String_trim P (match forcedQuery with
                    | Some q => if String.eqb q "" then typed else q
                    | None => typed
                    end)) "" = false ->
  snd (AppV2.performCitySearch P forcedQuery w) = Normal tt ->
  AppV2.showSuggestions (AppV2.session (fst (AppV2.performCitySearch P forcedQuery w)))
  = false.
Proof.
  intros typed Hq. unfold AppV2.performCitySearch. fold typed. rewrite Hq.
  destruct (AppV2.searchCache w !! _) as [geo|]; [|done].
  unfold bind, AppV2.set.
  match goal with
  | |- context [AppV2.callFetchCityData P ?g ?q ?w0] =>
      destruct (AppV2.callFetchCityData P g q w0) as [w' [[]|]]
  end; simpl; done.
Qed.

End Timer.

(** X12: a suggestion request that rejects, or whose reply does not parse
    or parses to [null], leaves the suggestions shown and the cache as
    they were, so the same query asks again; a query shorter than two
    characters after normalisation does nothing.  The timeout tests the
    search box and the suggestions flag of the render that armed it: armed
    with an empty box or with suggestions hidden it does nothing; armed by
    typing it still asks for suggestions after Enter has hidden them,
    because the search does not change the box and so does not re-arm it;
    a click on a suggestion changes the box and hides the suggestions in
    one render, and the timeout armed then does nothing. *)
Theorem X12_suggestion_failures (P : Platform) (String_length : string -> nat)
    (st : Suggest.State) (ticket : nat) (q query : string)
    (response : AiResponse) :
  Suggest.waiting st !! ticket = Some q ->
  response = Rejected \/ response = Malformed \/ response = Parsed JNull ->
  (Suggest.settle ticket response st = Suggest.retire ticket st
   /\ (String_toLowerCase P (String_trim P query) = q ->
       (String_length q <? 2)%nat = false ->
       Suggest.suggestionCache st !! q = None ->
       Suggest.started
         (Suggest.fetchCitySuggestions P String_length query
            (Suggest.settle ticket response st))
       = S (Suggest.started st)))
  /\ (forall short,
        (String_length (String_toLowerCase P (String_trim P short)) <? 2)%nat = true ->
        Suggest.fetchCitySuggestions P String_length short st = st)
  /\ (forall t,
        Suggest.seenQuery t = "" \/ Suggest.seenShown t = false ->
        Suggest.onTimer P String_length t st = st)
  /\ (forall w text pending,
        cacheSorted w ->
        text <> "" ->
        text <> AppV2.citySearchQuery (AppV2.session w) ->
        String_trim P text <> "" ->
        let w1 := AppV2.step P w (AppV2.Typed text) in
        let t1 := Suggest.rendered (AppV2.session w) (AppV2.session w1) pending in
        let w2 := AppV2.step P w1 (AppV2.Search None) in
        let t2 := Suggest.rendered (AppV2.session w1) (AppV2.session w2) t1 in
        AppV2.showSuggestions (AppV2.session w2) = false
        /\ t2 = Some {| Suggest.seenQuery := text; Suggest.seenShown := true |}
        /\ Suggest.onTimer P String_length
             {| Suggest.seenQuery := text; Suggest.seenShown := true |} st
           = Suggest.fetchCitySuggestions P String_length text st)
  /\ (forall w name pending,
        cacheSorted w ->
        name <> "" ->
        name <> AppV2.citySearchQuery (AppV2.session w) ->
        String_trim P name <> "" ->
        let w1 := AppV2.step P w (AppV2.Search (Some name)) in
        let t1 := Suggest.rendered (AppV2.session w) (AppV2.session w1) pending in
        t1 = Some {| Suggest.seenQuery := name; Suggest.seenShown := false |}
        /\ Suggest.onTimer P String_length
             {| Suggest.seenQuery := name; Suggest.seenShown := false |} st
           = st).
Proof.
  intros Hin Hresp.
  assert (E : Suggest.settle ticket response st = Suggest.retire ticket st).
  { unfold Suggest.settle. rewrite Hin.
    by destruct Hresp as [-> | [-> | ->]]. }
  split; [split; [exact E|] | split; [|split; [|split]]].
  - intros Hq Hlen Hmiss. rewrite E. unfold Suggest.fetchCitySuggestions.
    rewrite Hq, Hlen. simpl. by rewrite Hmiss.
  - intros short Hshort. unfold Suggest.fetchCitySuggestions. by rewrite Hshort.
  - intros [tq ts] [Ht | Ht]; simpl in Ht; subst; unfold Suggest.onTimer; simpl;
      [done | by rewrite andb_false_r].
  - intros w text pending Hw Htext Hnew Htrim w1 t1 w2 t2.
    assert (Hw1 : cacheSorted w1) by by apply cacheSorted_step.
    assert (Hq1 : AppV2.citySearchQuery (AppV2.session w1) = text) by done.
    assert (Hs1 : AppV2.showSuggestions (AppV2.session w1) = true) by done.
    assert (Hq2 : AppV2.citySearchQuery (AppV2.session w2) = text).
    { unfold w2. simpl. by rewrite V2_performCitySearch_query. }
    assert (Ht1 : t1 = Some {| Suggest.seenQuery := text; Suggest.seenShown := true |}).
    { unfold t1, Suggest.rendered. rewrite Hq1.
      destruct (String.eqb_spec (AppV2.citySearchQuery (AppV2.session w)) text)
        as [Heq|_]; [by destruct Hnew|].
      unfold Suggest.armed. by rewrite Hq1, Hs1. }
    split; [|split].
    + unfold w2. simpl. apply V2_performCitySearch_hides.
      * cbv zeta. rewrite Hq1. by apply String.eqb_neq.
      * by apply performCitySearch_completes.
    + unfold t2, Suggest.rendered. rewrite Hq1, Hq2, String.eqb_refl. exact Ht1.
    + unfold Suggest.onTimer. simpl.
      by destruct (String.eqb_spec text "") as [Heq|_].
  - intros w name pending Hw Hname Hnew Htrim w1 t1.
    assert (Hq1 : AppV2.citySearchQuery (AppV2.session w1) = name) by done.
    assert (Hs1 : AppV2.showSuggestions (AppV2.session w1) = false).
    { unfold w1. simpl. apply V2_performCitySearch_hides.
      - cbv zeta. destruct (String.eqb_spec name "") as [Heq|_]; [done|].
        by apply String.eqb_neq.
      - by apply performCitySearch_completes. }
    split.
    + unfold t1, Suggest.rendered. rewrite Hq1.
      destruct (String.eqb_spec (AppV2.citySearchQuery (AppV2.session w)) name)
        as [Heq|_]; [by destruct Hnew|].
      unfold Suggest.armed. by rewrite Hq1, Hs1.
    + unfold Suggest.onTimer. simpl. by rewrite andb_false_r.
Qed.

Lemma X12_witness :
  let st1 := Suggest.fetchCitySuggestions Sample.platform Sample3.len "sob"
               Sample3.idle in
  let w2 := AppV2.run Sample.platform AppV2.initial
              [AppV2.Typed "sobral"; AppV2.Search None] in
  Suggest.settle 0 Malformed st1 = Suggest.retire 0 st1
  /\ Suggest.fetchCitySuggestions Sample.platform Sample3.len "s" st1 = st1
  /\ AppV2.showSuggestions (AppV2.session w2) = false
  /\ Suggest.started
       (Suggest.onTimer Sample.platform Sample3.len
          {| Suggest.seenQuery := "sobral"; Suggest.seenShown := true |} st1)
     = 2%nat.
Proof.
  assert (Hin : Suggest.waiting
                  (Suggest.fetchCitySuggestions Sample.platform Sample3.len "sob"
                     Sample3.idle) !! 0%nat = Some "sob")
    by (vm_compute; reflexivity).
  pose proof (X12_suggestion_failures Sample.platform Sample3.len _ 0%nat "sob"
                "sob" Malformed Hin (or_intror (or_introl eq_refl)))
    as ([H1 _] & H2 & _ & H4 & _).
  destruct (H4 AppV2.initial "sobral" None cacheSorted_initial
              ltac:(discriminate) ltac:(discriminate) ltac:(discriminate))
    as (Hhidden & _ & Hfire).
  split; [exact H1|]. split; [apply H2; reflexivity|].
  split; [exact Hhidden|].
  cbv zeta. rewrite Hfire. vm_compute. reflexivity.
Defined.

(* ===================================================================== *)
(** ** The first variant with its requests in flight                     *)
(* ===================================================================== *)

Section FirstVariant.

Variable P : Platform.

(** The cells the statements of [fetchCityData] never write. *)
Lemma V1_applyResult_untouched result place w :
  let s' := AppV1.session (fst (AppV1.applyResult P result place w)) in
  let s := AppV1.session w in
  AppV1.trackingPath s' = AppV1.trackingPath s
  /\ AppV1.isNavigating s' = AppV1.isNavigating s
  /\ AppV1.isLoading s' = AppV1.isLoading s
  /\ AppV1.currentLocation s' = AppV1.currentLocation s
  /\ AppV1.activeNavigation s' = AppV1.activeNavigation s.
Proof.
  unfold AppV1.applyResult, bind, liftC, ret, AppV1.set, AppV1.array_map, prop.
  destruct result as [| | | | | |o]; cbn -[mint obj_get js_or]; try done.
  destruct (obj_get "bars" o); cbn -[mint obj_get js_or]; try done.
  destruct (obj_get "districts" o); cbn -[mint obj_get js_or]; done.
Qed.

(** Started and settled without anything in between, the discovery of the
    page is [AppV1.fetchCityData]. *)
Lemma V1_fetchCityData_settled place response w :
  let w' := AppV1Page.fetchCityData_resume P place response
              (AppV1Page.retire (AppV1Page.issued w)
                 (AppV1Page.fetchCityData place w)) in
  {| AppV1.session := AppV1Page.core (AppV1Page.page w');
     AppV1.randomCalls := AppV1Page.randomCalls w' |}
  = AppV1.fetchCityData P place response
      {| AppV1.session := AppV1Page.core (AppV1Page.page w);
         AppV1.randomCalls := AppV1Page.randomCalls w |}.
Proof.
  unfold AppV1Page.fetchCityData_resume, AppV1.fetchCityData.
  destruct (cityPayload response); reflexivity.
Qed.

Lemma trackOnly_resume place response w :
  trackOnlyWhileNavigating (AppV1Page.core (AppV1Page.page w)) ->
  trackOnlyWhileNavigating
    (AppV1Page.core (AppV1Page.page (AppV1Page.fetchCityData_resume P place response w))).
Proof.
  unfold trackOnlyWhileNavigating, AppV1Page.fetchCityData_resume, try_catch.
  destruct (cityPayload response) as [result|]; [|done].
  cbn [AppV1Page.page AppV1Page.core AppV1Page.onPage AppV1Page.onCore
       AppV1.setIsLoading AppV1.isNavigating AppV1.trackingPath].
  destruct (V1_applyResult_untouched result place
              {| AppV1.session := AppV1Page.core (AppV1Page.page w);
                 AppV1.randomCalls := AppV1Page.randomCalls w |}) as (-> & -> & _).
  done.
Qed.

Lemma trackOnly_step w e :
  trackOnlyWhileNavigating (AppV1Page.core (AppV1Page.page w)) ->
  trackOnlyWhileNavigating (AppV1Page.core (AppV1Page.page (AppV1Page.step P w e))).
Proof.
  intros Hw. destruct e; simpl; try done.
  - unfold AppV1Page.performCitySearch.
    destruct forcedQuery as [q|]; simpl;
      repeat (match goal with |- context [if ?c then _ else _] => destruct c end);
      done.
  - unfold AppV1Page.goToLocation.
    by destruct (AppV1.currentLocation _).
  - destruct (AppV1Page.inflight w !! ticket) as [[query|place|item]|]; try done.
    + unfold AppV1Page.performCitySearch_resume.
      destruct (geoPayload response) as [[| | | | | |o]|]; try done.
      by destruct (_ && _).
    + by apply trackOnly_resume.
  - destruct (AppV1Page.inflight w !! ticket) as [[query|place|item]|]; try done.
    unfold AppV1Page.goToLocation_resume.
    by destruct (AppV1Page.fetchStreetRoute data).
  - unfold trackOnlyWhileNavigating in *.
    rewrite V1_hlu_trackingPath.
    pose proof (V1_hlu_frame P loc now (AppV1Page.core (AppV1Page.page w))) as [-> _].
    intros Hnav. rewrite Hnav. by apply Hw.
  - unfold trackOnlyWhileNavigating, AppV1.toggleNavigation in *.
    destruct (AppV1.isNavigating _); simpl; [done | discriminate].
Qed.

Lemma trackOnly_run es : forall w,
  trackOnlyWhileNavigating (AppV1Page.core (AppV1Page.page w)) ->
  trackOnlyWhileNavigating (AppV1Page.core (AppV1Page.page (AppV1Page.run P w es))).
Proof.
  induction es as [|e es IH]; intros w Hw; [done|].
  simpl. by apply IH, trackOnly_step.
Qed.

End FirstVariant.

(** X13: in the first variant a recorded track exists only during a
    journey: after any sequence of events from the first render, in any
    order of replies, the track is empty whenever tracking is off.  (The
    second variant records without looking at the flag.) *)
Theorem X13_first_variant_track_only_on_journey (P : Platform)
    (es : list AppV1Page.Event) :
  let s := AppV1Page.core (AppV1Page.page (AppV1Page.run P AppV1Page.initial es)) in
  AppV1.isNavigating s = false -> AppV1.trackingPath s = [].
Proof.
  cbv zeta. apply (trackOnly_run P es AppV1Page.initial). done.
Qed.

Lemma X13_witness :
  let es := [AppV1Page.Detected Sample.here; AppV1Page.Toggle;
             AppV1Page.LocationFound Sample.there 1000] in
  AppV1.trackingPath
    (AppV1Page.core
       (AppV1Page.page (AppV1Page.run Sample.platform AppV1Page.initial es)))
  = [Sample.point 1000 Sample.there]
  /\ AppV1.trackingPath
       (AppV1Page.core
          (AppV1Page.page
             (AppV1Page.run Sample.platform AppV1Page.initial
                (es ++ [AppV1Page.Toggle]))))
     = [].
Proof.
  cbv zeta. split; [vm_compute; reflexivity|].
  apply (X13_first_variant_track_only_on_journey Sample.platform).
  vm_compute. reflexivity.
Defined.

(** X14: in the first variant the search awaits its discovery.  When a
    geocode settles with truthy coordinates the map moves to them, a
    discovery is started and the loading flag stays on; it goes off when
    that discovery settles, whatever its reply.  (In the second variant
    the flag is already off while the discovery is in flight.) *)
Theorem X14_first_variant_search_awaits (P : Platform) (w : AppV1Page.World)
    (ticket : nat) (query : string) (o : JsObject) (response : AiResponse) :
  AppV1Page.inflight w !! ticket = Some (AppV1Page.AwaitGeocode query) ->
  truthy (obj_get "lat" o) = true ->
  truthy (obj_get "lng" o) = true ->
  let w1 := AppV1Page.step P w (AppV1Page.AiSettles ticket (Parsed (JObj o))) in
  let w2 := AppV1Page.step P w1 (AppV1Page.AiSettles (AppV1Page.issued w) response) in
  AppV1Page.mapCenter (AppV1Page.page w1)
  = JObj [("lat", obj_get "lat" o); ("lng", obj_get "lng" o)]
  /\ AppV1Page.inflight w1 !! AppV1Page.issued w = Some (AppV1Page.AwaitCityData query)
  /\ AppV1.isLoading (AppV1Page.core (AppV1Page.page w1)) = true
  /\ AppV1.isLoading (AppV1Page.core (AppV1Page.page w2)) = false.
Proof.
  intros Hin Hlat Hlng. cbv zeta.
  assert (E1 : AppV1Page.step P w (AppV1Page.AiSettles ticket (Parsed (JObj o)))
               = AppV1Page.fetchCityData query
                   (AppV1Page.onPage
                      (AppV1Page.setMapCenter
                         (JObj [("lat", obj_get "lat" o); ("lng", obj_get "lng" o)]))
                      (AppV1Page.retire ticket w))).
  { simpl. rewrite Hin. unfold AppV1Page.performCitySearch_resume. simpl.
    by rewrite Hlat, Hlng. }
  rewrite E1. split; [done|]. split; [apply lookup_insert_eq|]. split; [done|].
  simpl. rewrite lookup_insert_eq.
  unfold AppV1Page.fetchCityData_resume. by destruct (cityPayload response).
Qed.

Lemma X14_witness :
  let w1 := AppV1Page.step Sample.platform Sample4.searching
              (AppV1Page.AiSettles 0 (Parsed (JObj Sample.geoSobral))) in
  let w2 := AppV1Page.step Sample.platform w1 (AppV1Page.AiSettles 1 Rejected) in
  AppV1.isLoading (AppV1Page.core (AppV1Page.page w1)) = true
  /\ AppV1.isLoading (AppV1Page.core (AppV1Page.page w2)) = false.
Proof.
  pose proof (X14_first_variant_search_awaits Sample.platform Sample4.searching
                0%nat "sobral" Sample.geoSobral Rejected eq_refl eq_refl eq_refl)
    as (_ & _ & H1 & H2).
  split; [exact H1 | exact H2].
Defined.

(** X15: in the first variant a route that is found becomes the active
    route and moves the map to the target but does not touch the tracking
    flag: when tracking is off, the location updates that follow record
    nothing along the route.  (In the second variant the same reply
    switches tracking on.) *)
Theorem X15_first_variant_route_does_not_track (P : Platform)
    (w : AppV1Page.World) (ticket : nat) (item : JsObject) (route : OsrmRoute)
    (others : list OsrmRoute) (us : list (Location * Z)) :
  AppV1Page.inflight w !! ticket = Some (AppV1Page.AwaitRoute item) ->
  let w1 := AppV1Page.step P w
              (AppV1Page.RouteSettles ticket (RouteData (route :: others))) in
  let s1 := AppV1Page.core (AppV1Page.page w1) in
  (AppV1.nav_target <$> AppV1.activeNavigation s1 = Some item
   /\ AppV1Page.mapCenter (AppV1Page.page w1) = AppV1Page.latLngOf item
   /\ AppV1.isNavigating s1 = AppV1.isNavigating (AppV1Page.core (AppV1Page.page w))
   /\ AppV1.trackingPath s1 = AppV1.trackingPath (AppV1Page.core (AppV1Page.page w))
   /\ AppV1.isLoading s1 = false)
  /\ (AppV1.isNavigating (AppV1Page.core (AppV1Page.page w)) = false ->
      AppV1.trackingPath (deliver1 P us s1) = AppV1.trackingPath s1).
Proof.
  intros Hin. cbv zeta. simpl. rewrite Hin. simpl. split; [done|].
  intros Hnav. rewrite deliver1_track. simpl. by rewrite Hnav.
Qed.

Lemma X15_witness :
  let w1 := AppV1Page.step Sample.platform Sample4.routing
              (AppV1Page.RouteSettles 0 (RouteData [Sample.route])) in
  AppV1.isNavigating (AppV1Page.core (AppV1Page.page w1)) = false
  /\ AppV1.trackingPath
       (deliver1 Sample.platform [(Sample.there, 1000)]
          (AppV1Page.core (AppV1Page.page w1)))
     = [].
Proof.
  pose proof (X15_first_variant_route_does_not_track Sample.platform
                Sample4.routing 0%nat Sample2.barA Sample.route []
                [(Sample.there, 1000)] eq_refl) as [(_ & _ & Hn & _) Ht].
  split; [exact Hn | exact (Ht eq_refl)].
Defined.

(* ===================================================================== *)
(** ** Partial updates                                                   *)
(* ===================================================================== *)

Section Partial.

Variable P : Platform.

Lemma V2_applyCityData_no_districts o bars la ln place w :
  obj_get "bars" o = JArr bars ->
  (forall items, obj_get "districts" o <> JArr items) ->
  let r := AppV2.applyCityData P (JObj o) la ln place w in
  snd r = Throw
  /\ AppV2.businesses (AppV2.session (fst r)) = mint P asBusiness bars (AppV2.randomCalls w)
  /\ AppV2.districts (AppV2.session (fst r)) = AppV2.districts (AppV2.session w)
  /\ AppV2.selectedPoint (AppV2.session (fst r)) = AppV2.selectedPoint (AppV2.session w)
  /\ AppV2.cityName (AppV2.session (fst r)) = js_or (obj_get "cityName" o) (JStr place).
Proof.
  intros Hb Hd.
  unfold AppV2.applyCityData, bind, liftC, ret, AppV2.set, AppV2.array_map, prop.
  cbn -[mint obj_get js_or]. rewrite Hb. cbn -[mint obj_get js_or].
  destruct (obj_get "districts" o) as [| | | | |items|]; cbn -[mint obj_get js_or];
    try done.
  by destruct (Hd items).
Qed.

End Partial.

(** X16: [applyCityData] sets the cells one after the other, so a payload
    whose [bars] is an array but whose [districts] is not leaves a mixed
    session: the reply is cached, the city name and the points of interest
    are those of the new city, while the districts and the selected point
    are still those shown before; the [catch] swallows the error and the
    loading flag is cleared. *)
Theorem X16_payload_without_districts_mixes_cities (P : Platform)
    (w : AppV2.World) (ticket : nat) (la ln : float) (place key : string)
    (o : JsObject) (bars : list JsValue) :
  AppV2.inflight w !! ticket = Some (AppV2.AwaitCityData la ln place key) ->
  obj_get "bars" o = JArr bars ->
  (forall items, obj_get "districts" o <> JArr items) ->
  let w' := AppV2.step P w (AppV2.AiSettles ticket (Parsed (JObj o))) in
  AppV2.businesses (AppV2.session w') = mint P asBusiness bars (AppV2.randomCalls w)
  /\ AppV2.cityName (AppV2.session w') = js_or (obj_get "cityName" o) (JStr place)
  /\ AppV2.districts (AppV2.session w') = AppV2.districts (AppV2.session w)
  /\ AppV2.selectedPoint (AppV2.session w') = AppV2.selectedPoint (AppV2.session w)
  /\ AppV2.searchCache w' !! key = Some (JObj o)
  /\ AppV2.isLoading (AppV2.session w') = false.
Proof.
  intros Hin Hb Hd. cbv zeta. simpl. rewrite Hin.
  unfold AppV2.fetchCityData_resume, try_catch. cbn [cityPayload].
  destruct (V2_applyCityData_no_districts P o bars la ln place
              (AppV2.cacheSet key (JObj o) (AppV2.retire ticket w)) Hb Hd)
    as (_ & Hbs & Hdd & Hsel & Hname).
  destruct (V2_applyCityData_frame P (JObj o) la ln place
              (AppV2.cacheSet key (JObj o) (AppV2.retire ticket w)))
    as (Hcache & _).
  cbn [AppV2.onSession AppV2.session AppV2.searchCache AppV2.setIsLoading
       AppV2.businesses AppV2.districts AppV2.cityName AppV2.selectedPoint
       AppV2.isLoading].
  rewrite Hbs, Hdd, Hsel, Hname, Hcache. simpl.
  rewrite lookup_insert_eq. done.
Qed.

(** The discovery in flight in [Sample.located] settles with bars only:
    one new bar, and the district of the city shown before. *)
Lemma X16_witness :
  let w' := AppV2.step Sample.platform Sample.located
              (AppV2.AiSettles 1 (Parsed (JObj Sample5.barsOnly))) in
  AppV2.cityName (AppV2.session w') = JStr "Ubajara"
  /\ length (AppV2.businesses (AppV2.session w')) = 1%nat
  /\ AppV2.districts (AppV2.session w') = AppV2.districts (AppV2.session Sample.located)
  /\ length (AppV2.districts (AppV2.session w')) = 1%nat.
Proof.
  assert (Hin : AppV2.inflight Sample.located !! 1%nat
                = Some (AppV2.AwaitCityData 10 20 "Local" "10.0000,20.0000"))
    by (vm_compute; reflexivity).
  assert (Hd : forall items,
             obj_get "districts" Sample5.barsOnly <> JArr items) by discriminate.
  pose proof (X16_payload_without_districts_mixes_cities Sample.platform
                Sample.located 1%nat 10 20 "Local" "10.0000,20.0000"
                Sample5.barsOnly [Sample.bar "Bar C" 10.004 20.004] Hin eq_refl Hd)
    as (Hbs & Hname & Hdd & _).
  cbv zeta. split; [exact Hname|]. split; [by rewrite Hbs|].
  split; [exact Hdd|]. rewrite Hdd. vm_compute. reflexivity.
Defined.
